(** * The metaG / metaT comparison pipeline ([src/metaG_metaT/similar.py])

    A shallow embedding of the pipeline that classifies a metagenomic and a
    metatranscriptomic sample with two external tools, joins the two
    abundance tables on the taxon name and scores their similarity.

    Conventions of the embedding:
    - Python [str] is [string]; the builtins below are the ASCII fragment of
      the Python ones (the statements that depend on it say so);
    - Python [float] is the kernel's binary64 [float]; integers are [Z];
    - a function that touches the outside world (shell commands, the file
      system, the console) is a computation in the monad [M]: it threads the
      history of what the process did so far, and the outside world answers
      through the oracles of a [World], each of which sees that history;
    - a Python exception is [Raise], [sys.exit] is [SysExit];
    - the file system takes what the process gives it: [os.makedirs],
      [to_csv], [open(..., "w")] and [os.remove] succeed, and a file that
      the process wrote is read back as it was written. What the process
      reads of the outside world can fail: a command, a report that cannot
      be opened, a table that cannot be read or has no name column. *)

From Stdlib Require Import ZArith List String Ascii Bool Lia.
From Stdlib Require Import Permutation Sorted.
From Stdlib Require Import Floats Uint63.
From stdpp Require Import base gmap sets list strings.

Set Warnings "-inexact-float".
Open Scope string_scope.

(** ** Python builtins on strings and paths *)

Module Py.

(** [c.isspace()] for an ASCII character: TAB, LF, VT, FF, CR, FS, GS, RS,
    US and the space. *)
Definition isspace (c : ascii) : bool :=
  let n := nat_of_ascii c in
  ((9 <=? n)%nat && (n <=? 13)%nat) || ((28 <=? n)%nat && (n <=? 32)%nat).

(** [c.isdigit()] for an ASCII character. *)
Definition isdigit_char (c : ascii) : bool :=
  let n := nat_of_ascii c in (48 <=? n)%nat && (n <=? 57)%nat.

Definition isascii_char (c : ascii) : bool := (nat_of_ascii c <? 128)%nat.

Fixpoint forallb_string (p : ascii -> bool) (s : string) : bool :=
  match s with
  | EmptyString => true
  | String c s' => p c && forallb_string p s'
  end.

(** [s.isascii()] *)
Definition isascii (s : string) : bool := forallb_string isascii_char s.

(** [s.isdigit()]: at least one character, all of them digits. *)
Definition isdigit (s : string) : bool :=
  match s with
  | EmptyString => false
  | _ => forallb_string isdigit_char s
  end.

(** [c in s] for a one-character [c]. *)
Fixpoint contains (c : ascii) (s : string) : bool :=
  match s with
  | EmptyString => false
  | String a s' => Ascii.eqb a c || contains c s'
  end.

Fixpoint lstrip (s : string) : string :=
  match s with
  | EmptyString => EmptyString
  | String c s' => if isspace c then lstrip s' else s
  end.

Fixpoint rstrip (s : string) : string :=
  match s with
  | EmptyString => EmptyString
  | String c s' =>
      match rstrip s' with
      | EmptyString => if isspace c then EmptyString else String c EmptyString
      | r => String c r
      end
  end.

(** [s.strip()] *)
Definition strip (s : string) : string := rstrip (lstrip s).

(** [s.split(sep)] for a one-character separator: never the empty list. *)
Fixpoint split (sep : ascii) (s : string) : list string :=
  match s with
  | EmptyString => [EmptyString]
  | String c s' =>
      if Ascii.eqb c sep then EmptyString :: split sep s'
      else match split sep s' with
           | [] => [String c EmptyString]
           | x :: xs => String c x :: xs
           end
  end.

(** [parts[0]] and [parts[-1]] of a list that [split] produced. *)
Definition first (parts : list string) : string := hd EmptyString parts.
Definition last (parts : list string) : string := List.last parts EmptyString.

(** [s.endswith(suffix)] *)
Definition endswith (s suffix : string) : bool :=
  (String.length suffix <=? String.length s)%nat
  && String.eqb
       (substring (String.length s - String.length suffix)
          (String.length suffix) s)
       suffix.

Definition startswith (s pre : string) : bool := String.prefix pre s.

(** [sep.join(parts)] *)
Definition join (sep : string) (parts : list string) : string :=
  String.concat sep parts.

(** [os.path.basename(p)] (POSIX): what follows the last slash. *)
Definition basename (p : string) : string := last (split "/" p).

(** [os.path.join(a, b)] (POSIX). *)
Definition path_join (a b : string) : string :=
  if startswith b "/" then b
  else if String.eqb a "" || endswith a "/" then a +:+ b
  else a +:+ "/" +:+ b.

End Py.

(** ** Effects: the process history, the outside world, the monad *)

(** Python exceptions the pipeline raises or lets through. *)
Inductive exn : Type :=
| FileNotFoundError (msg : string)
| RuntimeError (msg : string)
| ValueError
| IndexError
| KeyError
| OSError
| ParserError.

(** The outcome of a computation: a value, an exception on its way up, or
    [sys.exit(code)] (a [SystemExit], which [except Exception] lets pass). *)
Inductive result (A : Type) : Type :=
| Return (a : A)
| Raise (e : exn)
| SysExit (code : Z).
Arguments Return {A} a.
Arguments Raise {A} e.
Arguments SysExit {A} code.

(** The exit status of the interpreter: 0 at the end of the script, the
    argument of [sys.exit], 1 after an uncaught exception. *)
Definition exit_status {A} (r : result A) : Z :=
  match r with
  | Return _ => 0
  | Raise _ => 1
  | SysExit code => code
  end.

(** ** Data model *)

(** One row of the re-estimation tool's table, as [pd.read_csv] loads it:
    the seven columns name, taxonomy_id, taxonomy_lvl, kraken_assigned_reads,
    added_reads, new_est_reads, fraction_total_reads. The cells of the name,
    integer and text columns are there; a fraction that is missing in the
    file is the NaN that pandas reads for it. *)
Record AbundanceRecord : Type := {
  name : string;
  taxonomy_id : Z;
  taxonomy_lvl : string;
  kraken_assigned_reads : Z;
  added_reads : Z;
  new_est_reads : Z;
  fraction_total_reads : float
}.

(** An abundance table is the ordered list of its rows. *)
Definition AbundanceTable : Type := list AbundanceRecord.

(** What [pd.read_csv] makes of a delimited file that it can read: a table
    of the re-estimation tool, with its seven columns, or a frame without a
    column called name, the key of the join (the file of another tool, a
    file with another header). The pipeline copies such a frame as it is;
    [pd.merge(..., on="name")] and [df['name']] raise [KeyError] on it. *)
Inductive frame : Type :=
| Table (t : AbundanceTable)
| NoNameColumn.

Coercion Table : AbundanceTable >-> frame.

(** A numeric cell that holds a read count in a taxon row and a percentage in
    the summary row. *)
Inductive num : Type :=
| Int (n : Z)
| Flt (x : float).

(** One row of the merged and of the overlap table, a field per column of
    [output_cols]. The model is of the values of the cells: the column dtype
    that pandas picks for the whole column is not part of it. *)
Record MergedRow : Type := {
  m_name : string;
  taxonomy_id_metaG : Z;
  taxonomy_lvl_metaG : string;
  kraken_assigned_reads_metaG : Z;
  added_reads_metaG : Z;
  new_est_reads_metaG : num;
  fraction_total_reads_metaG : float;
  taxonomy_id_metaT : Z;
  taxonomy_lvl_metaT : string;
  kraken_assigned_reads_metaT : Z;
  added_reads_metaT : Z;
  new_est_reads_metaT : num;
  fraction_total_reads_metaT : float;
  difference : float
}.

(** A written merged or overlap artifact: the header and the rows. *)
Record MergedFrame : Type := {
  columns : list string;
  rows : list MergedRow
}.

(** The set of taxon names of a table. *)
Definition taxa (t : AbundanceTable) : gset string := list_to_set (map name t).

(** What the process prints when something goes wrong (the informational
    lines are left out of the model). *)
Inductive message : Type :=
| MsgCommandFailed (returncode : Z) (cmd : string)
| MsgParseWarning
| MsgReadLenNotInteger
| MsgInputPreparationFailed (e : exn)
| MsgKrakenBrackenFailed (e : exn)
| MsgConversionFailed (e : exn).

(** What the process did to the outside world, oldest first. *)
Inductive event : Type :=
| Shell (cmd : string)
| MakeDirs (path : string)
| WriteTable (path : string) (t : frame)
| WriteFrame (path : string) (f : MergedFrame)
| WriteLog (path : string) (id_g id_t : string) (sim diff : float)
| RemoveFile (path : string)
| Print (m : message).

Definition trace : Type := list event.

(** The outside world. Every oracle is asked with the history so far, so its
    answer may depend on what the process, and the tools it ran, did before. *)
Record World : Type := {
  (** [os.path.isfile] *)
  w_isfile : trace -> string -> bool;
  (** the exit status of a shell command that is about to run *)
  w_returncode : trace -> string -> Z;
  (** [glob.glob] *)
  w_glob : trace -> string -> list string;
  (** the lines of a text file, [None] when it cannot be opened *)
  w_lines : trace -> string -> option (list string);
  (** [pd.read_csv] of a file the process did not write itself, [None] when
      it cannot be read as a table *)
  w_table : trace -> string -> option frame
}.

(** The monad: a computation maps the history so far to an outcome and the
    extended history. *)
Definition M (A : Type) : Type := trace -> result A * trace.

Definition ret {A} (a : A) : M A := fun tr => (Return a, tr).

Definition bind {A B} (m : M A) (k : A -> M B) : M B :=
  fun tr =>
    match m tr with
    | (Return a, tr') => k a tr'
    | (Raise e, tr') => (Raise e, tr')
    | (SysExit c, tr') => (SysExit c, tr')
    end.

Declare Scope py_scope.
Delimit Scope py_scope with py.
Notation "'let*' x ':=' m 'in' k" := (bind m (fun x => k))
  (at level 10, x pattern, m at level 100, k at level 200) : py_scope.
Notation "m ;;; k" := (bind m (fun _ => k))
  (at level 100, right associativity) : py_scope.
Open Scope py_scope.

(** [raise e] *)
Definition raise {A} (e : exn) : M A := fun tr => (Raise e, tr).

(** [sys.exit(code)] *)
Definition sys_exit {A} (code : Z) : M A := fun tr => (SysExit code, tr).

(** [try: body  except Exception as e: handler(e)]; a [SystemExit] is not an
    [Exception] and goes through. *)
Definition try_except {A} (body : M A) (handler : exn -> M A) : M A :=
  fun tr =>
    match body tr with
    | (Raise e, tr') => handler e tr'
    | other => other
    end.

(** Record one event. *)
Definition emit (e : event) : M unit := fun tr => (Return tt, (tr ++ [e])%list).

Definition print (m : message) : M unit := emit (Print m).

(** Ask an oracle with the history so far. *)
Definition ask {A} (q : trace -> A) : M A := fun tr => (Return (q tr), tr).

(** ** pandas: joining two frames on a string key *)

Section Join.

Context {L R : Type}.
Variable kl : L -> string.
Variable kr : R -> string.

(** A row of [pd.merge]: the key, and the cells of each side, which are all
    missing (NaN) together when that side has no row with the key. *)
Record Joined : Type := {
  key : string;
  left : option L;
  right : option R
}.

(** The rows of the right frame whose key is [k], in order. *)
Definition matching (k : string) (B : list R) : list R :=
  List.filter (fun r => String.eqb (kr r) k) B.

Definition has_key (k : string) (A : list L) : bool :=
  existsb (fun l => String.eqb (kl l) k) A.

(** The rows that a left row gives: one per matching right row, or one
    with the right side missing. *)
Definition left_rows (B : list R) (l : L) : list Joined :=
  match matching (kl l) B with
  | [] => [ {| key := kl l; left := Some l; right := None |} ]
  | ms => map (fun r => {| key := kl l; left := Some l; right := Some r |}) ms
  end.

(** The right rows whose key no left row has. *)
Definition right_only (A : list L) (B : list R) : list Joined :=
  map (fun r => {| key := kr r; left := None; right := Some r |})
    (List.filter (fun r => negb (has_key (kr r) A)) B).

(** Rows are put in the lexicographic order of their keys; rows with equal
    keys keep their relative order. *)
Fixpoint insert_by_key (x : Joined) (l : list Joined) : list Joined :=
  match l with
  | [] => [x]
  | y :: l' =>
      if String.leb (key x) (key y) then x :: l
      else y :: insert_by_key x l'
  end.

Definition sort_by_key (l : list Joined) : list Joined :=
  fold_right insert_by_key [] l.

(** [pd.merge(A, B, how="outer")]: the union of the keys of both frames,
    keys sorted lexicographically. *)
Definition pd_merge_outer (A : list L) (B : list R) : list Joined :=
  sort_by_key (flat_map (left_rows B) A ++ right_only A B)%list.

(** [pd.merge(A, B, how="inner")]: the keys that both frames have, in the
    order of the left frame. *)
Definition pd_merge_inner (A : list L) (B : list R) : list (L * R) :=
  flat_map (fun l => map (fun r => (l, r)) (matching (kl l) B)) A.

End Join.

Arguments Joined L R : clear implicits.
Arguments key {L R} j.
Arguments left {L R} j.
Arguments right {L R} j.

(** [column.fillna(v)] on one cell of a column whose cells are there when
    the row has that side (the integer and text columns of a table). *)
Definition fillna {A} (v : A) (cell : option A) : A :=
  match cell with
  | Some x => x
  | None => v
  end.

(** [column.fillna(v)] on one cell of a float column. The missing value of
    pandas in such a column is NaN: the cell of an absent side and a NaN
    that was read from the file are the same to it, and both are filled. *)
Definition fillna_float (v : float) (cell : option float) : float :=
  match cell with
  | Some x => if PrimFloat.is_nan x then v else x
  | None => v
  end.

(** ** scipy and numpy on vectors of floats *)

Module Scipy.

(** [np.dot(u, v)], the products added from left to right (numpy adds them
    in an order of its own, which gives the same sum whenever no addition
    rounds). *)
Definition dot (u v : list float) : float :=
  fold_left (fun acc p => PrimFloat.add acc (PrimFloat.mul (fst p) (snd p)))
    (combine u v) 0%float.

(** [np.maximum] and [np.minimum] on scalars: a NaN operand gives NaN. *)
Definition maximum (x y : float) : float :=
  if PrimFloat.is_nan x then x
  else if PrimFloat.is_nan y then y
  else if PrimFloat.ltb x y then y else x.

Definition minimum (x y : float) : float :=
  if PrimFloat.is_nan x then x
  else if PrimFloat.is_nan y then y
  else if PrimFloat.ltb y x then y else x.

(** [np.clip(x, lo, hi)] *)
Definition clip (x lo hi : float) : float := minimum (maximum x lo) hi.

(** [scipy.spatial.distance.cosine(u, v)] on two one-dimensional float
    arrays of the same length: [1 - u.v / sqrt(u.u * v.v)], clipped to
    [0, 2]. The division is numpy's, which gives NaN or an infinity where
    Python's own would raise: the function returns on every such input. *)
Definition cosine (u v : list float) : exn + float :=
  let uv := dot u v in
  let uu := dot u u in
  let vv := dot v v in
  let dist :=
    PrimFloat.sub 1%float
      (PrimFloat.div uv (PrimFloat.sqrt (PrimFloat.mul uu vv))) in
  inr (clip dist 0%float 2%float).

End Scipy.

(** ** [similar.py] *)

Definition TAB : ascii := ascii_of_nat 9.

Definition CLASSIFICATION_STATS : string := "CLASSIFICATION_STATS".

(** The fourteen columns of both artifacts, in order. *)
Definition output_cols : list string :=
  [ "name";
    "taxonomy_id_metaG"; "taxonomy_lvl_metaG"; "kraken_assigned_reads_metaG";
    "added_reads_metaG"; "new_est_reads_metaG"; "fraction_total_reads_metaG";
    "taxonomy_id_metaT"; "taxonomy_lvl_metaT"; "kraken_assigned_reads_metaT";
    "added_reads_metaT"; "new_est_reads_metaT"; "fraction_total_reads_metaT";
    "difference" ].

(** The row of the full outer join after the two [fillna] steps and the
    subtraction: the fractions are filled with 0 first, the difference is
    taken, then the remaining missing cells get their placeholders. *)
Definition merged_row (j : Joined AbundanceRecord AbundanceRecord) : MergedRow :=
  let fraction_g := fillna_float 0%float (fraction_total_reads <$> left j) in
  let fraction_t := fillna_float 0%float (fraction_total_reads <$> right j) in
  {| m_name := key j;
     taxonomy_id_metaG := fillna 0%Z (taxonomy_id <$> left j);
     taxonomy_lvl_metaG := fillna "S" (taxonomy_lvl <$> left j);
     kraken_assigned_reads_metaG := fillna 0%Z (kraken_assigned_reads <$> left j);
     added_reads_metaG := fillna 0%Z (added_reads <$> left j);
     new_est_reads_metaG := Int (fillna 0%Z (new_est_reads <$> left j));
     fraction_total_reads_metaG := fraction_g;
     taxonomy_id_metaT := fillna 0%Z (taxonomy_id <$> right j);
     taxonomy_lvl_metaT := fillna "S" (taxonomy_lvl <$> right j);
     kraken_assigned_reads_metaT := fillna 0%Z (kraken_assigned_reads <$> right j);
     added_reads_metaT := fillna 0%Z (added_reads <$> right j);
     new_est_reads_metaT := Int (fillna 0%Z (new_est_reads <$> right j));
     fraction_total_reads_metaT := fraction_t;
     difference := PrimFloat.sub fraction_g fraction_t |}.

(** The row of the inner join: both sides are there, nothing is filled. *)
Definition overlap_row (p : AbundanceRecord * AbundanceRecord) : MergedRow :=
  let (g, t) := p in
  {| m_name := name g;
     taxonomy_id_metaG := taxonomy_id g;
     taxonomy_lvl_metaG := taxonomy_lvl g;
     kraken_assigned_reads_metaG := kraken_assigned_reads g;
     added_reads_metaG := added_reads g;
     new_est_reads_metaG := Int (new_est_reads g);
     fraction_total_reads_metaG := fraction_total_reads g;
     taxonomy_id_metaT := taxonomy_id t;
     taxonomy_lvl_metaT := taxonomy_lvl t;
     kraken_assigned_reads_metaT := kraken_assigned_reads t;
     added_reads_metaT := added_reads t;
     new_est_reads_metaT := Int (new_est_reads t);
     fraction_total_reads_metaT := fraction_total_reads t;
     difference :=
       PrimFloat.sub (fraction_total_reads g) (fraction_total_reads t) |}.

(** The summary row that both artifacts start with. *)
Definition meta_row (pct_g_class pct_g_unclass pct_t_class pct_t_unclass : float)
  : MergedRow :=
  {| m_name := CLASSIFICATION_STATS;
     taxonomy_id_metaG := 0;
     taxonomy_lvl_metaG := "N/A";
     kraken_assigned_reads_metaG := 0;
     added_reads_metaG := 0;
     new_est_reads_metaG := Flt pct_g_unclass;
     fraction_total_reads_metaG := pct_g_class;
     taxonomy_id_metaT := 0;
     taxonomy_lvl_metaT := "N/A";
     kraken_assigned_reads_metaT := 0;
     added_reads_metaT := 0;
     new_est_reads_metaT := Flt pct_t_unclass;
     fraction_total_reads_metaT := pct_t_class;
     difference := PrimFloat.sub pct_g_class pct_t_class |}.

(** The taxon rows of the merged artifact (everything below the summary
    row), and those of the overlap artifact. *)
Definition merged_taxon_rows (df_g df_t : AbundanceTable) : list MergedRow :=
  map merged_row (pd_merge_outer name name df_g df_t).

Definition overlap_taxon_rows (df_g df_t : AbundanceTable) : list MergedRow :=
  map overlap_row (pd_merge_inner name name df_g df_t).

(** [merge_metag_metat] on the two loaded frames: the merged and the overlap
    frame that it writes. *)
Definition merge_metag_metat (df_g df_t : AbundanceTable)
    (pct_g_class pct_g_unclass pct_t_class pct_t_unclass : float)
  : MergedFrame * MergedFrame :=
  let meta := meta_row pct_g_class pct_g_unclass pct_t_class pct_t_unclass in
  ( {| columns := output_cols; rows := meta :: merged_taxon_rows df_g df_t |},
    {| columns := output_cols; rows := meta :: overlap_taxon_rows df_g df_t |} ).

(** [df[df['name'] != 'CLASSIFICATION_STATS']] *)
Definition drop_stats (df : AbundanceTable) : AbundanceTable :=
  List.filter (fun r => negb (String.eqb (name r) CLASSIFICATION_STATS)) df.

(** The two columns that [compute_similarity] keeps of a frame. *)
Definition name_fraction (r : AbundanceRecord) : string * float :=
  (name r, fraction_total_reads r).

(** The frame [all_abund] of [compute_similarity] and its two vectors. *)
Definition all_abund (df_g df_t : AbundanceTable)
  : list (Joined (string * float) (string * float)) :=
  pd_merge_outer fst fst
    (map name_fraction (drop_stats df_g)) (map name_fraction (drop_stats df_t)).

Definition vec_g (df_g df_t : AbundanceTable) : list float :=
  map (fun j => fillna_float 0%float (snd <$> left j)) (all_abund df_g df_t).

Definition vec_t (df_g df_t : AbundanceTable) : list float :=
  map (fun j => fillna_float 0%float (snd <$> right j)) (all_abund df_g df_t).

(** [sum(abs(a - b) for a, b in zip(u, v))] *)
Definition difference_score (u v : list float) : float :=
  fold_left
    (fun acc p => PrimFloat.add acc (PrimFloat.abs (PrimFloat.sub (fst p) (snd p))))
    (combine u v) 0%float.

Section Similarity.

(** [scipy.spatial.distance.cosine]: it returns a distance or raises. *)
Variable cosine : list float -> list float -> exn + float.

(** [compute_similarity] on the two loaded frames: the pair
    [(sim, difference_score)] that it returns. *)
Definition compute_similarity (df_g df_t : AbundanceTable) : float * float :=
  let u := vec_g df_g df_t in
  let v := vec_t df_g df_t in
  let sim :=
    match cosine u v with
    | inr d => PrimFloat.sub 1%float d
    | inl _ => 0%float
    end in
  (sim, difference_score u v).

End Similarity.

(** An f-string: its pieces, concatenated. *)
Definition fstr (pieces : list string) : string := String.concat "" pieces.

(** The table that the process itself wrote last at [path], if any. *)
Fixpoint last_written (path : string) (tr : trace) : option frame :=
  match tr with
  | [] => None
  | e :: tr' =>
      match last_written path tr' with
      | Some t => Some t
      | None =>
          match e with
          | WriteTable p t => if String.eqb p path then Some t else None
          | _ => None
          end
      end
  end.

Section Pipeline.

Variable W : World.

(** The builtin [float(s)]: [None] stands for its [ValueError]. *)
Variable py_float : string -> option float.

Variable cosine : list float -> list float -> exn + float.

(** [pd.read_csv(path)]: a frame the process wrote is read back as it was
    written, any other file is the world's: a frame, or a file that pandas
    cannot read, for which it raises. *)
Definition read_csv (path : string) : M frame :=
  fun tr =>
    match last_written path tr with
    | Some t => (Return t, tr)
    | None =>
        match w_table W tr path with
        | Some t => (Return t, tr)
        | None => (Raise ParserError, tr)
        end
    end.

(** [run_command]: run a shell command; a non-zero exit status is reported
    and ends the process. *)
Definition run_command (cmd : string) : M unit :=
  let* returncode := ask (fun tr => w_returncode W tr cmd) in
  emit (Shell cmd) ;;;
  if Z.eqb returncode 0 then ret tt
  else (print (MsgCommandFailed returncode cmd) ;;; sys_exit 1).

(** The loop of [parse_classification_percents] over the lines of the
    report, from the current values of the two percentages. *)
Fixpoint scan_report (lines : list string)
    (percent_classified percent_unclassified : float)
  : result (float * float) :=
  match lines with
  | [] => Return (percent_classified, percent_unclassified)
  | line :: rest =>
      let parts := Py.split TAB (Py.strip line) in
      if (length parts <? 2)%nat
      then scan_report rest percent_classified percent_unclassified
      else
        match py_float (Py.strip (Py.first parts)) with
        | None => Raise ValueError
        | Some pct =>
            let label := Py.strip (Py.last parts) in
            if String.eqb label "unclassified"
            then scan_report rest percent_classified pct
            else if String.eqb label "root"
            then scan_report rest pct percent_unclassified
            else scan_report rest percent_classified percent_unclassified
        end
  end.

Definition lift {A} (r : result A) : M A := fun tr => (r, tr).

Definition parse_classification_percents (report_file : string)
  : M (float * float) :=
  let* f := ask (fun tr => w_lines W tr report_file) in
  match f with
  | None => raise OSError
  | Some lines =>
      let* p := lift (scan_report lines 0%float 0%float) in
      let (percent_classified, percent_unclassified) := p in
      (if PrimFloat.eqb percent_classified 0%float
          && PrimFloat.eqb percent_unclassified 0%float
       then print MsgParseWarning else ret tt) ;;;
      ret (percent_classified, percent_unclassified)
  end.

Definition not_a_fastq (input_source : string) : exn :=
  FileNotFoundError
    (fstr ["Input file "; input_source;
           " does not look like a FASTQ. Please use .fastq or .fastq.gz."]).

Definition no_fastq_produced (acc : string) : exn :=
  RuntimeError
    (fstr ["fasterq-dump failed to produce FASTQ files for "; acc; "."]).

Definition prefetch_cmd (acc sra_dir : string) : string :=
  fstr ["prefetch "; acc; " --output-directory "; sra_dir; " --max-size 500G"].

Definition fasterq_dump_cmd (acc sra_dir tmp_dump_dir : string) : string :=
  fstr ["fasterq-dump "; acc; " -O "; sra_dir; " --temp "; tmp_dump_dir;
        " --split-files"].

(** [prepare_input]: the FASTQ files of a sample and its canonical id. The
    two [os.makedirs] are events: the model has no failure of theirs. *)
Definition prepare_input (input_source output_folder : string)
  : M (list string * string) :=
  let* isfile := ask (fun tr => w_isfile W tr input_source) in
  if isfile then
    if Py.endswith input_source ".fastq" || Py.endswith input_source ".fastq.gz"
    then
      let base_name := Py.first (Py.split "." (Py.basename input_source)) in
      ret ([input_source], base_name)
    else raise (not_a_fastq input_source)
  else
    let acc := input_source in
    let sra_dir := Py.path_join output_folder acc in
    emit (MakeDirs sra_dir) ;;;
    run_command (prefetch_cmd acc sra_dir) ;;;
    let tmp_dump_dir := Py.path_join sra_dir "tmp_dump" in
    emit (MakeDirs tmp_dump_dir) ;;;
    run_command (fasterq_dump_cmd acc sra_dir tmp_dump_dir) ;;;
    let* fastq_files :=
      ask (fun tr => w_glob W tr (fstr [sra_dir; "/"; acc; "*.fastq"])) in
    match fastq_files with
    | [] => raise (no_fastq_produced acc)
    | _ => ret (fastq_files, acc)
    end.

Definition kraken2_cmd (kraken_db kraken_paired_flag fq_inputs
    kraken_report kraken_out : string) : string :=
  fstr ["kraken2 --db "; kraken_db; " --threads 8 --use-names ";
        kraken_paired_flag; " "; fq_inputs; " ";
        "--report "; kraken_report; " --output "; kraken_out].

Definition bracken_cmd (kraken_db kraken_report bracken_tsv read_len : string)
  : string :=
  fstr ["bracken -d "; kraken_db; " -i "; kraken_report; " -o "; bracken_tsv;
        " -l S -r "; read_len].

(** [run_kraken_bracken]: classify, re-estimate, convert the table to CSV and
    read the two percentages of the report. *)
Definition run_kraken_bracken (fastq_files : list string)
    (kraken_db outdir pre read_len : string) : M (string * float * float) :=
  let kraken_out := Py.path_join outdir (fstr [pre; "_kraken2.out"]) in
  let kraken_report := Py.path_join outdir (fstr [pre; "_kraken2.report"]) in
  let bracken_tsv := Py.path_join outdir (fstr [pre; "_bracken.tsv"]) in
  let bracken_csv := Py.path_join outdir (fstr [pre; "_bracken.csv"]) in
  let fq_inputs := Py.join " " fastq_files in
  let kraken_paired_flag :=
    if (1 <? length fastq_files)%nat then "--paired" else "" in
  run_command
    (kraken2_cmd kraken_db kraken_paired_flag fq_inputs kraken_report kraken_out) ;;;
  run_command (bracken_cmd kraken_db kraken_report bracken_tsv read_len) ;;;
  try_except
    (let* df := read_csv bracken_tsv in
     emit (WriteTable bracken_csv df) ;;;
     emit (RemoveFile bracken_tsv))
    (fun e => print (MsgConversionFailed e) ;;; sys_exit 1) ;;;
  let* p := parse_classification_percents kraken_report in
  let (pct_class, pct_unclass) := p in
  ret (bracken_csv, pct_class, pct_unclass).

(** [merge_metag_metat] with its reads and writes. *)
Definition merge_metag_metat_io (bracken_g_csv bracken_t_csv : string)
    (pct_g_class pct_g_unclass pct_t_class pct_t_unclass : float)
    (merged_csv overlap_csv : string) : M (string * string) :=
  let* df_g := read_csv bracken_g_csv in
  let* df_t := read_csv bracken_t_csv in
  match df_g, df_t with
  | Table df_g, Table df_t =>
      let (merged, overlap) :=
        merge_metag_metat df_g df_t
          pct_g_class pct_g_unclass pct_t_class pct_t_unclass in
      emit (WriteFrame merged_csv merged) ;;;
      emit (WriteFrame overlap_csv overlap) ;;;
      ret (merged_csv, overlap_csv)
  | _, _ => raise KeyError
  end.

(** [compute_similarity] with its reads and the log it writes. *)
Definition compute_similarity_io (bracken_g bracken_t folder_path
    final_name : string) : M (float * float) :=
  let* df := read_csv bracken_g in
  match df with
  | NoNameColumn => raise KeyError
  | Table df_g =>
      let* df_t := read_csv bracken_t in
      match df_t with
      | NoNameColumn => raise KeyError
      | Table df_t =>
          let (sim, score) := compute_similarity cosine df_g df_t in
          let score_log :=
            Py.path_join folder_path (fstr [final_name; "_similarity.log"]) in
          match Py.split "_" final_name with
          | id_g :: id_t :: _ =>
              emit (WriteLog score_log id_g id_t sim score) ;;;
              ret (sim, score)
          | _ => raise IndexError
          end
      end
  end.

(** The name under which a sample goes into the folder name. *)
Definition temp_name (input : string) : string :=
  if Py.contains "/" input || Py.contains "." input
  then Py.first (Py.split "." (Py.basename input))
  else input.

(** The check of the read length at the start of [execute_pipeline_logic]. *)
Definition check_read_len (read_len : string) : M unit :=
  if negb (Py.isdigit read_len)
  then (print MsgReadLenNotInteger ;;; sys_exit 1)
  else ret tt.

Definition execute_pipeline_logic (metaG_input metaT_input krakendb outdir
    read_len : string) : M unit :=
  check_read_len read_len ;;;
  let temp_metaG_name := temp_name metaG_input in
  let temp_metaT_name := temp_name metaT_input in
  let folder_name := fstr [temp_metaG_name; "_"; temp_metaT_name] in
  let folder_path := Py.path_join outdir folder_name in
  emit (MakeDirs folder_path) ;;;
  let* inputs :=
    try_except
      (let* g := prepare_input metaG_input folder_path in
       let* t := prepare_input metaT_input folder_path in
       ret (g, t))
      (fun e => print (MsgInputPreparationFailed e) ;;; sys_exit 1) in
  let '((metaG_files, metaG_acc_name), (metaT_files, metaT_acc_name)) := inputs in
  let final_name := fstr [metaG_acc_name; "_"; metaT_acc_name] in
  let* outputs :=
    try_except
      (let* g := run_kraken_bracken metaG_files krakendb folder_path
                   (fstr [metaG_acc_name; "_metaG"]) read_len in
       let* t := run_kraken_bracken metaT_files krakendb folder_path
                   (fstr [metaT_acc_name; "_metaT"]) read_len in
       ret (g, t))
      (fun e => print (MsgKrakenBrackenFailed e) ;;; sys_exit 1) in
  let '((metaG_bracken, pct_g_class, pct_g_unclass),
        (metaT_bracken, pct_t_class, pct_t_unclass)) := outputs in
  let merged_file := Py.path_join folder_path (fstr [final_name; "_merged.csv"]) in
  let overlap_file := Py.path_join folder_path (fstr [final_name; "_overlap.csv"]) in
  merge_metag_metat_io metaG_bracken metaT_bracken
    pct_g_class pct_g_unclass pct_t_class pct_t_unclass
    merged_file overlap_file ;;;
  compute_similarity_io metaG_bracken metaT_bracken folder_path final_name ;;;
  ret tt.

End Pipeline.

(** ** Instances used to run the model *)

(** The number that a string of decimal digits writes, after [acc]. *)
Fixpoint digits_value (s : string) (acc : Z) : Z :=
  match s with
  | EmptyString => acc
  | String c s' => digits_value s' (10 * acc + (Z.of_nat (nat_of_ascii c) - 48))
  end.

Definition float_of_Z (n : Z) : float := PrimFloat.of_uint63 (Uint63.of_Z n).

(** The builtin [float] on plain decimal numerals ([digits] or
    [digits.digits], no sign, no exponent): the quotient of two integers
    that binary64 holds exactly, rounded once, as long as the digits stay
    below 2^53 and the scale below 10^22. Anything else is refused. *)
Definition float_of_decimal (s : string) : option float :=
  match Py.split "." s with
  | [i] =>
      if Py.isdigit i then Some (float_of_Z (digits_value i 0)) else None
  | [i; f] =>
      if Py.isdigit i && Py.isdigit f
      then Some (PrimFloat.div (float_of_Z (digits_value (i +:+ f) 0))
                   (float_of_Z (10 ^ Z.of_nat (String.length f))))
      else None
  | _ => None
  end.

(** A tab-separated line. *)
Definition tsv (fields : list string) : string :=
  Py.join (String TAB EmptyString) fields.

(** A species row with a given name, estimated reads and fraction. *)
Definition species (n : string) (reads : Z) (fraction : float) : AbundanceRecord :=
  {| name := n; taxonomy_id := 1; taxonomy_lvl := "S";
     kraken_assigned_reads := reads; added_reads := 0;
     new_est_reads := reads; fraction_total_reads := fraction |}.

(** A world with local FASTQ files: every path that ends in [.fastq] or
    [.fastq.gz] is a file, a shell command exits with [returncode cmd],
    every report has the lines [report], and the re-estimation tool leaves
    the table [table_g] for the metaG prefix and [table_t] for the other. *)
Definition local_world (returncode : string -> Z) (report : list string)
    (table_g table_t : AbundanceTable) : World :=
  {| w_isfile := fun _ p => Py.endswith p ".fastq" || Py.endswith p ".fastq.gz";
     w_returncode := fun _ cmd => returncode cmd;
     w_glob := fun _ _ => [];
     w_lines := fun _ _ => Some report;
     w_table := fun _ p =>
       Some (Table (if Py.endswith p "_metaG_bracken.tsv"
                    then table_g else table_t)) |}.

Definition sample_report : list string :=
  [ tsv ["12.34"; "100"; "100"; "U"; "0"; "unclassified"];
    tsv ["87.66"; "900"; "50"; "-"; "1"; "root"] ].

Definition sample_g : AbundanceTable :=
  [ species "sp1" 60 0.6%float; species "sp2" 40 0.4%float ].

Definition sample_t : AbundanceTable :=
  [ species "sp2" 50 0.5%float; species "sp3" 50 0.5%float ].

(** The shell commands of a history. *)
Definition shell_commands (tr : trace) : list string :=
  flat_map (fun e => match e with Shell cmd => [cmd] | _ => [] end) tr.

(** ** The report as a list of rows *)

Section ReportRows.

Variable py_float : string -> option float.

(** The rows of a report: the percentage and the label of every line that
    has at least two tab-separated fields; [None] when the first field of
    such a line is not a float. *)
Fixpoint report_rows (lines : list string) : option (list (float * string)) :=
  match lines with
  | [] => Some []
  | line :: rest =>
      let parts := Py.split TAB (Py.strip line) in
      if (length parts <? 2)%nat then report_rows rest
      else
        match py_float (Py.strip (Py.first parts)) with
        | None => None
        | Some pct =>
            match report_rows rest with
            | None => None
            | Some rows => Some ((pct, Py.strip (Py.last parts)) :: rows)
            end
        end
  end.

End ReportRows.

(** The percentage that the rows labelled [label] supply: that of the last
    one, or [dflt] when there is none. *)
Fixpoint supplied (label : string) (rows : list (float * string)) (dflt : float)
  : float :=
  match rows with
  | [] => dflt
  | (pct, l) :: rest =>
      supplied label rest (if String.eqb l label then pct else dflt)
  end.

(** No row carries the label. *)
Definition label_absent (label : string) (rows : list (float * string)) : Prop :=
  Forall (fun r => snd r <> label) rows.

(** ** The lines of a report as they are written *)

(** A line of a report as it is written: a row of at least two fields
    separated by TAB, with blanks around the line, after the percentage and
    before the label; or a line that is no row. *)
Inductive report_line : Type :=
| Row (lead percent pad1 : string) (middle : list string)
      (pad2 label trail : string)
| NoRow (text : string).

(** The text of the line. *)
Definition render (l : report_line) : string :=
  match l with
  | Row lead percent pad1 middle pad2 label trail =>
      lead +:+ Py.join (String TAB EmptyString)
                 ((percent +:+ pad1) :: middle ++ [pad2 +:+ label])%list
           +:+ trail
  | NoRow text => text
  end.

(** Only white space. *)
Definition blank (s : string) : bool := Py.forallb_string Py.isspace s.

(** The first, and the last, character is there and is no white space. *)
Definition starts_clean (s : string) : bool :=
  match s with
  | EmptyString => false
  | String c _ => negb (Py.isspace c)
  end.

Fixpoint ends_clean (s : string) : bool :=
  match s with
  | EmptyString => false
  | String c EmptyString => negb (Py.isspace c)
  | String _ s' => ends_clean s'
  end.

(** No TAB in the text. *)
Definition no_tab (s : string) : bool := negb (Py.contains TAB s).

(** The blanks are white space, those inside the line without TAB; the
    percentage and the label start and end with a character that is no
    white space; no field holds a TAB. A line that is no row is white
    space only, or has no TAB at all. *)
Definition well_formed (l : report_line) : bool :=
  match l with
  | Row lead percent pad1 middle pad2 label trail =>
      blank lead && blank trail
      && blank pad1 && no_tab pad1 && blank pad2 && no_tab pad2
      && starts_clean percent && ends_clean percent && no_tab percent
      && starts_clean label && ends_clean label && no_tab label
      && forallb no_tab middle
  | NoRow text => blank text || no_tab text
  end.

Section RowsOf.

Variable py_float : string -> option float.

(** The rows that the written lines hold: the percentage as [float] reads
    its text, and the label; [None] when a percentage is not a float. *)
Fixpoint rows_of (ls : list report_line) : option (list (float * string)) :=
  match ls with
  | [] => Some []
  | NoRow _ :: rest => rows_of rest
  | Row _ percent _ _ _ label _ :: rest =>
      match py_float percent with
      | None => None
      | Some pct =>
          match rows_of rest with
          | None => None
          | Some rows => Some ((pct, label) :: rows)
          end
      end
  end.

End RowsOf.

(** The line feed that ends a line of a file. *)
Definition LF : ascii := ascii_of_nat 10.

(** ** Notions that the statements use *)

(** The test of [prepare_input] on the name of an existing file. *)
Definition recognized (p : string) : bool :=
  Py.endswith p ".fastq" || Py.endswith p ".fastq.gz".

(** A world without local files, in which the two archive tools succeed and
    leave [files] behind for [glob] once both have run. *)
Definition archive_world (files : list string) : World :=
  {| w_isfile := fun _ _ => false;
     w_returncode := fun _ _ => 0%Z;
     w_glob := fun tr _ =>
       match shell_commands tr with
       | [_; _] => files
       | _ => []
       end;
     w_lines := fun _ _ => None;
     w_table := fun _ _ => None |}.

(** A world in which every path is an existing file. *)
Definition all_files_world : World :=
  {| w_isfile := fun _ _ => true;
     w_returncode := fun _ _ => 0%Z;
     w_glob := fun _ _ => ["out/reads.txt/reads.txt_1.fastq"];
     w_lines := fun _ _ => None;
     w_table := fun _ _ => None |}.

(** The history after [parse_classification_percents]: the warning is
    printed when both percentages compare equal to zero. *)
Definition warn_if_zero (percent_classified percent_unclassified : float)
    (tr : trace) : trace :=
  if PrimFloat.eqb percent_classified 0%float
     && PrimFloat.eqb percent_unclassified 0%float
  then (tr ++ [Print MsgParseWarning])%list else tr.



(** The order of the joined rows, and the rows whose key passes a test. *)
Definition key_le {L R} (x y : Joined L R) : Prop :=
  String.leb (key x) (key y) = true.

Definition keep {L R} (P : string -> bool) (l : list (Joined L R))
  : list (Joined L R) :=
  List.filter (fun j => P (key j)) l.

(** A joined row with a function applied to the cells of each side. *)
Definition jmap {L R L' R'} (f : L -> L') (g : R -> R') (j : Joined L R)
  : Joined L' R' :=
  {| key := key j; left := f <$> left j; right := g <$> right j |}.

Definition not_stats (n : string) : bool :=
  negb (String.eqb n CLASSIFICATION_STATS).

(** The vectors as the specification derives them: the two fraction columns
    of the merged artifact, the summary row excluded. *)
Definition artifact_taxon_rows (f : MergedFrame) : list MergedRow :=
  List.filter (fun r => not_stats (m_name r)) (rows f).

Definition artifact_vector_A (f : MergedFrame) : list float :=
  map fraction_total_reads_metaG (artifact_taxon_rows f).

Definition artifact_vector_B (f : MergedFrame) : list float :=
  map fraction_total_reads_metaT (artifact_taxon_rows f).

(** A vector whose entries all compare equal to 0.0. *)
Definition all_zero (u : list float) : Prop :=
  Forall (fun x => PrimFloat.eqb x 0%float = true) u.

(** A float that is a zero of either sign, or NaN. *)
Definition zero_or_nan (x : float) : Prop :=
  (exists s, Prim2SF x = S754_zero s) \/ Prim2SF x = S754_nan.

(** A computation only adds to the history. *)
Definition grows {A} (m : M A) : Prop :=
  forall tr, exists d, snd (m tr) = (tr ++ d)%list.

(** ** Notions for the further properties *)


(** The sum of the absolute values of the difference column. *)
Definition sum_abs_difference (rs : list MergedRow) : float :=
  fold_left (fun acc r => PrimFloat.add acc (PrimFloat.abs (difference r))) rs 0%float.

(** A float that is neither an infinity nor NaN. *)
Definition finite (x : float) : Prop :=
  match Prim2SF x with
  | S754_zero _ | S754_finite _ _ _ => True
  | _ => False
  end.

(** The events that leave an artifact of the comparison: a merged or overlap
    frame, the similarity log. *)
Definition artifact (e : event) : Prop :=
  match e with
  | WriteFrame _ _ | WriteLog _ _ _ _ _ => True
  | _ => False
  end.

(** Everything else: commands, directories, the per-sample tables, lines on
    the console. *)
Definition setup (e : event) : Prop := ~ artifact e.

Definition status_one (c : Z) : Prop := c = 1%Z.

(** A computation that only adds events that satisfy [Q] to the history,
    and that, when it ends in [sys.exit], does so with a status in [C]. *)
Definition confined {A} (Q : event -> Prop) (C : Z -> Prop) (m : M A) : Prop :=
  forall tr, exists d,
    snd (m tr) = (tr ++ d)%list /\ Forall Q d
    /\ match fst (m tr) with SysExit c => C c | _ => True end.

(** When the computation ends in [sys.exit], its status is in [C] and all
    that it added to the history satisfies [Q]. *)
Definition exits_clean {A} (Q : event -> Prop) (C : Z -> Prop) (m : M A) : Prop :=
  forall tr c tr', m tr = (SysExit c, tr') ->
    C c /\ exists d, tr' = (tr ++ d)%list /\ Forall Q d.

(** An event that writes no file. *)
Definition writes_nothing (e : event) : Prop :=
  match e with
  | WriteTable _ _ | WriteFrame _ _ | WriteLog _ _ _ _ _ => False
  | _ => True
  end.

(** What a run of [execute_pipeline_logic] that went through has done, from
    the history [tr] to [tr']: it converted a table [A] for the metaG sample
    and a table [B] for the metaT sample, read the two percentages of each
    sample in its report, at the histories [tr ++ dg] and [tr ++ dt] of the
    run, and then wrote the merged frame, the overlap frame and the
    similarity log, all three computed from [A], [B] and these
    percentages. *)
Definition completed (W : World) (py_float : string -> option float)
    (cosine : list float -> list float -> exn + float)
    (folder_path : string) (tr : trace) (r : result unit) (tr' : trace) : Prop :=
  exists d (A B : AbundanceTable)
         pct_g_class pct_g_unclass pct_t_class pct_t_unclass
         metaG_acc_name metaT_acc_name dg xg dt xt,
    let final_name := fstr [metaG_acc_name; "_"; metaT_acc_name] in
    let frames :=
      merge_metag_metat A B
        pct_g_class pct_g_unclass pct_t_class pct_t_unclass in
    let scores := compute_similarity cosine A B in
    r = Return tt
    /\ tr' = (tr ++ d
              ++ [ WriteFrame
                     (Py.path_join folder_path (fstr [final_name; "_merged.csv"]))
                     (fst frames);
                   WriteFrame
                     (Py.path_join folder_path (fstr [final_name; "_overlap.csv"]))
                     (snd frames);
                   WriteLog
                     (Py.path_join folder_path
                        (fstr [final_name; "_similarity.log"]))
                     (nth 0 (Py.split "_" final_name) "")
                     (nth 1 (Py.split "_" final_name) "")
                     (fst scores) (snd scores) ])%list
    /\ Forall (fun e => ~ artifact e) d
    /\ In (WriteTable
             (Py.path_join folder_path
                (fstr [fstr [metaG_acc_name; "_metaG"]; "_bracken.csv"])) A) d
    /\ In (WriteTable
             (Py.path_join folder_path
                (fstr [fstr [metaT_acc_name; "_metaT"]; "_bracken.csv"])) B) d
    /\ d = (dg ++ xg)%list /\ d = (dt ++ xt)%list
    /\ fst (parse_classification_percents W py_float
              (Py.path_join folder_path
                 (fstr [fstr [metaG_acc_name; "_metaG"]; "_kraken2.report"]))
              (tr ++ dg)%list)
       = Return (pct_g_class, pct_g_unclass)
    /\ fst (parse_classification_percents W py_float
              (Py.path_join folder_path
                 (fstr [fstr [metaT_acc_name; "_metaT"]; "_kraken2.report"]))
              (tr ++ dt)%list)
       = Return (pct_t_class, pct_t_unclass).

(** A run that a table without a name column has ended: the [KeyError] of
    the merge leaves [execute_pipeline_logic], after the run converted such
    a table and before it wrote a frame or the log. *)
Definition key_error_escaped (tr : trace) (r : result unit) (tr' : trace)
  : Prop :=
  r = Raise KeyError
  /\ exists d path,
       tr' = (tr ++ d)%list
       /\ Forall (fun e => ~ artifact e) d
       /\ In (WriteTable path NoNameColumn) d.

(** A row of a join with its two sides exchanged. *)
Definition swap_sides {L R} (j : Joined L R) : Joined R L :=
  {| key := key j; left := right j; right := left j |}.

(** * Properties *)

(** ** The model on the scenarios of the specification *)

Example split_strip_report_line :
  Py.split TAB (Py.strip (tsv ["12.34"; "100"; "100"; "U"; "0"; "unclassified"]))
  = ["12.34"; "100"; "100"; "U"; "0"; "unclassified"].
Proof. reflexivity. Qed.

Example float_of_decimal_12_34 : float_of_decimal "12.34" = Some 12.34%float.
Proof. reflexivity. Qed.

Example basename_of_path : Py.basename "data/run1/sample.fastq.gz" = "sample.fastq.gz".
Proof. reflexivity. Qed.

Example merged_names_of_sample :
  map m_name (merged_taxon_rows sample_g sample_t) = ["sp1"; "sp2"; "sp3"].
Proof. reflexivity. Qed.

Example merged_differences_of_sample :
  map difference (merged_taxon_rows sample_g sample_t)
  = [0.6%float; PrimFloat.sub 0.4%float 0.5%float; PrimFloat.opp 0.5%float].
Proof. vm_compute. reflexivity. Qed.

Example overlap_names_of_sample :
  map m_name (overlap_taxon_rows sample_g sample_t) = ["sp2"].
Proof. reflexivity. Qed.

Example pipeline_runs_on_sample :
  shell_commands
    (snd (execute_pipeline_logic
            (local_world (fun _ => 0%Z) sample_report sample_g sample_t)
            float_of_decimal Scipy.cosine
            "in/g.fastq" "in/t.fastq" "db" "out" "150" []))
  = [ "kraken2 --db db --threads 8 --use-names  in/g.fastq --report out/g_t/g_metaG_kraken2.report --output out/g_t/g_metaG_kraken2.out";
      "bracken -d db -i out/g_t/g_metaG_kraken2.report -o out/g_t/g_metaG_bracken.tsv -l S -r 150";
      "kraken2 --db db --threads 8 --use-names  in/t.fastq --report out/g_t/t_metaT_kraken2.report --output out/g_t/t_metaT_kraken2.out";
      "bracken -d db -i out/g_t/t_metaT_kraken2.report -o out/g_t/t_metaT_bracken.tsv -l S -r 150" ].
Proof. vm_compute. reflexivity. Qed.

(** ** The monad: what the primitive steps do *)

Lemma bind_return {A B} (m : M A) (k : A -> M B) tr a tr' :
  m tr = (Return a, tr') -> bind m k tr = k a tr'.
Proof. intros H. unfold bind. rewrite H. reflexivity. Qed.

Lemma bind_raise {A B} (m : M A) (k : A -> M B) tr e tr' :
  m tr = (Raise e, tr') -> bind m k tr = (Raise e, tr').
Proof. intros H. unfold bind. rewrite H. reflexivity. Qed.

Lemma bind_sys_exit {A B} (m : M A) (k : A -> M B) tr c tr' :
  m tr = (SysExit c, tr') -> bind m k tr = (SysExit c, tr').
Proof. intros H. unfold bind. rewrite H. reflexivity. Qed.

Lemma try_except_sys_exit {A} (body : M A) handler tr c tr' :
  body tr = (SysExit c, tr') -> try_except body handler tr = (SysExit c, tr').
Proof. intros H. unfold try_except. rewrite H. reflexivity. Qed.

Lemma try_except_raise {A} (body : M A) handler tr e tr' :
  body tr = (Raise e, tr') -> try_except body handler tr = handler e tr'.
Proof. intros H. unfold try_except. rewrite H. reflexivity. Qed.

(** ** The history only grows *)

Create HintDb grows.

Lemma grows_ret {A} (a : A) : grows (ret a).
Proof. intros tr. exists []. symmetry. apply app_nil_r. Qed.

Lemma grows_raise {A} e : grows (@raise A e).
Proof. intros tr. exists []. symmetry. apply app_nil_r. Qed.

Lemma grows_sys_exit {A} c : grows (@sys_exit A c).
Proof. intros tr. exists []. symmetry. apply app_nil_r. Qed.

Lemma grows_lift {A} (r : result A) : grows (lift r).
Proof. intros tr. exists []. symmetry. apply app_nil_r. Qed.

Lemma grows_ask {A} (q : trace -> A) : grows (ask q).
Proof. intros tr. exists []. symmetry. apply app_nil_r. Qed.

Lemma grows_emit e : grows (emit e).
Proof. intros tr. exists [e]. reflexivity. Qed.

Lemma grows_print m : grows (print m).
Proof. apply grows_emit. Qed.

Lemma grows_bind {A B} (m : M A) (k : A -> M B) :
  grows m -> (forall a, grows (k a)) -> grows (bind m k).
Proof.
  intros Hm Hk tr. unfold bind. destruct (Hm tr) as [d Hd].
  destruct (m tr) as [[a|e|c] tr']; simpl in Hd; subst tr'.
  - destruct (Hk a (tr ++ d)%list) as [d' Hd']. exists (d ++ d')%list.
    rewrite Hd'. symmetry. apply app_assoc.
  - exists d. reflexivity.
  - exists d. reflexivity.
Qed.

Lemma grows_try_except {A} (body : M A) handler :
  grows body -> (forall e, grows (handler e)) -> grows (try_except body handler).
Proof.
  intros Hm Hk tr. unfold try_except. destruct (Hm tr) as [d Hd].
  destruct (body tr) as [[a|e|c] tr']; simpl in Hd; subst tr'.
  - exists d. reflexivity.
  - destruct (Hk e (tr ++ d)%list) as [d' Hd']. exists (d ++ d')%list.
    rewrite Hd'. symmetry. apply app_assoc.
  - exists d. reflexivity.
Qed.

Lemma grows_read_csv W path : grows (read_csv W path).
Proof.
  intros tr. exists []. unfold read_csv.
  destruct (last_written path tr); [|destruct (w_table W tr path)];
    symmetry; apply app_nil_r.
Qed.

#[export] Hint Resolve grows_ret grows_raise grows_sys_exit grows_lift grows_ask
  grows_emit grows_print grows_read_csv : grows.

(** One step of a proof that a computation only adds to the history: through
    a bind, a handler or a branch, down to the primitive steps. *)
Ltac grows_step :=
  match goal with
  | |- grows (bind _ _) => apply grows_bind; [|intros ?]
  | |- grows (try_except _ _) => apply grows_try_except; [|intros ?]
  | |- grows (if ?b then _ else _) => destruct b
  | |- grows (match ?x with _ => _ end) => destruct x
  | |- grows _ => solve [auto with grows]
  end.

Ltac grows_tac := repeat grows_step.

Lemma grows_run_command W cmd : grows (run_command W cmd).
Proof. unfold run_command. grows_tac. Qed.
#[export] Hint Resolve grows_run_command : grows.

Lemma grows_parse_classification_percents W py_float report_file :
  grows (parse_classification_percents W py_float report_file).
Proof. unfold parse_classification_percents. grows_tac. Qed.
#[export] Hint Resolve grows_parse_classification_percents : grows.

Lemma grows_prepare_input W input_source output_folder :
  grows (prepare_input W input_source output_folder).
Proof. unfold prepare_input. grows_tac. Qed.
#[export] Hint Resolve grows_prepare_input : grows.

Lemma grows_run_kraken_bracken W py_float files db outdir pre read_len :
  grows (run_kraken_bracken W py_float files db outdir pre read_len).
Proof. unfold run_kraken_bracken. grows_tac. Qed.
#[export] Hint Resolve grows_run_kraken_bracken : grows.

Lemma grows_merge_metag_metat_io W g t p1 p2 p3 p4 merged_csv overlap_csv :
  grows (merge_metag_metat_io W g t p1 p2 p3 p4 merged_csv overlap_csv).
Proof. unfold merge_metag_metat_io. grows_tac. Qed.

Lemma grows_compute_similarity_io W cosine g t folder_path final_name :
  grows (compute_similarity_io W cosine g t folder_path final_name).
Proof. unfold compute_similarity_io. grows_tac. Qed.
#[export] Hint Resolve grows_merge_metag_metat_io grows_compute_similarity_io : grows.

Lemma grows_check_read_len read_len : grows (check_read_len read_len).
Proof. unfold check_read_len. grows_tac. Qed.
#[export] Hint Resolve grows_check_read_len : grows.

Lemma grows_execute_pipeline_logic W py_float cosine g t db outdir read_len :
  grows (execute_pipeline_logic W py_float cosine g t db outdir read_len).
Proof. unfold execute_pipeline_logic. grows_tac. Qed.

(** ** [run_command] *)

Lemma run_command_zero W cmd tr :
  w_returncode W tr cmd = 0%Z ->
  run_command W cmd tr = (Return tt, (tr ++ [Shell cmd])%list).
Proof.
  intros H. unfold run_command, bind, ask, emit. rewrite H. reflexivity.
Qed.

Lemma run_command_nonzero W cmd tr :
  w_returncode W tr cmd <> 0%Z ->
  run_command W cmd tr
  = (SysExit 1,
     (tr ++ [Shell cmd; Print (MsgCommandFailed (w_returncode W tr cmd) cmd)])%list).
Proof.
  intros H. unfold run_command, bind, ask, emit, print, emit, sys_exit.
  destruct (Z.eqb_spec (w_returncode W tr cmd) 0); [contradiction|].
  rewrite <- app_assoc. reflexivity.
Qed.

Lemma check_read_len_eq read_len tr :
  check_read_len read_len tr =
  if Py.isdigit read_len then (Return tt, tr)
  else (SysExit 1, (tr ++ [Print MsgReadLenNotInteger])%list).
Proof.
  unfold check_read_len. destruct (Py.isdigit read_len); reflexivity.
Qed.

(** A failing command ends [run_kraken_bracken] at once, with status 1: the
    classification stage first, the re-estimation stage after it. *)
Lemma run_kraken_bracken_classification_fails W py_float files db outdir pre
    read_len tr :
  let report := Py.path_join outdir (fstr [pre; "_kraken2.report"]) in
  let cmd :=
    kraken2_cmd db (if (1 <? length files)%nat then "--paired" else "")
      (Py.join " " files) report
      (Py.path_join outdir (fstr [pre; "_kraken2.out"])) in
  w_returncode W tr cmd <> 0%Z ->
  run_kraken_bracken W py_float files db outdir pre read_len tr
  = (SysExit 1,
     (tr ++ [Shell cmd; Print (MsgCommandFailed (w_returncode W tr cmd) cmd)])%list).
Proof.
  intros report cmd H. unfold run_kraken_bracken.
  apply bind_sys_exit. apply run_command_nonzero. exact H.
Qed.

Lemma run_kraken_bracken_reestimation_fails W py_float files db outdir pre
    read_len tr :
  let report := Py.path_join outdir (fstr [pre; "_kraken2.report"]) in
  let cmd :=
    kraken2_cmd db (if (1 <? length files)%nat then "--paired" else "")
      (Py.join " " files) report
      (Py.path_join outdir (fstr [pre; "_kraken2.out"])) in
  let cmd' :=
    bracken_cmd db report (Py.path_join outdir (fstr [pre; "_bracken.tsv"]))
      read_len in
  let tr' := (tr ++ [Shell cmd])%list in
  w_returncode W tr cmd = 0%Z ->
  w_returncode W tr' cmd' <> 0%Z ->
  run_kraken_bracken W py_float files db outdir pre read_len tr
  = (SysExit 1,
     (tr' ++ [Shell cmd'; Print (MsgCommandFailed (w_returncode W tr' cmd') cmd')])%list).
Proof.
  intros report cmd cmd' tr' H0 H. unfold run_kraken_bracken.
  erewrite bind_return by (apply run_command_zero; exact H0).
  apply bind_sys_exit. apply run_command_nonzero. exact H.
Qed.

(** [sys.exit] inside either run of [run_kraken_bracken] goes through the
    [except Exception] of [execute_pipeline_logic]: the process ends there,
    with that status. *)
Section ToolFailure.

Variable W : World.
Variable py_float : string -> option float.
Variable cosine : list float -> list float -> exn + float.
Variables metaG_input metaT_input krakendb outdir read_len : string.
Variables metaG_files metaT_files : list string.
Variables metaG_acc_name metaT_acc_name : string.
Variables tr tr1 tr2 : trace.

Let folder_path : string :=
  Py.path_join outdir
    (fstr [temp_name metaG_input; "_"; temp_name metaT_input]).

Hypothesis read_len_ok : Py.isdigit read_len = true.
Hypothesis metaG_ok :
  prepare_input W metaG_input folder_path (tr ++ [MakeDirs folder_path])%list
  = (Return (metaG_files, metaG_acc_name), tr1).
Hypothesis metaT_ok :
  prepare_input W metaT_input folder_path tr1
  = (Return (metaT_files, metaT_acc_name), tr2).

Lemma execute_pipeline_logic_metaG_exit c tr3 :
  run_kraken_bracken W py_float metaG_files krakendb folder_path
    (fstr [metaG_acc_name; "_metaG"]) read_len tr2
  = (SysExit c, tr3) ->
  execute_pipeline_logic W py_float cosine metaG_input metaT_input krakendb
    outdir read_len tr
  = (SysExit c, tr3).
Proof.
  intros H. unfold execute_pipeline_logic.
  erewrite bind_return by (rewrite check_read_len_eq, read_len_ok; reflexivity).
  erewrite bind_return by reflexivity. fold folder_path.
  unfold bind at 1. unfold try_except at 1.
  rewrite (bind_return _ _ _ _ _ metaG_ok), (bind_return _ _ _ _ _ metaT_ok).
  unfold ret at 1. cbv iota beta.
  apply bind_sys_exit, try_except_sys_exit, bind_sys_exit, H.
Qed.

Lemma execute_pipeline_logic_metaT_exit out_g tr3 c tr4 :
  run_kraken_bracken W py_float metaG_files krakendb folder_path
    (fstr [metaG_acc_name; "_metaG"]) read_len tr2
  = (Return out_g, tr3) ->
  run_kraken_bracken W py_float metaT_files krakendb folder_path
    (fstr [metaT_acc_name; "_metaT"]) read_len tr3
  = (SysExit c, tr4) ->
  execute_pipeline_logic W py_float cosine metaG_input metaT_input krakendb
    outdir read_len tr
  = (SysExit c, tr4).
Proof.
  intros Hg Ht. unfold execute_pipeline_logic.
  erewrite bind_return by (rewrite check_read_len_eq, read_len_ok; reflexivity).
  erewrite bind_return by reflexivity. fold folder_path.
  unfold bind at 1. unfold try_except at 1.
  rewrite (bind_return _ _ _ _ _ metaG_ok), (bind_return _ _ _ _ _ metaT_ok).
  unfold ret at 1. cbv iota beta.
  apply bind_sys_exit, try_except_sys_exit.
  rewrite (bind_return _ _ _ _ _ Hg). apply bind_sys_exit, Ht.
Qed.

Let pre_g : string := fstr [metaG_acc_name; "_metaG"].
Let pre_t : string := fstr [metaT_acc_name; "_metaT"].

Let report (pre : string) : string :=
  Py.path_join folder_path (fstr [pre; "_kraken2.report"]).

Let classify (files : list string) (pre : string) : string :=
  kraken2_cmd krakendb (if (1 <? length files)%nat then "--paired" else "")
    (Py.join " " files) (report pre)
    (Py.path_join folder_path (fstr [pre; "_kraken2.out"])).

Let reestimate (pre : string) : string :=
  bracken_cmd krakendb (report pre)
    (Py.path_join folder_path (fstr [pre; "_bracken.tsv"])) read_len.

(** C3, amended. In a run whose read length is valid and whose two inputs
    have been resolved, a classification or re-estimation command that
    exits with a non-zero status [n], for the metaG sample or, after the
    metaG sample went through, for the metaT sample, ends the whole run
    right there: the history of [execute_pipeline_logic] ends with that
    command and the line that reports it with [n], no command is run again
    or after it, and the outcome of the run is [sys.exit(1)]: the
    [SystemExit] passes the [except Exception] around the two stages, and
    the exit status of the process is 1 whatever [n] was. *)
Theorem failing_tool_aborts_with_status_one :
  let run :=
    execute_pipeline_logic W py_float cosine metaG_input metaT_input krakendb
      outdir read_len tr in
  let c_g := classify metaG_files pre_g in
  let r_g := reestimate pre_g in
  let c_t := classify metaT_files pre_t in
  let r_t := reestimate pre_t in
  (forall n, n <> 0%Z ->
     w_returncode W tr2 c_g = n ->
     run = (SysExit 1, (tr2 ++ [Shell c_g; Print (MsgCommandFailed n c_g)])%list)
     /\ exit_status (fst run) = 1%Z)
  /\ (forall n, n <> 0%Z ->
        w_returncode W tr2 c_g = 0%Z ->
        w_returncode W (tr2 ++ [Shell c_g])%list r_g = n ->
        run = (SysExit 1,
               (tr2 ++ [Shell c_g; Shell r_g;
                        Print (MsgCommandFailed n r_g)])%list)
        /\ exit_status (fst run) = 1%Z)
  /\ (forall out_g tr3,
        run_kraken_bracken W py_float metaG_files krakendb folder_path pre_g
          read_len tr2 = (Return out_g, tr3) ->
        (forall n, n <> 0%Z ->
           w_returncode W tr3 c_t = n ->
           run = (SysExit 1,
                  (tr3 ++ [Shell c_t; Print (MsgCommandFailed n c_t)])%list)
           /\ exit_status (fst run) = 1%Z)
        /\ (forall n, n <> 0%Z ->
              w_returncode W tr3 c_t = 0%Z ->
              w_returncode W (tr3 ++ [Shell c_t])%list r_t = n ->
              run = (SysExit 1,
                     (tr3 ++ [Shell c_t; Shell r_t;
                              Print (MsgCommandFailed n r_t)])%list)
              /\ exit_status (fst run) = 1%Z)).
Proof.
  intros run c_g r_g c_t r_t.
  assert (S1 : forall x, run = (SysExit 1, x) ->
                 run = (SysExit 1, x) /\ exit_status (fst run) = 1%Z)
    by (intros x ->; split; reflexivity).
  split; [|split].
  - intros n Hn E. apply S1. subst n.
    apply execute_pipeline_logic_metaG_exit.
    apply run_kraken_bracken_classification_fails. exact Hn.
  - intros n Hn E0 E. apply S1. subst n.
    apply execute_pipeline_logic_metaG_exit.
    etransitivity;
      [apply (run_kraken_bracken_reestimation_fails W py_float metaG_files
                krakendb folder_path pre_g read_len tr2 E0 Hn)|].
    rewrite <- app_assoc. reflexivity.
  - intros out_g tr3 Hg. split.
    + intros n Hn E. apply S1. subst n.
      apply (execute_pipeline_logic_metaT_exit out_g tr3 _ _ Hg).
      apply run_kraken_bracken_classification_fails. exact Hn.
    + intros n Hn E0 E. apply S1. subst n.
      apply (execute_pipeline_logic_metaT_exit out_g tr3 _ _ Hg).
      etransitivity;
        [apply (run_kraken_bracken_reestimation_fails W py_float metaT_files
                  krakendb folder_path pre_t read_len tr3 E0 Hn)|].
      rewrite <- app_assoc. reflexivity.
Qed.

End ToolFailure.

Lemma failing_tool_aborts_with_status_one_witness :
  let W :=
    local_world (fun cmd => if Py.startswith cmd "bracken" then 3%Z else 0%Z)
      sample_report sample_g sample_t in
  let run :=
    execute_pipeline_logic W float_of_decimal Scipy.cosine
      "in/g.fastq" "in/t.fastq" "db" "out" "150" [] in
  run
  = (SysExit 1,
     [ MakeDirs "out/g_t";
       Shell "kraken2 --db db --threads 8 --use-names  in/g.fastq --report out/g_t/g_metaG_kraken2.report --output out/g_t/g_metaG_kraken2.out";
       Shell "bracken -d db -i out/g_t/g_metaG_kraken2.report -o out/g_t/g_metaG_bracken.tsv -l S -r 150";
       Print (MsgCommandFailed 3
                "bracken -d db -i out/g_t/g_metaG_kraken2.report -o out/g_t/g_metaG_bracken.tsv -l S -r 150") ])
  /\ exit_status (fst run) = 1%Z.
Proof.
  intros W run.
  apply (proj1 (proj2
           (failing_tool_aborts_with_status_one W float_of_decimal Scipy.cosine
              "in/g.fastq" "in/t.fastq" "db" "out" "150"
              ["in/g.fastq"] ["in/t.fastq"] "g" "t"
              [] [MakeDirs "out/g_t"] [MakeDirs "out/g_t"]
              eq_refl eq_refl eq_refl)) 3%Z).
  - discriminate.
  - reflexivity.
  - reflexivity.
Defined.

(** C3, as stated, fails: when the classification tool exits with status 2,
    the run stops after that one command, but the exit status of the
    process is 1, not 2. *)
Lemma tool_exit_status_is_not_propagated :
  let W := local_world (fun _ => 2%Z) sample_report sample_g sample_t in
  let r := execute_pipeline_logic W float_of_decimal Scipy.cosine
             "in/g.fastq" "in/t.fastq" "db" "out" "150" [] in
  exit_status (fst r) = 1%Z
  /\ exit_status (fst r) <> 2%Z
  /\ length (shell_commands (snd r)) = 1%nat.
Proof. vm_compute. repeat split; congruence. Qed.

(** ** The read length *)

(** C7, as stated, fails: the read length 0 is not positive, yet the run
    goes through the check, calls the four tools and ends with status 0. *)
Lemma read_len_zero_is_accepted :
  let r := execute_pipeline_logic
             (local_world (fun _ => 0%Z) sample_report sample_g sample_t)
             float_of_decimal Scipy.cosine
             "in/g.fastq" "in/t.fastq" "db" "out" "0" [] in
  fst r = Return tt /\ exit_status (fst r) <> 1%Z
  /\ length (shell_commands (snd r)) = 4%nat.
Proof. vm_compute. repeat split; congruence. Qed.

(** C7, amended. For an ASCII read length: when it is not a non-empty string
    of decimal digits, the run prints the usage error and exits with status
    1, and the history has nothing but that line (no directory, no command);
    when it is one (the string 0 included), the check passes without a
    trace and the run goes on: the next thing it does is to make its
    working directory. *)
Theorem read_len_check W py_float cosine metaG_input metaT_input krakendb outdir
    read_len tr :
  Py.isascii read_len = true ->
  let run :=
    execute_pipeline_logic W py_float cosine metaG_input metaT_input
      krakendb outdir read_len in
  let folder_path :=
    Py.path_join outdir
      (fstr [temp_name metaG_input; "_"; temp_name metaT_input]) in
  if Py.isdigit read_len
  then check_read_len read_len tr = (Return tt, tr)
       /\ exists d, snd (run tr) = (tr ++ MakeDirs folder_path :: d)%list
  else run tr = (SysExit 1, (tr ++ [Print MsgReadLenNotInteger])%list).
Proof.
  intros _ run folder_path. subst run.
  destruct (Py.isdigit read_len) eqn:E.
  - assert (Hc : check_read_len read_len tr = (Return tt, tr))
      by (rewrite check_read_len_eq, E; reflexivity).
    split; [exact Hc|].
    unfold execute_pipeline_logic.
    rewrite (bind_return _ _ _ _ _ Hc).
    erewrite bind_return by reflexivity.
    match goal with
    | |- exists d, snd (?m ?t) = _ =>
        assert (G : grows m) by grows_tac; destruct (G t) as [d Hd]
    end.
    exists d. rewrite Hd, <- app_assoc. reflexivity.
  - unfold execute_pipeline_logic. apply bind_sys_exit.
    rewrite check_read_len_eq, E. reflexivity.
Qed.

Lemma read_len_check_witness :
  execute_pipeline_logic
    (local_world (fun _ => 0%Z) sample_report sample_g sample_t)
    float_of_decimal Scipy.cosine "in/g.fastq" "in/t.fastq" "db" "out" "abc" []
  = (SysExit 1, [Print MsgReadLenNotInteger])
  /\ check_read_len "150" [] = (Return tt, []).
Proof.
  split.
  - exact (read_len_check
             (local_world (fun _ => 0%Z) sample_report sample_g sample_t)
             float_of_decimal Scipy.cosine "in/g.fastq" "in/t.fastq" "db" "out"
             "abc" [] eq_refl).
  - exact (proj1 (read_len_check
             (local_world (fun _ => 0%Z) sample_report sample_g sample_t)
             float_of_decimal Scipy.cosine "in/g.fastq" "in/t.fastq" "db" "out"
             "150" [] eq_refl)).
Defined.

(** ** [prepare_input] *)

(** C9, as stated, fails: an existing file whose name has no FASTQ extension
    is not taken for an accession; [prepare_input] raises, nothing is
    fetched and no canonical id comes back. *)
Lemma existing_file_without_fastq_extension_is_rejected :
  prepare_input all_files_world "reads.txt" "out" []
  = (Raise (not_a_fastq "reads.txt"), [])
  /\ forall files tr,
       prepare_input all_files_world "reads.txt" "out" []
       <> (Return (files, "reads.txt"), tr).
Proof. split; [reflexivity|]. intros files tr. vm_compute. discriminate. Qed.

(** C9, amended. An existing file with a recognized extension is returned
    alone, with the part of its basename before the first dot as the id,
    and nothing is done. An existing file without one makes [prepare_input]
    raise [FileNotFoundError], and nothing is done either. Anything else is
    an accession: its directory under the output folder is made, the two
    archive tools are run on it, and when both succeed and [glob] finds
    FASTQ files of the accession in that directory, these files are
    returned with the accession as the id. *)
Theorem prepare_input_cases W input_source output_folder tr :
  let sra_dir := Py.path_join output_folder input_source in
  let tmp_dump_dir := Py.path_join sra_dir "tmp_dump" in
  let prefetch := prefetch_cmd input_source sra_dir in
  let dump := fasterq_dump_cmd input_source sra_dir tmp_dump_dir in
  let tr1 := (tr ++ [MakeDirs sra_dir])%list in
  let tr2 :=
    (tr ++ [MakeDirs sra_dir; Shell prefetch; MakeDirs tmp_dump_dir])%list in
  let tr3 :=
    (tr ++ [MakeDirs sra_dir; Shell prefetch; MakeDirs tmp_dump_dir;
            Shell dump])%list in
  let found := w_glob W tr3 (fstr [sra_dir; "/"; input_source; "*.fastq"]) in
  if w_isfile W tr input_source then
    prepare_input W input_source output_folder tr
    = if recognized input_source
      then (Return ([input_source],
                    Py.first (Py.split "." (Py.basename input_source))), tr)
      else (Raise (not_a_fastq input_source), tr)
  else
    w_returncode W tr1 prefetch = 0%Z ->
    w_returncode W tr2 dump = 0%Z ->
    found <> [] ->
    prepare_input W input_source output_folder tr
    = (Return (found, input_source), tr3).
Proof.
  intros sra_dir tmp_dump_dir prefetch dump tr1 tr2 tr3 found.
  unfold prepare_input.
  destruct (w_isfile W tr input_source) eqn:Hf.
  - unfold bind at 1, ask. rewrite Hf. unfold recognized.
    destruct (_ || _); reflexivity.
  - intros H1 H2 H3.
    unfold bind at 1, ask. rewrite Hf.
    unfold bind at 1, emit.
    erewrite bind_return by (apply run_command_zero; exact H1).
    unfold bind at 1. rewrite <- !app_assoc. simpl app.
    erewrite bind_return by (apply run_command_zero; exact H2).
    rewrite <- !app_assoc. simpl app.
    unfold bind, ask, ret. fold sra_dir tmp_dump_dir prefetch dump tr3 found.
    destruct found; [contradiction|reflexivity].
Qed.

Lemma prepare_input_cases_witness :
  prepare_input (local_world (fun _ => 0%Z) sample_report sample_g sample_t)
    "data/run1/sample.fastq.gz" "out" []
  = (Return (["data/run1/sample.fastq.gz"], "sample"), [])
  /\ prepare_input (archive_world ["out/SRR1/SRR1_1.fastq"; "out/SRR1/SRR1_2.fastq"])
       "SRR1" "out" []
     = (Return (["out/SRR1/SRR1_1.fastq"; "out/SRR1/SRR1_2.fastq"], "SRR1"),
        [ MakeDirs "out/SRR1";
          Shell "prefetch SRR1 --output-directory out/SRR1 --max-size 500G";
          MakeDirs "out/SRR1/tmp_dump";
          Shell "fasterq-dump SRR1 -O out/SRR1 --temp out/SRR1/tmp_dump --split-files" ]).
Proof.
  split.
  - exact (prepare_input_cases
             (local_world (fun _ => 0%Z) sample_report sample_g sample_t)
             "data/run1/sample.fastq.gz" "out" []).
  - refine (prepare_input_cases
              (archive_world ["out/SRR1/SRR1_1.fastq"; "out/SRR1/SRR1_2.fastq"])
              "SRR1" "out" [] eq_refl eq_refl _).
    vm_compute. discriminate.
Defined.

(** ** [parse_classification_percents] *)

Section Report.

Variable py_float : string -> option float.

Lemma supplied_absent label rows dflt :
  label_absent label rows -> supplied label rows dflt = dflt.
Proof.
  intros H. revert dflt. induction H as [|[pct l] rows Hl _ IH]; intros dflt.
  - reflexivity.
  - simpl in *. apply String.eqb_neq in Hl. rewrite Hl. apply IH.
Qed.

(** The last row with the label is the one that counts. *)
Lemma supplied_last label before pct after dflt :
  label_absent label after ->
  supplied label (before ++ (pct, label) :: after) dflt = pct.
Proof.
  intros H. revert dflt. induction before as [|[p l] before IH]; intros dflt.
  - simpl. rewrite String.eqb_refl. apply supplied_absent, H.
  - simpl. apply IH.
Qed.

(** The loop computes what the rows supply, each label on its own. *)
Lemma scan_report_rows lines : forall rows pc pu,
  report_rows py_float lines = Some rows ->
  scan_report py_float lines pc pu
  = Return (supplied "root" rows pc, supplied "unclassified" rows pu).
Proof.
  induction lines as [|line rest IH]; intros rows pc pu H.
  - injection H as <-. reflexivity.
  - cbn [report_rows scan_report] in *.
    destruct (length (Py.split TAB (Py.strip line)) <? 2)%nat.
    + apply IH, H.
    + destruct (py_float _) as [pct|]; [|discriminate].
      destruct (report_rows py_float rest) as [rows'|]; [|discriminate].
      injection H as <-. cbn [supplied].
      destruct (String.eqb_spec
                  (Py.strip (Py.last (Py.split TAB (Py.strip line))))
                  "unclassified") as [->|Hn].
      * change ("unclassified" =? "root") with false. apply IH. reflexivity.
      * destruct (String.eqb _ "root"); apply IH; reflexivity.
Qed.

(** A row whose percentage is not a float makes the loop raise. *)
Lemma scan_report_raises lines : forall pc pu,
  report_rows py_float lines = None ->
  scan_report py_float lines pc pu = Raise ValueError.
Proof.
  induction lines as [|line rest IH]; intros pc pu H.
  - discriminate.
  - cbn [report_rows scan_report] in *.
    destruct (length (Py.split TAB (Py.strip line)) <? 2)%nat.
    + apply IH, H.
    + destruct (py_float _) as [pct|]; [|reflexivity].
      destruct (report_rows py_float rest) as [rows'|]; [discriminate|].
      destruct (String.eqb _ "unclassified"); [|destruct (String.eqb _ "root")];
        apply IH; reflexivity.
Qed.

Lemma parse_classification_percents_eq W report_file tr lines rows :
  w_lines W tr report_file = Some lines ->
  report_rows py_float lines = Some rows ->
  parse_classification_percents W py_float report_file tr
  = (Return (supplied "root" rows 0%float, supplied "unclassified" rows 0%float),
     warn_if_zero (supplied "root" rows 0%float)
       (supplied "unclassified" rows 0%float) tr).
Proof.
  intros Hl Hr. unfold parse_classification_percents.
  unfold bind at 1, ask. rewrite Hl.
  unfold bind at 1, lift. rewrite (scan_report_rows _ _ _ _ Hr).
  unfold warn_if_zero, bind.
  destruct (_ && _); reflexivity.
Qed.

Lemma parse_classification_percents_raises W report_file tr lines :
  w_lines W tr report_file = Some lines ->
  report_rows py_float lines = None ->
  parse_classification_percents W py_float report_file tr
  = (Raise ValueError, tr).
Proof.
  intros Hl Hr. unfold parse_classification_percents.
  unfold bind at 1, ask. rewrite Hl.
  unfold bind at 1, lift. rewrite (scan_report_raises _ _ _ Hr). reflexivity.
Qed.

End Report.

(** A run whose inputs resolve and whose two metaG tools succeed, up to the
    point where the classification report is read. *)
Section UnparseableReport.

Variable W : World.
Variable py_float : string -> option float.
Variable cosine : list float -> list float -> exn + float.
Variables metaG_input metaT_input krakendb outdir read_len : string.
Variables metaG_files metaT_files : list string.
Variables metaG_acc_name metaT_acc_name : string.
Variables tr tr1 tr2 : trace.
Variable df : frame.
Variable lines : list string.

Let folder_path : string :=
Py.path_join outdir
  (fstr [temp_name metaG_input; "_"; temp_name metaT_input]).
Let pre : string := fstr [metaG_acc_name; "_metaG"].
Let kraken_report : string :=
Py.path_join folder_path (fstr [pre; "_kraken2.report"]).
Let bracken_tsv : string :=
Py.path_join folder_path (fstr [pre; "_bracken.tsv"]).
Let bracken_csv : string :=
Py.path_join folder_path (fstr [pre; "_bracken.csv"]).
Let classify : string :=
kraken2_cmd krakendb (if (1 <? length metaG_files)%nat then "--paired" else "")
  (Py.join " " metaG_files) kraken_report
  (Py.path_join folder_path (fstr [pre; "_kraken2.out"])).
Let reestimate : string :=
bracken_cmd krakendb kraken_report bracken_tsv read_len.
Let tr3 : trace := (tr2 ++ [Shell classify; Shell reestimate])%list.
Let tr4 : trace :=
(tr2 ++ [Shell classify; Shell reestimate;
         WriteTable bracken_csv df; RemoveFile bracken_tsv])%list.

Hypothesis read_len_ok : Py.isdigit read_len = true.
Hypothesis metaG_ok :
prepare_input W metaG_input folder_path (tr ++ [MakeDirs folder_path])%list
= (Return (metaG_files, metaG_acc_name), tr1).
Hypothesis metaT_ok :
prepare_input W metaT_input folder_path tr1
= (Return (metaT_files, metaT_acc_name), tr2).
Hypothesis classify_ok : w_returncode W tr2 classify = 0%Z.
Hypothesis reestimate_ok :
w_returncode W (tr2 ++ [Shell classify])%list reestimate = 0%Z.
Hypothesis table_ok : read_csv W bracken_tsv tr3 = (Return df, tr3).
Hypothesis report_read : w_lines W tr4 kraken_report = Some lines.
Hypothesis report_bad : report_rows py_float lines = None.

(** The [ValueError] of the parse leaves [run_kraken_bracken]: nothing
    there catches it. *)
Lemma run_kraken_bracken_unparseable :
run_kraken_bracken W py_float metaG_files krakendb folder_path pre read_len tr2
= (Raise ValueError, tr4).
Proof.
unfold run_kraken_bracken.
erewrite bind_return by (apply run_command_zero; exact classify_ok).
erewrite bind_return by (apply run_command_zero; exact reestimate_ok).
rewrite <- app_assoc. cbn [app]. fold kraken_report bracken_tsv bracken_csv.
fold classify reestimate tr3.
erewrite bind_return.
2:{ unfold try_except. rewrite (bind_return _ _ _ _ _ table_ok).
    unfold bind, emit. cbn. unfold tr3. rewrite <- !app_assoc. cbn [app].
    reflexivity. }
fold tr4. apply bind_raise.
apply (parse_classification_percents_raises _ _ _ _ _ report_read report_bad).
Qed.

(** C5. In every run that gets as far as reading a classification report
    with a row of at least two fields whose first field is not a float,
    parsing is fatal: the [ValueError] of [float] is caught only by
    [execute_pipeline_logic], which reports a failed classification and
    exits with status 1. No warning is printed, no percentage defaults to
    0.0, and the run does not go on to the second sample or to the merge. *)
Theorem unparseable_percentage_is_fatal :
execute_pipeline_logic W py_float cosine metaG_input metaT_input krakendb
  outdir read_len tr
= (SysExit 1, (tr4 ++ [Print (MsgKrakenBrackenFailed ValueError)])%list).
Proof.
unfold execute_pipeline_logic.
erewrite bind_return by (rewrite check_read_len_eq, read_len_ok; reflexivity).
erewrite bind_return by reflexivity. fold folder_path.
unfold bind at 1. unfold try_except at 1.
rewrite (bind_return _ _ _ _ _ metaG_ok), (bind_return _ _ _ _ _ metaT_ok).
unfold ret at 1. cbv iota beta.
apply bind_sys_exit. fold pre.
erewrite try_except_raise
  by (apply bind_raise; exact run_kraken_bracken_unparseable).
reflexivity.
Qed.

End UnparseableReport.

Lemma unparseable_percentage_is_fatal_witness :
  execute_pipeline_logic
    (local_world (fun _ => 0%Z)
       [tsv ["percent"; "reads"; "taxReads"; "rank"; "taxID"; "name"]]
       sample_g sample_t)
    float_of_decimal Scipy.cosine "in/g.fastq" "in/t.fastq" "db" "out" "150" []
  = (SysExit 1,
     [ MakeDirs "out/g_t";
       Shell "kraken2 --db db --threads 8 --use-names  in/g.fastq --report out/g_t/g_metaG_kraken2.report --output out/g_t/g_metaG_kraken2.out";
       Shell "bracken -d db -i out/g_t/g_metaG_kraken2.report -o out/g_t/g_metaG_bracken.tsv -l S -r 150";
       WriteTable "out/g_t/g_metaG_bracken.csv" sample_g;
       RemoveFile "out/g_t/g_metaG_bracken.tsv";
       Print (MsgKrakenBrackenFailed ValueError) ]).
Proof.
  exact (unparseable_percentage_is_fatal
           (local_world (fun _ => 0%Z)
               [tsv ["percent"; "reads"; "taxReads"; "rank"; "taxID"; "name"]]
               sample_g sample_t)
            float_of_decimal Scipy.cosine "in/g.fastq" "in/t.fastq" "db" "out" "150"
            ["in/g.fastq"] ["in/t.fastq"] "g" "t" [] [MakeDirs "out/g_t"]
            [MakeDirs "out/g_t"] sample_g
            [tsv ["percent"; "reads"; "taxReads"; "rank"; "taxID"; "name"]]
            eq_refl eq_refl eq_refl eq_refl eq_refl eq_refl eq_refl eq_refl).
Defined.

(** ** [merge_metag_metat]: the two artifacts *)

(** What [merge_metag_metat] reads and writes around the two frames. *)
Lemma merge_metag_metat_io_writes W bracken_g_csv bracken_t_csv
    pct_g_class pct_g_unclass pct_t_class pct_t_unclass merged_csv overlap_csv
    tr (df_g df_t : AbundanceTable) :
  read_csv W bracken_g_csv tr = (Return (Table df_g), tr) ->
  read_csv W bracken_t_csv tr = (Return (Table df_t), tr) ->
  merge_metag_metat_io W bracken_g_csv bracken_t_csv
    pct_g_class pct_g_unclass pct_t_class pct_t_unclass merged_csv overlap_csv tr
  = let frames :=
      merge_metag_metat df_g df_t
        pct_g_class pct_g_unclass pct_t_class pct_t_unclass in
    (Return (merged_csv, overlap_csv),
     (tr ++ [WriteFrame merged_csv (fst frames);
             WriteFrame overlap_csv (snd frames)])%list).
Proof.
  intros Hg Ht. unfold merge_metag_metat_io.
  rewrite (bind_return _ _ _ _ _ Hg), (bind_return _ _ _ _ _ Ht).
  unfold merge_metag_metat, bind, emit, ret. cbn [fst snd].
  rewrite <- app_assoc. reflexivity.
Qed.

(** ** [compute_similarity]: a vector of zeros *)

(** The similarity is 0.0 exactly on the inputs on which [cosine] raises. *)
Lemma compute_similarity_sim cosine df_g df_t :
  fst (compute_similarity cosine df_g df_t)
  = match cosine (vec_g df_g df_t) (vec_t df_g df_t) with
    | inr d => PrimFloat.sub 1%float d
    | inl _ => 0%float
    end.
Proof. reflexivity. Qed.

(** scipy's function returns a distance on every pair of vectors. *)
Lemma scipy_cosine_returns u v : exists d, Scipy.cosine u v = inr d.
Proof. unfold Scipy.cosine. eexists. reflexivity. Qed.

(** Zeros and NaN through the operations of the distance. *)
Lemma eqb_zero x :
  PrimFloat.eqb x 0%float = true -> exists s, Prim2SF x = S754_zero s.
Proof.
  rewrite FloatAxioms.eqb_spec. change (Prim2SF 0%float) with (S754_zero false).
  destruct (Prim2SF x) as [s| [] | |[] m e]; simpl; try discriminate; eauto.
Qed.

Lemma zero_or_nan_zero : zero_or_nan 0%float.
Proof. left. exists false. reflexivity. Qed.

Lemma mul_zero_l x y :
  (exists s, Prim2SF x = S754_zero s) -> zero_or_nan (PrimFloat.mul x y).
Proof.
  intros [s Hx]. unfold zero_or_nan. rewrite FloatAxioms.mul_spec, Hx.
  destruct (Prim2SF y) as [s'| s' | |s' m e]; simpl; eauto.
Qed.

Lemma mul_zero_r x y :
  (exists s, Prim2SF y = S754_zero s) -> zero_or_nan (PrimFloat.mul x y).
Proof.
  intros [s Hy]. unfold zero_or_nan. rewrite FloatAxioms.mul_spec, Hy.
  destruct (Prim2SF x) as [s'| s' | |s' m e]; simpl; eauto.
Qed.

Lemma mul_zero_or_nan_l x y : zero_or_nan x -> zero_or_nan (PrimFloat.mul x y).
Proof.
  intros [Hx|Hx]; [apply mul_zero_l, Hx|].
  right. rewrite FloatAxioms.mul_spec, Hx. reflexivity.
Qed.

Lemma mul_zero_or_nan_r x y : zero_or_nan y -> zero_or_nan (PrimFloat.mul x y).
Proof.
  intros [Hy|Hy]; [apply mul_zero_r, Hy|].
  right. rewrite FloatAxioms.mul_spec, Hy. destruct (Prim2SF x); reflexivity.
Qed.

Lemma add_zero_or_nan x y :
  zero_or_nan x -> zero_or_nan y -> zero_or_nan (PrimFloat.add x y).
Proof.
  unfold zero_or_nan. rewrite FloatAxioms.add_spec.
  intros [[s Hx]|Hx] [[s' Hy]|Hy]; rewrite Hx, Hy; simpl; auto.
  left. destruct s, s'; eauto.
Qed.

Lemma sqrt_zero_or_nan x : zero_or_nan x -> zero_or_nan (PrimFloat.sqrt x).
Proof.
  unfold zero_or_nan. rewrite FloatAxioms.sqrt_spec.
  intros [[s Hx]|Hx]; rewrite Hx; simpl; eauto.
Qed.

Lemma Prim2SF_nan x : Prim2SF x = S754_nan -> x = nan.
Proof. intros H. apply Prim2SF_inj. rewrite H. reflexivity. Qed.

Lemma div_zero_or_nan x y :
  zero_or_nan x -> zero_or_nan y -> PrimFloat.div x y = nan.
Proof.
  intros Hx Hy. apply Prim2SF_nan. rewrite FloatAxioms.div_spec.
  destruct Hx as [[s Hx]|Hx], Hy as [[s' Hy]|Hy]; rewrite Hx, Hy; reflexivity.
Qed.

Lemma dot_zero_or_nan_l u v : all_zero u -> zero_or_nan (Scipy.dot u v).
Proof.
  unfold Scipy.dot. generalize zero_or_nan_zero. generalize 0%float as acc.
  intros acc Hacc Hu. revert v acc Hacc.
  induction Hu as [|x u Hx Hu IH]; intros v acc Hacc; [exact Hacc|].
  destruct v as [|y v]; [exact Hacc|]. simpl. apply IH.
  apply add_zero_or_nan; [exact Hacc|]. apply mul_zero_l, eqb_zero, Hx.
Qed.

Lemma dot_zero_or_nan_r u v : all_zero v -> zero_or_nan (Scipy.dot u v).
Proof.
  unfold Scipy.dot. generalize zero_or_nan_zero. generalize 0%float as acc.
  intros acc Hacc Hv. revert u acc Hacc.
  induction Hv as [|y v Hy Hv IH]; intros u acc Hacc.
  - destruct u; exact Hacc.
  - destruct u as [|x u]; [exact Hacc|]. simpl. apply IH.
    apply add_zero_or_nan; [exact Hacc|]. apply mul_zero_r, eqb_zero, Hy.
Qed.

Lemma scipy_cosine_zero u v :
  all_zero u \/ all_zero v -> Scipy.cosine u v = inr nan.
Proof.
  intros H. unfold Scipy.cosine. f_equal.
  rewrite div_zero_or_nan; [reflexivity| |].
  - destruct H as [H|H]; [apply dot_zero_or_nan_l|apply dot_zero_or_nan_r]; exact H.
  - apply sqrt_zero_or_nan. destruct H as [H|H].
    + apply mul_zero_or_nan_l, dot_zero_or_nan_l, H.
    + apply mul_zero_or_nan_r, dot_zero_or_nan_l, H.
Qed.

(** C6. On every pair of tables for which one of the two aligned vectors is
    all zeros, the distance that scipy returns is NaN: no exception is
    there to catch, the [except] branch that would give 0.0 is not taken,
    and the similarity that [compute_similarity] returns is NaN, which is
    not 0.0 (and does not compare equal to it). *)
Theorem zero_vector_similarity_is_nan (A B : AbundanceTable) :
  all_zero (vec_g A B) \/ all_zero (vec_t A B) ->
  let sim := fst (compute_similarity Scipy.cosine A B) in
  sim = nan /\ PrimFloat.is_nan sim = true /\ sim <> 0%float
  /\ PrimFloat.eqb sim 0%float = false.
Proof.
  intros H sim. subst sim.
  rewrite compute_similarity_sim, scipy_cosine_zero by exact H.
  change (PrimFloat.sub 1 nan) with nan.
  repeat split; try reflexivity.
  intros E. apply (f_equal PrimFloat.is_nan) in E. vm_compute in E. discriminate.
Qed.

Lemma zero_vector_similarity_is_nan_witness :
  let sim :=
    fst (compute_similarity Scipy.cosine
           [species "sp1" 0 0%float] [species "sp1" 50 0.5%float]) in
  sim = nan /\ PrimFloat.is_nan sim = true /\ sim <> 0%float
  /\ PrimFloat.eqb sim 0%float = false.
Proof.
  apply zero_vector_similarity_is_nan.
  left. repeat constructor.
Defined.

(** The same with an empty metaG table: its vector is filled with zeros. *)
Example similarity_with_empty_table :
  vec_g [] [species "sp1" 50 0.5%float] = [0%float]
  /\ PrimFloat.is_nan
       (fst (compute_similarity Scipy.cosine [] [species "sp1" 50 0.5%float]))
     = true.
Proof. split; vm_compute; reflexivity. Qed.

(** ** The joins *)

Section JoinFacts.

Context {L R : Type}.
Variable kl : L -> string.
Variable kr : R -> string.

Lemma insert_by_key_perm (x : Joined L R) l :
  Permutation (insert_by_key x l) (x :: l).
Proof.
  induction l as [|y l IH]; simpl.
  - reflexivity.
  - destruct (String.leb (key x) (key y)).
    + reflexivity.
    + rewrite IH. apply perm_swap.
Qed.

Lemma sort_by_key_perm (l : list (Joined L R)) : Permutation (sort_by_key l) l.
Proof.
  induction l as [|x l IH]; simpl.
  - reflexivity.
  - rewrite insert_by_key_perm. apply perm_skip, IH.
Qed.

Lemma in_pd_merge_outer A B j :
  In j (pd_merge_outer kl kr A B)
  <-> (exists l, In l A /\ In j (left_rows kl kr B l)) \/ In j (right_only kl kr A B).
Proof.
  unfold pd_merge_outer.
  split.
  - intros H. apply (Permutation_in _ (sort_by_key_perm _)) in H.
    apply in_app_or in H as [H|H]; [left|right; exact H].
    apply in_flat_map in H. exact H.
  - intros H. apply (Permutation_in _ (Permutation_sym (sort_by_key_perm _))).
    apply in_or_app. destruct H as [H|H]; [left|right; exact H].
    apply in_flat_map. exact H.
Qed.

Lemma length_pd_merge_outer A B :
  length (pd_merge_outer kl kr A B)
  = (length (flat_map (left_rows kl kr B) A) + length (right_only kl kr A B))%nat.
Proof.
  unfold pd_merge_outer.
  rewrite (Permutation_length (sort_by_key_perm _)). apply length_app.
Qed.

Lemma matching_In k B r : In r (matching kr k B) <-> In r B /\ kr r = k.
Proof.
  unfold matching. rewrite filter_In. rewrite String.eqb_eq. reflexivity.
Qed.

Lemma matching_nil k B : ~ In k (map kr B) -> matching kr k B = [].
Proof.
  intros H. destruct (matching kr k B) as [|r ms] eqn:E; [reflexivity|].
  exfalso. apply H. assert (Hr : In r (matching kr k B)) by (rewrite E; left; reflexivity).
  apply matching_In in Hr as [Hr <-]. apply in_map, Hr.
Qed.

Lemma matching_NoDup k B :
  List.NoDup (map kr B) -> (length (matching kr k B) <= 1)%nat.
Proof.
  induction B as [|r B IH]; simpl; intros H.
  - lia.
  - inversion H as [|? ? Hn Hd]; subst.
    destruct (String.eqb_spec (kr r) k) as [E|E].
    + rewrite matching_nil; [simpl; lia|]. rewrite <- E. exact Hn.
    + apply IH, Hd.
Qed.

Lemma has_key_In k A : has_key kl k A = true <-> In k (map kl A).
Proof.
  unfold has_key. rewrite existsb_exists, in_map_iff.
  split; intros [l [H1 H2]]; exists l.
  - apply String.eqb_eq in H2. tauto.
  - rewrite String.eqb_eq. tauto.
Qed.

End JoinFacts.

Section JoinRows.

Context {L R : Type}.
Variable kl : L -> string.
Variable kr : R -> string.

Lemma key_inj_on {X} (k : X -> string) (l : list X) x y :
  List.NoDup (map k l) -> In x l -> In y l -> k x = k y -> x = y.
Proof.
  induction l as [|z l IH]; simpl; intros Hd Hx Hy E; [contradiction|].
  inversion Hd as [|? ? Hn Hd']; subst.
  destruct Hx as [->|Hx], Hy as [->|Hy]; auto.
  - exfalso. apply Hn. rewrite E. apply in_map, Hy.
  - exfalso. apply Hn. rewrite <- E. apply in_map, Hx.
Qed.


Lemma left_rows_key B l j :
  In j (left_rows kl kr B l) -> key j = kl l /\ left j = Some l.
Proof.
  unfold left_rows. destruct (matching kr (kl l) B) as [|r ms].
  - intros [<-|[]]. auto.
  - intros H. apply in_map_iff in H as [r' [<- _]]. auto.
Qed.

Lemma right_only_In A B j :
  In j (right_only kl kr A B)
  <-> exists r, j = {| key := kr r; left := None; right := Some r |}
                /\ In r B /\ ~ In (kr r) (map kl A).
Proof.
  unfold right_only. rewrite in_map_iff. split.
  - intros [r [<- H]]. apply filter_In in H as [H1 H2]. exists r.
    split; [reflexivity|]. split; [exact H1|].
    rewrite <- (has_key_In kl). destruct (has_key kl (kr r) A); [discriminate|congruence].
  - intros [r [-> [H1 H2]]]. exists r. split; [reflexivity|].
    apply filter_In. split; [exact H1|].
    rewrite <- (has_key_In kl) in H2. destruct (has_key kl (kr r) A); [congruence|reflexivity].
Qed.

Lemma length_left_rows B l :
  List.NoDup (map kr B) -> length (left_rows kl kr B l) = 1%nat.
Proof.
  intros H. unfold left_rows.
  pose proof (matching_NoDup kr (kl l) B H) as Hm.
  destruct (matching kr (kl l) B) as [|r [|r' ms]]; simpl in *; [reflexivity|reflexivity|lia].
Qed.

Lemma length_flat_map_const {X Y} (f : X -> list Y) (l : list X) n :
  (forall x, In x l -> length (f x) = n) -> length (flat_map f l) = (n * length l)%nat.
Proof.
  induction l as [|x l IH]; simpl; intros H; [lia|].
  rewrite length_app, IH, H by auto. lia.
Qed.

Lemma length_pd_merge_outer_NoDup A B :
  List.NoDup (map kr B) ->
  length (pd_merge_outer kl kr A B)
  = (length A
     + length (List.filter (fun r => negb (has_key kl (kr r) A)) B))%nat.
Proof.
  intros H. rewrite length_pd_merge_outer.
  rewrite (length_flat_map_const _ _ 1) by (intros; apply length_left_rows, H).
  unfold right_only. rewrite length_map. lia.
Qed.

Lemma length_matching_NoDup k B :
  List.NoDup (map kr B) ->
  length (matching kr k B)
  = if existsb (fun r => String.eqb (kr r) k) B then 1%nat else 0%nat.
Proof.
  induction B as [|r B IH]; simpl; intros H; [reflexivity|].
  inversion H as [|? ? Hn Hd]; subst.
  destruct (String.eqb_spec (kr r) k) as [E|E]; simpl.
  - rewrite matching_nil; [reflexivity|]. rewrite <- E. exact Hn.
  - apply IH, Hd.
Qed.

Lemma length_pd_merge_inner_NoDup A B :
  List.NoDup (map kr B) ->
  length (pd_merge_inner kl kr A B)
  = length (List.filter (fun l => existsb (fun r => String.eqb (kr r) (kl l)) B) A).
Proof.
  intros H. unfold pd_merge_inner.
  induction A as [|l A IH]; simpl; [reflexivity|].
  rewrite length_app, length_map, IH, (length_matching_NoDup _ _ H).
  destruct (existsb _ B); reflexivity.
Qed.

End JoinRows.

(** ** The sizes of the union and of the intersection of the taxa *)

Lemma NoDup_filter_map {X} (k : X -> string) (p : X -> bool) (l : list X) :
  List.NoDup (map k l) -> List.NoDup (map k (List.filter p l)).
Proof.
  induction l as [|x l IH]; simpl; intros H; [constructor|].
  inversion H as [|? ? Hn Hd]; subst.
  destruct (p x); simpl; [constructor|]; auto.
  intros Hin. apply Hn. apply in_map_iff in Hin as [y [E Hy]].
  apply filter_In in Hy as [Hy _]. rewrite <- E. apply in_map, Hy.
Qed.

Lemma size_taxa_union (A B : AbundanceTable) :
  NoDup (map name A) -> NoDup (map name B) ->
  size (taxa A ∪ taxa B)
  = (length A + length (List.filter (fun r => negb (has_key name (name r) A)) B))%nat.
Proof.
  intros HA HB.
  set (B' := List.filter (fun r => negb (has_key name (name r) A)) B).
  assert (E : taxa A ∪ taxa B = list_to_set (map name A ++ map name B')).
  { apply set_eq. intros x. unfold taxa.
    rewrite list_to_set_app_L, !elem_of_union, !elem_of_list_to_set, !list_elem_of_In.
    split; intros [H|H]; auto.
    - destruct (has_key name x A) eqn:Hk.
      + left. apply (has_key_In name), Hk.
      + right. apply in_map_iff in H as [r [<- Hr]]. apply in_map.
        apply filter_In. split; [exact Hr|]. rewrite Hk. reflexivity.
    - right. apply in_map_iff in H as [r [<- Hr]]. apply in_map.
      apply filter_In in Hr. tauto. }
  rewrite E, size_list_to_set.
  - rewrite length_app, !length_map. reflexivity.
  - apply NoDup_ListNoDup. apply NoDup_ListNoDup in HA, HB.
    apply List.NoDup_app.
    + exact HA.
    + apply NoDup_filter_map, HB.
    + intros x Hx Hx'. apply in_map_iff in Hx' as [r [<- Hr]].
      apply filter_In in Hr as [_ Hr]. apply (has_key_In name) in Hx.
      rewrite Hx in Hr. discriminate.
Qed.

Lemma size_taxa_inter (A B : AbundanceTable) :
  NoDup (map name A) ->
  size (taxa A ∩ taxa B)
  = length (List.filter
              (fun l => existsb (fun r => String.eqb (name r) (name l)) B) A).
Proof.
  intros HA.
  set (A' := List.filter _ A).
  assert (E : taxa A ∩ taxa B = list_to_set (map name A')).
  { apply set_eq. intros x. unfold taxa.
    rewrite elem_of_intersection, !elem_of_list_to_set, !list_elem_of_In.
    split.
    - intros [H1 H2]. apply in_map_iff in H1 as [l [<- Hl]]. apply in_map.
      apply filter_In. split; [exact Hl|]. apply (has_key_In name), H2.
    - intros H. apply in_map_iff in H as [l [<- Hl]].
      apply filter_In in Hl as [Hl Hk]. split; [apply in_map, Hl|].
      apply (has_key_In name), Hk. }
  rewrite E, size_list_to_set.
  - apply length_map.
  - apply NoDup_ListNoDup. apply NoDup_filter_map. apply NoDup_ListNoDup, HA.
Qed.



Lemma fillna_float_present v x :
  PrimFloat.is_nan x = false -> fillna_float v (Some x) = x.
Proof. intros H. unfold fillna_float. rewrite H. reflexivity. Qed.







(** C2. With unique taxon names in each table, the merged artifact has one
    row per taxon of the union of the two tables and the summary row, the
    overlap artifact one row per taxon of their intersection and the
    summary row. *)
Theorem artifact_row_counts (A B : AbundanceTable)
    pct_g_class pct_g_unclass pct_t_class pct_t_unclass :
  NoDup (map name A) -> NoDup (map name B) ->
  let frames :=
    merge_metag_metat A B pct_g_class pct_g_unclass pct_t_class pct_t_unclass in
  length (rows (fst frames)) = (size (taxa A ∪ taxa B) + 1)%nat
  /\ length (rows (snd frames)) = (size (taxa A ∩ taxa B) + 1)%nat.
Proof.
  intros HA HB. unfold merge_metag_metat. cbn [rows length fst snd].
  unfold merged_taxon_rows, overlap_taxon_rows. rewrite !length_map.
  rewrite size_taxa_union, size_taxa_inter by assumption.
  rewrite length_pd_merge_outer_NoDup, length_pd_merge_inner_NoDup
    by (apply NoDup_ListNoDup, HB).
  lia.
Qed.

Lemma artifact_row_counts_witness :
  let frames :=
    merge_metag_metat sample_g sample_t
      87.66%float 12.34%float 87.66%float 12.34%float in
  length (rows (fst frames)) = (size (taxa sample_g ∪ taxa sample_t) + 1)%nat
  /\ length (rows (snd frames)) = (size (taxa sample_g ∩ taxa sample_t) + 1)%nat.
Proof.
  apply artifact_row_counts.
  - apply (bool_decide_unpack _). vm_compute. exact I.
  - apply (bool_decide_unpack _). vm_compute. exact I.
Defined.

Example sample_row_counts :
  size (taxa sample_g ∪ taxa sample_t) = 3%nat
  /\ size (taxa sample_g ∩ taxa sample_t) = 1%nat.
Proof. split; vm_compute; reflexivity. Qed.

(** ** Sorting by key, filtering and mapping commute *)

Lemma string_leb_trans s1 : forall s2 s3,
  String.leb s1 s2 = true -> String.leb s2 s3 = true -> String.leb s1 s3 = true.
Proof.
  unfold String.leb.
  induction s1 as [|c1 s1 IH]; intros [|c2 s2] [|c3 s3]; simpl; try congruence.
  change (Ascii.compare c1 c2) with (N.compare (N_of_ascii c1) (N_of_ascii c2)).
  change (Ascii.compare c2 c3) with (N.compare (N_of_ascii c2) (N_of_ascii c3)).
  change (Ascii.compare c1 c3) with (N.compare (N_of_ascii c1) (N_of_ascii c3)).
  destruct (N.compare_spec (N_of_ascii c1) (N_of_ascii c2)) as [E12|L12|G12];
    try congruence;
    destruct (N.compare_spec (N_of_ascii c2) (N_of_ascii c3)) as [E23|L23|G23];
    try congruence; intros H12 H23.
  - rewrite E12, E23, N.compare_refl. exact (IH _ _ H12 H23).
  - rewrite E12. apply N.compare_lt_iff in L23. rewrite L23. reflexivity.
  - rewrite <- E23. apply N.compare_lt_iff in L12. rewrite L12. reflexivity.
  - assert (L : (N_of_ascii c1 < N_of_ascii c3)%N) by lia.
    apply N.compare_lt_iff in L. rewrite L. reflexivity.
Qed.

Section SortFacts.

Context {L R : Type}.

Lemma insert_by_key_In (x : Joined L R) l z :
  In z (insert_by_key x l) <-> z = x \/ In z l.
Proof.
  induction l as [|y l IH]; simpl.
  - intuition.
  - destruct (String.leb (key x) (key y)); simpl; rewrite ?IH; intuition.
Qed.

Lemma insert_by_key_sorted (x : Joined L R) l :
  StronglySorted key_le l -> StronglySorted key_le (insert_by_key x l).
Proof.
  induction 1 as [|y l Hs IH Hy]; simpl.
  - repeat constructor.
  - destruct (String.leb (key x) (key y)) eqn:E.
    + constructor; [constructor; assumption|].
      constructor; [exact E|].
      rewrite List.Forall_forall in Hy. apply List.Forall_forall. intros z Hz.
      eapply string_leb_trans; [exact E|apply Hy, Hz].
    + constructor; [exact IH|].
      apply List.Forall_forall. intros z Hz.
      apply insert_by_key_In in Hz as [->|Hz].
      * destruct (String.leb_total (key x) (key y)) as [H|H];
          [congruence|exact H].
      * rewrite List.Forall_forall in Hy. apply Hy, Hz.
Qed.

Lemma sort_by_key_sorted (l : list (Joined L R)) :
  StronglySorted key_le (sort_by_key l).
Proof.
  induction l as [|x l IH]; simpl; [constructor|].
  apply insert_by_key_sorted, IH.
Qed.

Lemma insert_by_key_least (x : Joined L R) l :
  Forall (key_le x) l -> insert_by_key x l = x :: l.
Proof.
  destruct 1 as [|y l Hy _]; simpl; [reflexivity|].
  unfold key_le in Hy. rewrite Hy. reflexivity.
Qed.

Variable P : string -> bool.

Lemma keep_insert_dropped (x : Joined L R) l :
  P (key x) = false -> keep P (insert_by_key x l) = keep P l.
Proof.
  intros Hx. unfold keep. induction l as [|y l IH]; simpl.
  - rewrite Hx. reflexivity.
  - destruct (String.leb (key x) (key y)); simpl.
    + rewrite Hx. reflexivity.
    + rewrite IH. reflexivity.
Qed.

Lemma keep_insert_kept (x : Joined L R) l :
  P (key x) = true -> StronglySorted key_le l ->
  keep P (insert_by_key x l) = insert_by_key x (keep P l).
Proof.
  intros Hx. unfold keep. induction 1 as [|y l Hs IH Hy]; simpl.
  - rewrite Hx. reflexivity.
  - destruct (String.leb (key x) (key y)) eqn:E.
    + cbn [List.filter]. rewrite Hx. symmetry.
      apply (insert_by_key_least x
               (if P (key y) then y :: List.filter (fun j => P (key j)) l
                else List.filter (fun j => P (key j)) l)).
      apply List.Forall_forall. intros z Hz.
      assert (Hz' : In z (y :: l)).
      { destruct (P (key y)); [destruct Hz as [<-|Hz]; [left; reflexivity|right]|right];
          apply filter_In in Hz; tauto. }
      destruct Hz' as [<-|Hz']; [exact E|].
      rewrite List.Forall_forall in Hy.
      eapply string_leb_trans; [exact E|apply Hy, Hz'].
    + cbn [List.filter]. rewrite IH.
      destruct (P (key y)); simpl; [rewrite E|]; reflexivity.
Qed.

(** Filtering on the key before or after the sort is the same. *)
Lemma keep_sort_by_key (l : list (Joined L R)) :
  keep P (sort_by_key l) = sort_by_key (keep P l).
Proof.
  induction l as [|x l IH]; [reflexivity|].
  change (sort_by_key (x :: l)) with (insert_by_key x (sort_by_key l)).
  destruct (P (key x)) eqn:Hx.
  - rewrite keep_insert_kept by (exact Hx || apply sort_by_key_sorted).
    rewrite IH. unfold keep. cbn [List.filter]. rewrite Hx. reflexivity.
  - rewrite keep_insert_dropped by exact Hx. rewrite IH.
    unfold keep. cbn [List.filter]. rewrite Hx. reflexivity.
Qed.

End SortFacts.

Lemma filter_filter_comm {X} (p q : X -> bool) (l : list X) :
  List.filter p (List.filter q l) = List.filter q (List.filter p l).
Proof.
  induction l as [|x l IH]; simpl; [reflexivity|].
  destruct (p x) eqn:Hp, (q x) eqn:Hq; simpl; rewrite ?Hp, ?Hq, IH; reflexivity.
Qed.

Lemma filter_map_comm {X Y} (f : X -> Y) (p : Y -> bool) (l : list X) :
  List.filter p (map f l) = map f (List.filter (fun x => p (f x)) l).
Proof.
  induction l as [|x l IH]; simpl; [reflexivity|].
  destruct (p (f x)); simpl; rewrite IH; reflexivity.
Qed.

Lemma filter_flat_map {X Y} (f : X -> list Y) (p : Y -> bool) (l : list X) :
  List.filter p (flat_map f l) = flat_map (fun x => List.filter p (f x)) l.
Proof.
  induction l as [|x l IH]; simpl; [reflexivity|].
  rewrite List.filter_app, IH. reflexivity.
Qed.

Lemma filter_all {X} (p : X -> bool) (l : list X) :
  (forall x, In x l -> p x = true) -> List.filter p l = l.
Proof.
  induction l as [|x l IH]; simpl; intros H; [reflexivity|].
  rewrite H by auto. rewrite IH by auto. reflexivity.
Qed.

Lemma filter_none {X} (p : X -> bool) (l : list X) :
  (forall x, In x l -> p x = false) -> List.filter p l = [].
Proof.
  induction l as [|x l IH]; simpl; intros H; [reflexivity|].
  rewrite H by auto. apply IH. auto.
Qed.

(** The outer join of two filtered frames is the filtered outer join. *)
Section MergeFilter.
Context {L R : Type}.
Variable kl : L -> string.
Variable kr : R -> string.
Variable P : string -> bool.

Lemma matching_filter k B :
  P k = true ->
  matching kr k (List.filter (fun r => P (kr r)) B) = matching kr k B.
Proof.
  intros Hk. unfold matching. rewrite filter_filter_comm.
  apply filter_all. intros r Hr. apply filter_In in Hr as [_ Hr].
  apply String.eqb_eq in Hr. rewrite Hr. exact Hk.
Qed.

Lemma has_key_filter k A :
  P k = true ->
  has_key kl k (List.filter (fun l => P (kl l)) A) = has_key kl k A.
Proof.
  intros Hk. unfold has_key. induction A as [|l A IH]; simpl; [reflexivity|].
  destruct (String.eqb_spec (kl l) k) as [E|E].
  - rewrite E, Hk. simpl. rewrite E, String.eqb_refl. reflexivity.
  - destruct (P (kl l)); simpl; [apply String.eqb_neq in E; rewrite E|]; exact IH.
Qed.

Lemma keep_left_rows B l :
  keep P (left_rows kl kr B l)
  = if P (kl l) then left_rows kl kr (List.filter (fun r => P (kr r)) B) l else [].
Proof.
  unfold keep. destruct (P (kl l)) eqn:Hl.
  - unfold left_rows. rewrite matching_filter by exact Hl.
    apply filter_all. intros j Hj.
    destruct (left_rows_key kl kr B l j Hj) as [-> _]. exact Hl.
  - apply filter_none. intros j Hj.
    destruct (left_rows_key kl kr B l j Hj) as [-> _]. exact Hl.
Qed.

Lemma keep_flat_map_left_rows A B :
  keep P (flat_map (left_rows kl kr B) A)
  = flat_map (left_rows kl kr (List.filter (fun r => P (kr r)) B))
      (List.filter (fun l => P (kl l)) A).
Proof.
  unfold keep. induction A as [|l A IH]; simpl; [reflexivity|].
  rewrite List.filter_app, IH. fold (keep P (left_rows kl kr B l)).
  rewrite keep_left_rows. destruct (P (kl l)); reflexivity.
Qed.

Lemma keep_right_only A B :
  keep P (right_only kl kr A B)
  = right_only kl kr (List.filter (fun l => P (kl l)) A)
      (List.filter (fun r => P (kr r)) B).
Proof.
  unfold keep, right_only. rewrite filter_map_comm. cbn [key]. f_equal.
  rewrite filter_filter_comm.
  apply filter_ext_in. intros r Hr. apply filter_In in Hr as [_ Hr].
  rewrite has_key_filter by exact Hr. reflexivity.
Qed.

Lemma keep_pd_merge_outer A B :
  keep P (pd_merge_outer kl kr A B)
  = pd_merge_outer kl kr (List.filter (fun l => P (kl l)) A)
      (List.filter (fun r => P (kr r)) B).
Proof.
  unfold pd_merge_outer. rewrite keep_sort_by_key. f_equal.
  unfold keep at 1. rewrite List.filter_app.
  fold (keep P (flat_map (left_rows kl kr B) A)).
  fold (keep P (right_only kl kr A B)).
  rewrite keep_flat_map_left_rows, keep_right_only. reflexivity.
Qed.
End MergeFilter.

(** The outer join of two frames with fewer columns is the outer join with
    fewer columns, as long as the key columns stay. *)
Section MergeMap.
Context {L R L' R' : Type}.
Variable kl : L -> string.
Variable kr : R -> string.
Variable kl' : L' -> string.
Variable kr' : R' -> string.
Variable f : L -> L'.
Variable g : R -> R'.
Hypothesis kl_f : forall l, kl' (f l) = kl l.
Hypothesis kr_g : forall r, kr' (g r) = kr r.

Lemma map_insert_by_key (x : Joined L R) l :
  map (jmap f g) (insert_by_key x l) = insert_by_key (jmap f g x) (map (jmap f g) l).
Proof.
  induction l as [|y l IH]; simpl; [reflexivity|].
  destruct (String.leb (key x) (key y)); simpl; rewrite ?IH; reflexivity.
Qed.

Lemma map_sort_by_key (l : list (Joined L R)) :
  map (jmap f g) (sort_by_key l) = sort_by_key (map (jmap f g) l).
Proof.
  induction l as [|x l IH]; simpl; [reflexivity|].
  rewrite map_insert_by_key, IH. reflexivity.
Qed.

Lemma matching_map k B :
  matching kr' k (map g B) = map g (matching kr k B).
Proof.
  unfold matching. rewrite filter_map_comm. f_equal.
  apply filter_ext. intros r. rewrite kr_g. reflexivity.
Qed.

Lemma has_key_map k A : has_key kl' k (map f A) = has_key kl k A.
Proof.
  unfold has_key. induction A as [|l A IH]; simpl; [reflexivity|].
  rewrite kl_f, IH. reflexivity.
Qed.

Lemma left_rows_map B l :
  left_rows kl' kr' (map g B) (f l) = map (jmap f g) (left_rows kl kr B l).
Proof.
  unfold left_rows. rewrite kl_f, matching_map.
  destruct (matching kr (kl l) B) as [|r ms]; [reflexivity|].
  cbn [map]. unfold jmap. cbn. f_equal. rewrite !map_map. reflexivity.
Qed.

Lemma right_only_map A B :
  right_only kl' kr' (map f A) (map g B) = map (jmap f g) (right_only kl kr A B).
Proof.
  unfold right_only. rewrite filter_map_comm, !map_map.
  unfold jmap. cbn.
  erewrite filter_ext; [|intros r; rewrite kr_g, has_key_map; reflexivity].
  apply map_ext. intros r. rewrite kr_g. reflexivity.
Qed.

Lemma pd_merge_outer_map A B :
  pd_merge_outer kl' kr' (map f A) (map g B)
  = map (jmap f g) (pd_merge_outer kl kr A B).
Proof.
  unfold pd_merge_outer. rewrite map_sort_by_key. f_equal.
  rewrite map_app, <- right_only_map. f_equal.
  induction A as [|l A IH]; simpl; [reflexivity|].
  rewrite map_app, IH, left_rows_map. reflexivity.
Qed.
End MergeMap.

(** ** [compute_similarity]: the two vectors *)

Lemma artifact_taxon_rows_merged df_g df_t
    pct_g_class pct_g_unclass pct_t_class pct_t_unclass :
  artifact_taxon_rows
    (fst (merge_metag_metat df_g df_t
            pct_g_class pct_g_unclass pct_t_class pct_t_unclass))
  = map merged_row
      (pd_merge_outer name name (drop_stats df_g) (drop_stats df_t)).
Proof.
  unfold artifact_taxon_rows, merge_metag_metat, merged_taxon_rows.
  cbn [fst rows List.filter m_name meta_row].
  change (not_stats CLASSIFICATION_STATS) with false. cbv iota.
  rewrite filter_map_comm.
  change (List.filter (fun j => not_stats (m_name (merged_row j)))
            (pd_merge_outer name name df_g df_t))
    with (keep not_stats (pd_merge_outer name name df_g df_t)).
  rewrite keep_pd_merge_outer. reflexivity.
Qed.

Lemma all_abund_eq df_g df_t :
  all_abund df_g df_t
  = map (jmap name_fraction name_fraction)
      (pd_merge_outer name name (drop_stats df_g) (drop_stats df_t)).
Proof.
  unfold all_abund. apply pd_merge_outer_map; reflexivity.
Qed.

(** C10. With unique taxon names in each table, the vectors that
    [compute_similarity] builds from the two per-condition tables are the
    two fraction columns of the merged artifact without its summary row,
    entry by entry, and the taxa stand in the same order in both. *)
Theorem vectors_agree_with_merged_artifact (A B : AbundanceTable)
    pct_g_class pct_g_unclass pct_t_class pct_t_unclass :
  NoDup (map name A) -> NoDup (map name B) ->
  let merged :=
    fst (merge_metag_metat A B
           pct_g_class pct_g_unclass pct_t_class pct_t_unclass) in
  vec_g A B = artifact_vector_A merged
  /\ vec_t A B = artifact_vector_B merged
  /\ map key (all_abund A B) = map m_name (artifact_taxon_rows merged).
Proof.
  intros _ _ merged. subst merged.
  unfold vec_g, vec_t, artifact_vector_A, artifact_vector_B.
  rewrite artifact_taxon_rows_merged, all_abund_eq, !map_map.
  split; [|split]; apply map_ext; intros j.
  - destruct j as [k [l|] r]; reflexivity.
  - destruct j as [k l [r|]]; reflexivity.
  - reflexivity.
Qed.

Lemma vectors_agree_with_merged_artifact_witness :
  let merged :=
    fst (merge_metag_metat sample_g sample_t
           87.66%float 12.34%float 87.66%float 12.34%float) in
  vec_g sample_g sample_t = artifact_vector_A merged
  /\ vec_t sample_g sample_t = artifact_vector_B merged
  /\ map key (all_abund sample_g sample_t)
     = map m_name (artifact_taxon_rows merged).
Proof.
  apply vectors_agree_with_merged_artifact.
  - apply (bool_decide_unpack _). vm_compute. exact I.
  - apply (bool_decide_unpack _). vm_compute. exact I.
Defined.

Example sample_vectors :
  vec_g sample_g sample_t = [0.6%float; 0.4%float; 0%float]
  /\ vec_t sample_g sample_t = [0%float; 0.5%float; 0.5%float].
Proof. split; reflexivity. Qed.


(** * Further properties of [similar.py] *)

(** ** Taxa on both sides, and the overlap frame *)

Section Both.

Context {L R : Type}.
Variable kl : L -> string.
Variable kr : R -> string.



End Both.






(** A fraction that is missing in the file of a taxon on both sides is
    filled with 0.0 in the merged frame and left missing in the overlap
    frame, whose fractions are not filled: there the two rows differ. *)
Example missing_fraction_is_filled_in_the_merged_frame_only :
  let g := [species "sp2" 40 nan] in
  let t := [species "sp2" 50 0.5%float] in
  map fraction_total_reads_metaG (merged_taxon_rows g t) = [0%float]
  /\ map difference (merged_taxon_rows g t) = [PrimFloat.opp 0.5%float]
  /\ map (fun r => PrimFloat.is_nan (fraction_total_reads_metaG r))
       (overlap_taxon_rows g t) = [true]
  /\ map (fun r => PrimFloat.is_nan (difference r))
       (overlap_taxon_rows g t) = [true].
Proof. vm_compute. repeat split. Qed.



(** ** The taxa of the merged frame *)

Lemma map_key_flat_map_left_rows (A B : AbundanceTable) :
  List.NoDup (map name B) ->
  map key (flat_map (left_rows name name B) A) = map name A.
Proof.
  intros HB. induction A as [|l A IH]; simpl; [reflexivity|].
  rewrite map_app, IH. f_equal.
  pose proof (length_left_rows name name B l HB) as Hlen.
  destruct (left_rows name name B l) as [|j [|j' js]] eqn:E; simpl in Hlen; try lia.
  assert (Hj : In j (left_rows name name B l)) by (rewrite E; left; reflexivity).
  destruct (left_rows_key _ _ _ _ _ Hj) as [Hk _]. simpl. rewrite Hk. reflexivity.
Qed.

Lemma merged_names_perm (A B : AbundanceTable) :
  List.NoDup (map name B) ->
  Permutation (map m_name (merged_taxon_rows A B))
    (map name A
     ++ map name (List.filter (fun r => negb (has_key name (name r) A)) B)).
Proof.
  intros HB. unfold merged_taxon_rows, pd_merge_outer. rewrite map_map.
  change (fun x => m_name (merged_row x)) with (@key AbundanceRecord AbundanceRecord).
  rewrite (Permutation_map key (sort_by_key_perm _)).
  rewrite map_app, map_key_flat_map_left_rows by exact HB.
  unfold right_only. rewrite map_map. reflexivity.
Qed.

(** X4. With unique taxon names in each table, the names of the taxon rows
    of the merged frame are the taxa of the two tables, each of them once. *)
Theorem merged_taxa_are_the_union (A B : AbundanceTable) p1 p2 p3 p4 :
  NoDup (map name A) -> NoDup (map name B) ->
  let names := map m_name (tl (rows (fst (merge_metag_metat A B p1 p2 p3 p4)))) in
  NoDup names /\ (list_to_set names : gset string) = taxa A ∪ taxa B.
Proof.
  intros HA HB names. subst names.
  change (tl (rows (fst (merge_metag_metat A B p1 p2 p3 p4))))
    with (merged_taxon_rows A B).
  apply NoDup_ListNoDup in HA, HB.
  pose proof (merged_names_perm A B HB) as HP.
  split.
  - apply NoDup_ListNoDup.
    apply (Permutation_NoDup (Permutation_sym HP)).
    apply List.NoDup_app.
    + exact HA.
    + apply NoDup_filter_map, HB.
    + intros x Hx Hx'. apply in_map_iff in Hx' as [r [<- Hr]].
      apply filter_In in Hr as [_ Hr]. apply (has_key_In name) in Hx.
      rewrite Hx in Hr. discriminate.
  - apply set_eq. intros x. unfold taxa.
    rewrite elem_of_union, !elem_of_list_to_set, !list_elem_of_In.
    split.
    + intros H. apply (Permutation_in _ HP) in H. apply in_app_or in H as [H|H]; [left; exact H|].
      right. apply in_map_iff in H as [r [<- Hr]]. apply filter_In in Hr as [Hr _].
      apply in_map, Hr.
    + intros H. apply (Permutation_in _ (Permutation_sym HP)). apply in_or_app.
      destruct H as [H|H]; [left; exact H|].
      destruct (has_key name x A) eqn:Hk.
      * left. apply (has_key_In name), Hk.
      * right. apply in_map_iff in H as [r [<- Hr]]. apply in_map.
        apply filter_In. split; [exact Hr|]. rewrite Hk. reflexivity.
Qed.

Lemma merged_taxa_are_the_union_witness :
  let names :=
    map m_name
      (tl (rows (fst (merge_metag_metat sample_g sample_t
                        87.66%float 12.34%float 87.66%float 12.34%float)))) in
  NoDup names /\ (list_to_set names : gset string) = taxa sample_g ∪ taxa sample_t.
Proof.
  apply merged_taxa_are_the_union.
  - apply (bool_decide_unpack _). vm_compute. exact I.
  - apply (bool_decide_unpack _). vm_compute. exact I.
Defined.

(** ** The difference score *)

Lemma combine_map {X Y Z} (f : X -> Y) (g : X -> Z) (l : list X) :
  combine (map f l) (map g l) = map (fun x => (f x, g x)) l.
Proof. induction l as [|x l IH]; simpl; [reflexivity|]. rewrite IH. reflexivity. Qed.

Lemma fold_left_map {X Y Acc} (f : Acc -> Y -> Acc) (g : X -> Y) (l : list X) (a : Acc) :
  fold_left f (map g l) a = fold_left (fun acc x => f acc (g x)) l a.
Proof. revert a. induction l as [|x l IH]; intros a; simpl; [reflexivity|]. apply IH. Qed.

Lemma fold_left_ext_in {X Acc} (f g : Acc -> X -> Acc) (l : list X) (a : Acc) :
  (forall acc x, In x l -> f acc x = g acc x) -> fold_left f l a = fold_left g l a.
Proof.
  revert a. induction l as [|x l IH]; intros a H; simpl; [reflexivity|].
  rewrite H by (left; reflexivity). apply IH. intros; apply H; right; assumption.
Qed.

(** X5. The difference score that [compute_similarity] returns is the sum of
    the absolute values of the difference column of the merged frame, the
    summary row left out, added in the order of the rows. *)
Theorem difference_score_is_sum_of_differences cosine (A B : AbundanceTable)
    p1 p2 p3 p4 :
  snd (compute_similarity cosine A B)
  = sum_abs_difference
      (artifact_taxon_rows (fst (merge_metag_metat A B p1 p2 p3 p4))).
Proof.
  unfold compute_similarity. cbn [snd]. unfold difference_score, vec_g, vec_t.
  rewrite artifact_taxon_rows_merged, all_abund_eq, !map_map, combine_map.
  unfold sum_abs_difference. rewrite !fold_left_map.
  apply fold_left_ext_in. intros acc j _.
  destruct j as [k [l|] [r|]]; reflexivity.
Qed.

Lemma SFeqb_refl x : x <> S754_nan -> SFeqb x x = true.
Proof.
  unfold SFeqb, SFcompare.
  destruct x as [[]|[]| |[] m e]; try reflexivity; try congruence; intros _;
    rewrite Z.compare_refl, ?Pos.compare_cont_refl; reflexivity.
Qed.

Lemma is_nan_spec x :
  PrimFloat.is_nan x = match Prim2SF x with S754_nan => true | _ => false end.
Proof.
  unfold PrimFloat.is_nan. rewrite FloatAxioms.eqb_spec.
  destruct (Prim2SF x) eqn:E;
    try (rewrite SFeqb_refl by discriminate; reflexivity).
  reflexivity.
Qed.

Lemma finite_not_nan x : finite x -> PrimFloat.is_nan x = false.
Proof.
  unfold finite. rewrite is_nan_spec. destruct (Prim2SF x); tauto.
Qed.

Lemma sub_diag_finite x : finite x -> PrimFloat.sub x x = 0%float.
Proof.
  unfold finite. intros H. apply Prim2SF_inj. rewrite FloatAxioms.sub_spec.
  change (Prim2SF 0%float) with (S754_zero false).
  destruct (Prim2SF x) as [[]| | |s m e]; try contradiction; try reflexivity.
  unfold SF64sub, SFsub. rewrite Z.sub_diag. reflexivity.
Qed.

Lemma difference_score_same (u : list float) :
  Forall finite u -> difference_score u u = 0%float.
Proof.
  unfold difference_score. intros H.
  induction H as [|x u Hx Hu IH]; simpl; [reflexivity|].
  rewrite sub_diag_finite by exact Hx. exact IH.
Qed.

Lemma joined_with_itself (A : AbundanceTable) j :
  List.NoDup (map name A) ->
  In j (pd_merge_outer name name A A) ->
  exists l, In l A /\ left j = Some l /\ right j = Some l.
Proof.
  intros HA Hj. apply in_pd_merge_outer in Hj as [[l [Hl Hj]]|Hj].
  - exists l. split; [exact Hl|].
    unfold left_rows in Hj.
    destruct (matching name (name l) A) as [|r ms] eqn:E.
    + exfalso. assert (H : In l (matching name (name l) A))
        by (apply matching_In; auto).
      rewrite E in H. contradiction.
    + apply in_map_iff in Hj as [r' [<- Hr']]. rewrite <- E in Hr'.
      apply matching_In in Hr' as [Hr' En].
      assert (r' = l) by (apply (key_inj_on name A); auto). subst r'. auto.
  - apply right_only_In in Hj as [r [_ [Hr Hn]]].
    exfalso. apply Hn, in_map, Hr.
Qed.

(** X6. A table with unique taxon names and finite fractions, compared with
    itself, gives twice the same vector and the difference score 0.0. *)
Theorem difference_score_of_a_table_with_itself cosine (A : AbundanceTable) :
  NoDup (map name A) ->
  Forall (fun r => finite (fraction_total_reads r)) A ->
  vec_g A A = vec_t A A
  /\ snd (compute_similarity cosine A A) = 0%float.
Proof.
  intros HA HF. apply NoDup_ListNoDup in HA.
  assert (HA' : List.NoDup (map name (drop_stats A)))
    by (apply NoDup_filter_map, HA).
  assert (E : vec_g A A = vec_t A A).
  { unfold vec_g, vec_t. rewrite all_abund_eq, !map_map.
    apply map_ext_in. intros j Hj.
    destruct (joined_with_itself _ j HA' Hj) as [l [_ [Hl Hr]]].
    destruct j as [k lj rj]. simpl in *. subst. reflexivity. }
  split; [exact E|].
  unfold compute_similarity. cbn [snd]. rewrite <- E.
  apply difference_score_same.
  unfold vec_g. rewrite all_abund_eq, map_map.
  apply List.Forall_forall. intros x Hx. apply in_map_iff in Hx as [j [<- Hj]].
  destruct (joined_with_itself _ j HA' Hj) as [l [Hl [Hlj _]]].
  destruct j as [k lj rj]. simpl in *. subst.
  cbn [fmap option_fmap option_map name_fraction snd].
  rewrite List.Forall_forall in HF.
  assert (Hf : finite (fraction_total_reads l))
    by (apply HF; apply filter_In in Hl; tauto).
  rewrite fillna_float_present by (apply finite_not_nan, Hf). exact Hf.
Qed.

Lemma difference_score_of_a_table_with_itself_witness :
  vec_g sample_g sample_g = vec_t sample_g sample_g
  /\ snd (compute_similarity Scipy.cosine sample_g sample_g) = 0%float.
Proof.
  apply difference_score_of_a_table_with_itself.
  - apply (bool_decide_unpack _). vm_compute. exact I.
  - repeat constructor.
Defined.


(** ** What a run that exits has done *)

Section Confined.

Variable Q : event -> Prop.
Variable C : Z -> Prop.

Lemma confined_quiet {A} (m : M A) :
  (forall tr, snd (m tr) = tr) ->
  (forall tr c, fst (m tr) = SysExit c -> C c) ->
  confined Q C m.
Proof.
  intros H1 H2 tr. exists []. rewrite app_nil_r, H1. split; [reflexivity|].
  split; [constructor|]. specialize (H2 tr). destruct (fst (m tr)); auto.
Qed.

Lemma confined_ret {A} (a : A) : confined Q C (ret a).
Proof. apply confined_quiet; [reflexivity|discriminate]. Qed.
Lemma confined_raise {A} e : confined Q C (@raise A e).
Proof. apply confined_quiet; [reflexivity|discriminate]. Qed.
Lemma confined_ask {A} (q : trace -> A) : confined Q C (ask q).
Proof. apply confined_quiet; [reflexivity|discriminate]. Qed.
Lemma confined_sys_exit {A} c : C c -> confined Q C (@sys_exit A c).
Proof. intros H. apply confined_quiet; [reflexivity|]. intros tr c' E. unfold sys_exit in E. cbn in E. inversion E. subst. exact H. Qed.
Lemma confined_lift {A} (r : result A) :
  (forall c, r = SysExit c -> C c) -> confined Q C (lift r).
Proof. intros H. apply confined_quiet; [reflexivity|]. intros tr c E. apply H, E. Qed.
Lemma confined_emit e : Q e -> confined Q C (emit e).
Proof. intros H tr. exists [e]. repeat split. repeat constructor. exact H. Qed.
Lemma confined_read_csv W path : confined Q C (read_csv W path).
Proof.
  apply confined_quiet.
  - intros tr. unfold read_csv.
    destruct (last_written path tr); [|destruct (w_table W tr path)]; reflexivity.
  - intros tr c. unfold read_csv.
    destruct (last_written path tr); [|destruct (w_table W tr path)]; discriminate.
Qed.

Lemma confined_bind {A B} (m : M A) (k : A -> M B) :
  confined Q C m -> (forall a, confined Q C (k a)) -> confined Q C (bind m k).
Proof.
  intros Hm Hk tr. unfold bind. destruct (Hm tr) as [d [Hd [Hq Hc]]].
  destruct (m tr) as [[a|e|c] tr1]; simpl in *; subst tr1.
  - destruct (Hk a (tr ++ d)%list) as [d' [Hd' [Hq' Hc']]].
    exists (d ++ d')%list. rewrite Hd', app_assoc. split; [reflexivity|].
    split; [apply Forall_app; auto|exact Hc'].
  - exists d. auto.
  - exists d. auto.
Qed.

Lemma confined_try_except {A} (body : M A) handler :
  confined Q C body -> (forall e, confined Q C (handler e)) ->
  confined Q C (try_except body handler).
Proof.
  intros Hm Hk tr. unfold try_except. destruct (Hm tr) as [d [Hd [Hq Hc]]].
  destruct (body tr) as [[a|e|c] tr1]; simpl in *; subst tr1.
  - exists d. auto.
  - destruct (Hk e (tr ++ d)%list) as [d' [Hd' [Hq' Hc']]].
    exists (d ++ d')%list. rewrite Hd', app_assoc. split; [reflexivity|].
    split; [apply Forall_app; auto|exact Hc'].
  - exists d. auto.
Qed.

Lemma exits_clean_never {A} Q' (m : M A) :
  confined Q' (fun _ => False) m -> exits_clean Q C m.
Proof.
  intros H tr c tr' E. destruct (H tr) as [d [_ [_ Hc]]]. rewrite E in Hc. contradiction.
Qed.

Lemma exits_clean_bind {A B} (m : M A) (k : A -> M B) :
  confined Q C m -> (forall a, exits_clean Q C (k a)) -> exits_clean Q C (bind m k).
Proof.
  intros Hm Hk tr c tr' E. unfold bind in E. destruct (Hm tr) as [d [Hd [Hq Hc]]].
  destruct (m tr) as [[a|e|c'] tr1]; simpl in *; subst tr1.
  - destruct (Hk a _ _ _ E) as [H1 [d' [-> Hq']]]. split; [exact H1|].
    exists (d ++ d')%list. rewrite app_assoc. split; [reflexivity|apply Forall_app; auto].
  - discriminate.
  - injection E as <- <-. split; [exact Hc|]. exists d. auto.
Qed.
End Confined.

Ltac confined_step :=
  match goal with
  | |- confined _ _ (bind _ _) => apply confined_bind; [|intros ?]
  | |- confined _ _ (try_except _ _) => apply confined_try_except; [|intros ?]
  | |- confined _ _ (ret _) => apply confined_ret
  | |- confined _ _ (raise _) => apply confined_raise
  | |- confined _ _ (ask _) => apply confined_ask
  | |- confined _ _ (read_csv _ _) => apply confined_read_csv
  | |- confined _ _ (sys_exit _) => apply confined_sys_exit; reflexivity
  | |- confined _ _ (emit _) => apply confined_emit; unfold setup; simpl; tauto
  | |- confined _ _ (print _) => apply confined_emit; unfold setup; simpl; tauto
  | |- confined _ _ (if ?b then _ else _) => destruct b
  | |- confined _ _ (match ?x with _ => _ end) => destruct x
  end.


Lemma scan_report_never_exits pf lines : forall pc pu c,
  scan_report pf lines pc pu = SysExit c -> False.
Proof.
  induction lines as [|l ls IH]; intros pc pu c; simpl; [discriminate|].
  destruct (_ <? _)%nat; [apply IH|].
  destruct (pf _); [|discriminate].
  destruct (String.eqb _ _); [apply IH|]. destruct (String.eqb _ _); apply IH.
Qed.

Lemma confined_run_command W cmd : confined setup status_one (run_command W cmd).
Proof. unfold run_command. repeat confined_step. Qed.

Lemma confined_parse W pf f :
  confined setup status_one (parse_classification_percents W pf f).
Proof.
  unfold parse_classification_percents. repeat confined_step.
  apply confined_lift. intros c E. exfalso. eapply scan_report_never_exits, E.
Qed.

Lemma confined_prepare_input W i o : confined setup status_one (prepare_input W i o).
Proof.
  unfold prepare_input. repeat (confined_step || apply confined_run_command).
Qed.

Lemma confined_run_kraken_bracken W pf fs db o p r :
  confined setup status_one (run_kraken_bracken W pf fs db o p r).
Proof.
  unfold run_kraken_bracken.
  repeat (confined_step || apply confined_run_command || apply confined_parse).
Qed.

Lemma never_exits_merge W a b p1 p2 p3 p4 m o :
  confined (fun _ => True) (fun _ => False) (merge_metag_metat_io W a b p1 p2 p3 p4 m o).
Proof. unfold merge_metag_metat_io. repeat confined_step. Qed.

Lemma never_exits_sim W cs a b f n :
  confined (fun _ => True) (fun _ => False) (compute_similarity_io W cs a b f n).
Proof. unfold compute_similarity_io. repeat confined_step. Qed.

Lemma exits_clean_execute_pipeline_logic W pf cs g t db o rl :
  exits_clean setup status_one (execute_pipeline_logic W pf cs g t db o rl).
Proof.
  unfold execute_pipeline_logic.
  apply exits_clean_bind; [unfold check_read_len; repeat confined_step|intros _].
  apply exits_clean_bind; [repeat confined_step|intros _].
  apply exits_clean_bind.
  { repeat (confined_step || apply confined_prepare_input). }
  intros [[gf gid] [tf tid]].
  apply exits_clean_bind.
  { repeat (confined_step || apply confined_run_kraken_bracken). }
  intros [[[bg pgc] pgu] [[bt ptc] ptu]].
  apply (exits_clean_never _ _ (fun _ => True)).
  apply confined_bind; [apply never_exits_merge|intros ?].
  apply confined_bind; [apply never_exits_sim|intros ?].
  apply confined_ret.
Qed.

(** X7. Whenever [execute_pipeline_logic] ends in [sys.exit], whatever the
    inputs and whatever the outside world answers, the status is 1 and the
    run has written neither frame nor the similarity log: what it did is
    only to make directories, run commands, convert a table and print. *)
Theorem aborted_run_has_status_one_and_no_artifact W py_float cosine
    metaG_input metaT_input krakendb outdir read_len tr c tr' :
  execute_pipeline_logic W py_float cosine metaG_input metaT_input krakendb
    outdir read_len tr = (SysExit c, tr') ->
  c = 1%Z /\ exists d, tr' = (tr ++ d)%list /\ Forall (fun e => ~ artifact e) d.
Proof. apply exits_clean_execute_pipeline_logic. Qed.

Lemma aborted_run_has_status_one_and_no_artifact_witness :
  1%Z = 1%Z
  /\ exists d,
       [ MakeDirs "out/g_t";
         Shell "kraken2 --db db --threads 8 --use-names  in/g.fastq --report out/g_t/g_metaG_kraken2.report --output out/g_t/g_metaG_kraken2.out";
         Shell "bracken -d db -i out/g_t/g_metaG_kraken2.report -o out/g_t/g_metaG_bracken.tsv -l S -r 150";
         Print (MsgCommandFailed 3
                  "bracken -d db -i out/g_t/g_metaG_kraken2.report -o out/g_t/g_metaG_bracken.tsv -l S -r 150") ]
       = ([] ++ d)%list
       /\ Forall (fun e => ~ artifact e) d.
Proof.
  apply (aborted_run_has_status_one_and_no_artifact
           (local_world
              (fun cmd => if Py.startswith cmd "bracken" then 3%Z else 0%Z)
              sample_report sample_g sample_t)
           float_of_decimal Scipy.cosine
           "in/g.fastq" "in/t.fastq" "db" "out" "150" []).
  vm_compute. reflexivity.
Defined.

(** ** Strings and paths *)

Lemma append_cons x (a b : string) : String x a +:+ b = String x (a +:+ b).
Proof. reflexivity. Qed.

Lemma append_nil (b : string) : "" +:+ b = b.
Proof. reflexivity. Qed.

Lemma append_assoc (a b c : string) : (a +:+ b) +:+ c = a +:+ (b +:+ c).
Proof.
  induction a as [|x a IH]; [reflexivity|]. rewrite !append_cons, IH. reflexivity.
Qed.

Lemma length_append (a b : string) :
  String.length (a +:+ b) = (String.length a + String.length b)%nat.
Proof.
  induction a as [|x a IH]; [reflexivity|]. rewrite append_cons. simpl.
  rewrite IH. reflexivity.
Qed.

Lemma substring_all (q : string) : substring 0 (String.length q) q = q.
Proof. induction q as [|x q IH]; simpl; [reflexivity|]. f_equal. exact IH. Qed.

Lemma substring_append (p q : string) :
  substring (String.length p) (String.length q) (p +:+ q) = q.
Proof.
  induction p as [|x p IH]; [apply substring_all|]. rewrite append_cons. exact IH.
Qed.

Lemma endswith_append (p q : string) : Py.endswith (p +:+ q) q = true.
Proof.
  unfold Py.endswith. rewrite length_append.
  replace (String.length p + String.length q - String.length q)%nat
    with (String.length p) by lia.
  rewrite substring_append, String.eqb_refl, andb_true_r.
  apply Nat.leb_le. lia.
Qed.

Lemma endswith_same_length (s a b : string) :
  String.length a = String.length b ->
  Py.endswith s a = true -> Py.endswith s b = true -> a = b.
Proof.
  unfold Py.endswith. intros E Ha Hb.
  apply andb_true_iff in Ha as [_ Ha]. apply andb_true_iff in Hb as [_ Hb].
  apply String.eqb_eq in Ha, Hb. rewrite <- E in Hb. congruence.
Qed.

Lemma fstr_two (a b : string) : fstr [a; b] = a +:+ b.
Proof. reflexivity. Qed.

Lemma fstr_three (a b c : string) : fstr [a; b; c] = a +:+ b +:+ c.
Proof. reflexivity. Qed.

Lemma path_join_suffix (a b : string) : exists p, Py.path_join a b = p +:+ b.
Proof.
  unfold Py.path_join. destruct (Py.startswith b "/").
  - exists "". reflexivity.
  - destruct (_ || _).
    + exists a. reflexivity.
    + exists (a +:+ "/"). rewrite append_assoc. reflexivity.
Qed.

Lemma path_join_endswith (a b c : string) :
  Py.endswith (Py.path_join a (b +:+ c)) c = true.
Proof.
  destruct (path_join_suffix a (b +:+ c)) as [p ->].
  rewrite <- append_assoc. apply endswith_append.
Qed.

(** The two converted tables never share a path, whatever the two ids. *)
Lemma bracken_csv_distinct folder g t :
  Py.path_join folder (fstr [fstr [g; "_metaG"]; "_bracken.csv"])
  <> Py.path_join folder (fstr [fstr [t; "_metaT"]; "_bracken.csv"]).
Proof.
  intros E.
  assert (Hg : Py.endswith
                 (Py.path_join folder (fstr [fstr [g; "_metaG"]; "_bracken.csv"]))
                 "_metaG_bracken.csv" = true).
  { rewrite !fstr_two, append_assoc. apply path_join_endswith. }
  assert (Ht : Py.endswith
                 (Py.path_join folder (fstr [fstr [t; "_metaT"]; "_bracken.csv"]))
                 "_metaT_bracken.csv" = true).
  { rewrite !fstr_two, append_assoc. apply path_join_endswith. }
  rewrite E in Hg.
  pose proof (endswith_same_length _ "_metaG_bracken.csv" "_metaT_bracken.csv"
                eq_refl Hg Ht) as H.
  discriminate.
Qed.

Lemma split_nonempty c s : Py.split c s <> [].
Proof.
  destruct s as [|x s]; simpl; [discriminate|].
  destruct (Ascii.eqb x c); [discriminate|]. destruct (Py.split c s); discriminate.
Qed.

Lemma split_no_sep c a : Py.contains c a = false -> Py.split c a = [a].
Proof.
  induction a as [|x a IH]; simpl; intros H; [reflexivity|].
  apply orb_false_iff in H as [H1 H2]. rewrite H1, IH by exact H2. reflexivity.
Qed.

Lemma split_append_sep_length c a b :
  (2 <= length (Py.split c (a +:+ String c b)))%nat.
Proof.
  induction a as [|x a IH]; [rewrite append_nil|rewrite append_cons]; simpl.
  - rewrite Ascii.eqb_refl. simpl. pose proof (split_nonempty c b).
    destruct (Py.split c b); [contradiction|simpl; lia].
  - destruct (Ascii.eqb x c); simpl.
    + pose proof (split_nonempty c (a +:+ String c b)).
      destruct (Py.split c (a +:+ String c b)); [contradiction|simpl; lia].
    + destruct (Py.split c (a +:+ String c b)); simpl in *; lia.
Qed.

Lemma substring_contains c r : forall n m s,
  substring n m s = String c r -> Py.contains c s = true.
Proof.
  induction n as [|n IH]; intros m s H.
  - destruct m, s; simpl in H; try discriminate. injection H as -> _.
    simpl. rewrite Ascii.eqb_refl. reflexivity.
  - destruct s as [|x s]; simpl in H.
    + destruct m; discriminate.
    + simpl. rewrite (IH _ _ H). apply orb_true_r.
Qed.

Lemma recognized_contains_dot p : recognized p = true -> Py.contains "." p = true.
Proof.
  unfold recognized, Py.endswith. intros H.
  apply orb_true_iff in H as [H|H]; apply andb_true_iff in H as [_ H];
    apply String.eqb_eq in H; eapply substring_contains; exact H.
Qed.

(** ** [parse_classification_percents]: the lines as they are written *)

(** What [strip] does to the blanks around a text. *)
Lemma lstrip_blank ws s : blank ws = true -> Py.lstrip (ws +:+ s) = Py.lstrip s.
Proof.
  induction ws as [|c ws IH]; intros H; [reflexivity|].
  simpl in H. apply andb_true_iff in H as [Hc Hw].
  rewrite append_cons. simpl. rewrite Hc. apply IH, Hw.
Qed.

Lemma lstrip_clean s : starts_clean s = true -> Py.lstrip s = s.
Proof.
  destruct s as [|c s]; simpl; [discriminate|].
  intros H. apply negb_true_iff in H. rewrite H. reflexivity.
Qed.

Lemma rstrip_blank_nil ws : blank ws = true -> Py.rstrip ws = "".
Proof.
  induction ws as [|c ws IH]; intros H; [reflexivity|].
  simpl in H. apply andb_true_iff in H as [Hc Hw].
  simpl. rewrite (IH Hw), Hc. reflexivity.
Qed.

Lemma rstrip_blank s ws : blank ws = true -> Py.rstrip (s +:+ ws) = Py.rstrip s.
Proof.
  intros H. induction s as [|c s IH].
  - rewrite append_nil. apply rstrip_blank_nil, H.
  - rewrite append_cons. simpl. rewrite IH. reflexivity.
Qed.

Lemma rstrip_clean s : ends_clean s = true -> Py.rstrip s = s.
Proof.
  induction s as [|c s IH]; [discriminate|].
  destruct s as [|c' s'].
  - simpl. intros H. apply negb_true_iff in H. rewrite H. reflexivity.
  - intros H. change (ends_clean (String c (String c' s')))
      with (ends_clean (String c' s')) in H.
    change (Py.rstrip (String c (String c' s')))
      with (match Py.rstrip (String c' s') with
            | EmptyString => if Py.isspace c then EmptyString else String c EmptyString
            | r => String c r
            end).
    rewrite (IH H). reflexivity.
Qed.

Lemma starts_clean_app s x : starts_clean s = true -> starts_clean (s +:+ x) = true.
Proof. destruct s; [discriminate|]. rewrite append_cons. exact (fun H => H). Qed.

Lemma ends_clean_app x s : ends_clean s = true -> ends_clean (x +:+ s) = true.
Proof.
  intros H. induction x as [|c x IH]; [exact H|].
  rewrite append_cons. destruct (x +:+ s) eqn:E; [discriminate IH|exact IH].
Qed.

Lemma strip_padded lead core trail :
  blank lead = true -> blank trail = true ->
  starts_clean core = true -> ends_clean core = true ->
  Py.strip (lead +:+ core +:+ trail) = core.
Proof.
  intros Hl Ht Hs He. unfold Py.strip.
  rewrite (lstrip_blank _ _ Hl), (lstrip_clean _ (starts_clean_app _ _ Hs)).
  rewrite (rstrip_blank _ _ Ht). apply rstrip_clean, He.
Qed.

(** Splitting on TAB gives back the fields that were joined. *)
Lemma split_append_sep c a b :
  Py.contains c a = false ->
  Py.split c (a +:+ String c b) = a :: Py.split c b.
Proof.
  induction a as [|x a IH]; intros H.
  - rewrite append_nil. simpl. rewrite Ascii.eqb_refl. reflexivity.
  - simpl in H. apply orb_false_iff in H as [H1 H2].
    rewrite append_cons. simpl. rewrite H1, IH by exact H2. reflexivity.
Qed.

Lemma join_cons sep f g fs :
  Py.join sep (f :: g :: fs) = f +:+ sep +:+ Py.join sep (g :: fs).
Proof. reflexivity. Qed.

Lemma split_join (f : string) (fs : list string) :
  no_tab f = true -> forallb no_tab fs = true ->
  Py.split TAB (Py.join (String TAB EmptyString) (f :: fs)) = f :: fs.
Proof.
  revert f. induction fs as [|g fs IH]; intros f Hf Hfs.
  - apply split_no_sep. apply negb_true_iff, Hf.
  - simpl in Hfs. apply andb_true_iff in Hfs as [Hg Hfs].
    rewrite join_cons, append_cons, append_nil.
    rewrite split_append_sep by (apply negb_true_iff, Hf).
    rewrite IH by assumption. reflexivity.
Qed.

Lemma starts_clean_join f fs :
  starts_clean f = true ->
  starts_clean (Py.join (String TAB EmptyString) (f :: fs)) = true.
Proof.
  intros H. destruct fs as [|g fs]; [exact H|].
  rewrite join_cons. apply starts_clean_app, H.
Qed.

Lemma ends_clean_join fs l :
  ends_clean l = true ->
  forall f, ends_clean (Py.join (String TAB EmptyString) (f :: fs ++ [l])%list) = true.
Proof.
  intros H. induction fs as [|g fs IH]; intros f.
  - change (Py.join (String TAB EmptyString) [f; l])
      with (f +:+ String TAB EmptyString +:+ l).
    apply ends_clean_app, ends_clean_app, H.
  - change ((f :: (g :: fs) ++ [l])%list) with (f :: g :: (fs ++ [l]))%list.
    rewrite join_cons. apply ends_clean_app, ends_clean_app, IH.
Qed.

Lemma no_tab_app a b : no_tab a = true -> no_tab b = true -> no_tab (a +:+ b) = true.
Proof.
  unfold no_tab. intros Ha Hb. apply negb_true_iff in Ha. apply negb_true_iff.
  induction a as [|c a IH]; [apply negb_true_iff, Hb|].
  rewrite append_cons. simpl in *. apply orb_false_iff in Ha as [H1 H2].
  rewrite H1. apply IH, H2.
Qed.

Lemma forallb_app' {X} (p : X -> bool) l l' :
  forallb p l = true -> forallb p l' = true -> forallb p (l ++ l')%list = true.
Proof. intros H H'. rewrite forallb_app, H, H'. reflexivity. Qed.

Lemma last_app_one {X} (l : list X) x d : List.last (l ++ [x])%list d = x.
Proof. apply last_last. Qed.

(** A line that is no row has less than two fields. *)
Lemma contains_lstrip c s : Py.contains c s = false -> Py.contains c (Py.lstrip s) = false.
Proof.
  induction s as [|x s IH]; [reflexivity|]. intros H. simpl.
  destruct (Py.isspace x); [|exact H].
  simpl in H. apply orb_false_iff in H as [_ H]. apply IH, H.
Qed.

Lemma contains_rstrip c s : Py.contains c s = false -> Py.contains c (Py.rstrip s) = false.
Proof.
  induction s as [|x s IH]; [reflexivity|]. intros H.
  simpl in H. apply orb_false_iff in H as [H1 H2]. specialize (IH H2).
  simpl. destruct (Py.rstrip s) as [|y r].
  - destruct (Py.isspace x); [reflexivity|]. simpl. rewrite H1. reflexivity.
  - simpl in *. rewrite H1. exact IH.
Qed.

Lemma lstrip_blank_nil ws : blank ws = true -> Py.lstrip ws = "".
Proof.
  induction ws as [|c ws IH]; intros H; [reflexivity|].
  simpl in H. apply andb_true_iff in H as [Hc Hw]. simpl. rewrite Hc. apply IH, Hw.
Qed.

Lemma no_row_has_one_field text :
  blank text || no_tab text = true ->
  (length (Py.split TAB (Py.strip text)) <? 2)%nat = true.
Proof.
  intros H. apply orb_true_iff in H as [H|H].
  - unfold Py.strip. rewrite (lstrip_blank_nil _ H). reflexivity.
  - rewrite split_no_sep; [reflexivity|].
    unfold Py.strip. apply contains_rstrip, contains_lstrip, negb_true_iff, H.
Qed.

Section Render.

Variable py_float : string -> option float.

(** The fields that the code takes of a row: the percentage and the label,
    without the blanks around them. *)
Lemma row_fields lead percent pad1 middle pad2 label trail :
  well_formed (Row lead percent pad1 middle pad2 label trail) = true ->
  let parts :=
    Py.split TAB
      (Py.strip (render (Row lead percent pad1 middle pad2 label trail))) in
  (length parts <? 2)%nat = false
  /\ Py.strip (Py.first parts) = percent
  /\ Py.strip (Py.last parts) = label.
Proof.
  intros H. simpl in H.
  repeat (apply andb_true_iff in H as [H ?]).
  intros parts. subst parts. unfold render.
  assert (Hp : Py.strip (percent +:+ pad1) = percent).
  { unfold Py.strip.
    rewrite lstrip_clean by (apply starts_clean_app; assumption).
    rewrite rstrip_blank by assumption. apply rstrip_clean. assumption. }
  assert (Hl : Py.strip (pad2 +:+ label) = label).
  { unfold Py.strip. rewrite lstrip_blank by assumption.
    rewrite lstrip_clean by assumption. apply rstrip_clean. assumption. }
  rewrite strip_padded; auto.
  - rewrite split_join.
    + split; [|split].
      * simpl. rewrite length_app. simpl.
        apply Nat.ltb_ge. lia.
      * exact Hp.
      * unfold Py.last.
        change ((percent +:+ pad1) :: middle ++ [pad2 +:+ label])%list
          with (((percent +:+ pad1) :: middle) ++ [pad2 +:+ label])%list.
        rewrite last_app_one. exact Hl.
    + apply no_tab_app; assumption.
    + apply forallb_app'; [assumption|]. simpl. rewrite no_tab_app by assumption.
      reflexivity.
  - apply starts_clean_join, starts_clean_app. assumption.
  - apply ends_clean_join, ends_clean_app. assumption.
Qed.

Lemma report_rows_render ls :
  forallb well_formed ls = true ->
  report_rows py_float (map render ls) = rows_of py_float ls.
Proof.
  induction ls as [|l ls IH]; intros H; [reflexivity|].
  simpl in H. apply andb_true_iff in H as [Hl Hls]. specialize (IH Hls).
  destruct l as [lead percent pad1 middle pad2 label trail|text].
  - destruct (row_fields _ _ _ _ _ _ _ Hl) as (H1 & H2 & H3).
    cbn [map report_rows rows_of]. cbv zeta. rewrite H1, H2, H3, IH. reflexivity.
  - cbn [map report_rows rows_of render]. cbv zeta.
    rewrite (no_row_has_one_field _ Hl). exact IH.
Qed.

End Render.

Section ReportLines.

Variable py_float : string -> option float.

(** C4. For an ASCII report whose lines are rows as the classification
    tool writes them (fields separated by TAB, with blanks before the line,
    after the percentage, before the label and after the line, the line feed
    among them) or lines that are no row, and in which [float] accepts the
    percentage of every row: the blanks do not count, the percentage of a
    row is its first field read by [float] and its label its last field,
    both without their blanks, and lines that are no row are skipped. The
    function returns the percentage of the rows labelled root as
    [percent_classified] and that of the rows labelled unclassified as
    [percent_unclassified], the last row that carries a label being the
    one that supplies it; when no row carries either label both are 0.0
    (and the warning is printed); the two lines of the scenario give 12.34
    and 87.66. *)
Theorem parse_classification_percents_rows W report_file tr
    (ls : list report_line) rows :
  w_lines W tr report_file = Some (map render ls) ->
  Forall (fun line => Py.isascii line = true) (map render ls) ->
  forallb well_formed ls = true ->
  rows_of py_float ls = Some rows ->
  py_float "12.34" = Some 12.34%float ->
  py_float "87.66" = Some 87.66%float ->
  let r := parse_classification_percents W py_float report_file tr in
  fst r = Return (supplied "root" rows 0%float,
                  supplied "unclassified" rows 0%float)
  /\ (forall before pct after,
        rows = (before ++ (pct, "root") :: after)%list ->
        label_absent "root" after ->
        supplied "root" rows 0%float = pct)
  /\ (forall before pct after,
        rows = (before ++ (pct, "unclassified") :: after)%list ->
        label_absent "unclassified" after ->
        supplied "unclassified" rows 0%float = pct)
  /\ (label_absent "root" rows -> label_absent "unclassified" rows ->
      r = (Return (0%float, 0%float), (tr ++ [Print MsgParseWarning])%list))
  /\ (forall pc pu,
        scan_report py_float
          [tsv ["12.34"; "100"; "100"; "U"; "0"; "unclassified"]] pc pu
        = Return (pc, 12.34%float))
  /\ (forall pc pu,
        scan_report py_float
          [tsv ["87.66"; "900"; "50"; "-"; "1"; "root"]] pc pu
        = Return (87.66%float, pu)).
Proof.
  intros Hl _ Hw Hr Hu Hc r. subst r.
  rewrite <- (report_rows_render py_float ls Hw) in Hr.
  rewrite (parse_classification_percents_eq _ _ _ _ _ _ Hl Hr).
  split; [reflexivity|].
  split; [intros before pct after -> Ha; apply supplied_last, Ha|].
  split; [intros before pct after -> Ha; apply supplied_last, Ha|].
  split.
  - intros Hc0 Hu0. rewrite !supplied_absent by assumption. reflexivity.
  - assert (Eu : report_rows py_float
                   [tsv ["12.34"; "100"; "100"; "U"; "0"; "unclassified"]]
                 = Some [(12.34%float, "unclassified")]).
    { change [tsv ["12.34"; "100"; "100"; "U"; "0"; "unclassified"]]
        with (map render
                [Row "" "12.34" "" ["100"; "100"; "U"; "0"] "" "unclassified" ""]).
      rewrite (report_rows_render py_float
                 [Row "" "12.34" "" ["100"; "100"; "U"; "0"] "" "unclassified" ""]
                 eq_refl).
      simpl. rewrite Hu. reflexivity. }
    assert (Ec : report_rows py_float
                   [tsv ["87.66"; "900"; "50"; "-"; "1"; "root"]]
                 = Some [(87.66%float, "root")]).
    { change [tsv ["87.66"; "900"; "50"; "-"; "1"; "root"]]
        with (map render
                [Row "" "87.66" "" ["900"; "50"; "-"; "1"] "" "root" ""]).
      rewrite (report_rows_render py_float
                 [Row "" "87.66" "" ["900"; "50"; "-"; "1"] "" "root" ""]
                 eq_refl).
      simpl. rewrite Hc. reflexivity. }
    split; intros pc pu.
    + rewrite (scan_report_rows _ _ _ pc pu Eu). reflexivity.
    + rewrite (scan_report_rows _ _ _ pc pu Ec). reflexivity.
Qed.

End ReportLines.

Lemma parse_classification_percents_rows_witness :
  let lines :=
    [ " " +:+ tsv ["12.34"; "100"; "100"; "U"; "0"; "unclassified"]
          +:+ String LF "";
      String LF "";
      "  " +:+ tsv ["87.66 "; "900"; "50"; "R"; "1"; "  root"]
           +:+ String LF "" ] in
  let W :=
    {| w_isfile := fun _ _ => false;
       w_returncode := fun _ _ => 0%Z;
       w_glob := fun _ _ => [];
       w_lines := fun _ _ => Some lines;
       w_table := fun _ _ => None |} in
  fst (parse_classification_percents W float_of_decimal
         "out/g_metaG_kraken2.report" [])
  = Return (87.66%float, 12.34%float).
Proof.
  intros lines W.
  refine (proj1 (parse_classification_percents_rows float_of_decimal W
                   "out/g_metaG_kraken2.report" []
                   [ Row " " "12.34" "" ["100"; "100"; "U"; "0"] ""
                       "unclassified" (String LF "");
                     NoRow (String LF "");
                     Row "  " "87.66" " " ["900"; "50"; "R"; "1"] "  "
                       "root" (String LF "") ]
                   [(12.34%float, "unclassified"); (87.66%float, "root")]
                   eq_refl _ eq_refl eq_refl eq_refl eq_refl)).
  repeat constructor.
Defined.

(** ** What a run that goes through has done *)

Lemma bind_cases {A B} (m : M A) (k : A -> M B) tr r tr' :
  bind m k tr = (r, tr') ->
  (exists a tr1, m tr = (Return a, tr1) /\ k a tr1 = (r, tr'))
  \/ (exists e, m tr = (Raise e, tr') /\ r = Raise e)
  \/ (exists c, m tr = (SysExit c, tr') /\ r = SysExit c).
Proof.
  unfold bind. destruct (m tr) as [[a|e|c] tr1]; intros E.
  - left. eauto.
  - right. left. injection E as <- <-. eauto.
  - right. right. injection E as <- <-. eauto.
Qed.

Lemma bind_return_inv {A B} (m : M A) (k : A -> M B) tr b tr' :
  bind m k tr = (Return b, tr') ->
  exists a tr1, m tr = (Return a, tr1) /\ k a tr1 = (Return b, tr').
Proof.
  intros E. apply bind_cases in E as [H|[(e & _ & H)|(c & _ & H)]];
    [exact H|discriminate|discriminate].
Qed.

Lemma try_except_exit_cases {A} (body : M A) (msg : exn -> message) tr r tr' :
  try_except body (fun e => print (msg e) ;;; sys_exit 1) tr = (r, tr') ->
  body tr = (r, tr') /\ (forall e, r <> Raise e)
  \/ exists c, r = SysExit c.
Proof.
  unfold try_except. destruct (body tr) as [[a|e|c] tr1]; intros E.
  - left. injection E as <- <-. split; [reflexivity|discriminate].
  - right. unfold bind, print, emit, sys_exit in E. injection E as <- _. eauto.
  - right. injection E as <- _. eauto.
Qed.

Lemma run_command_return_inv W cmd tr u tr' :
  run_command W cmd tr = (Return u, tr') ->
  w_returncode W tr cmd = 0%Z /\ tr' = (tr ++ [Shell cmd])%list.
Proof.
  unfold run_command, bind, ask, emit, ret, print, sys_exit.
  destruct (Z.eqb_spec (w_returncode W tr cmd) 0); intros E.
  - injection E as _ <-. auto.
  - discriminate.
Qed.

Lemma read_csv_inv W path tr r tr' :
  read_csv W path tr = (r, tr') ->
  tr' = tr /\ (forall c, r <> SysExit c)
  /\ (forall t, last_written path tr = Some t -> r = Return t).
Proof.
  unfold read_csv. destruct (last_written path tr) as [t|].
  - intros E. injection E as <- <-. repeat split; [discriminate|]. congruence.
  - destruct (w_table W tr path); intros E; injection E as <- <-;
      repeat split; discriminate.
Qed.

Lemma parse_classification_percents_return_inv W pf f tr p tr' :
  parse_classification_percents W pf f tr = (Return p, tr') ->
  tr' = tr \/ tr' = (tr ++ [Print MsgParseWarning])%list.
Proof.
  unfold parse_classification_percents. intros E.
  apply bind_return_inv in E as (o & tr1 & E1 & E). injection E1 as <- <-.
  destruct (w_lines W tr f) as [lines|]; [|discriminate].
  apply bind_return_inv in E as ([pc pu] & tr1 & E1 & E).
  unfold lift in E1. injection E1 as _ <-.
  apply bind_return_inv in E as (u & tr2 & E1 & E). injection E as _ <-.
  destruct (_ && _); [right|left]; injection E1 as _ <-; reflexivity.
Qed.

Lemma parse_classification_percents_return_grows W pf f tr p tr' :
  parse_classification_percents W pf f tr = (Return p, tr') ->
  exists w, tr' = (tr ++ w)%list /\ Forall writes_nothing w.
Proof.
  intros E.
  apply parse_classification_percents_return_inv in E as [->| ->].
  - exists []. rewrite app_nil_r. split; [reflexivity|constructor].
  - exists [Print MsgParseWarning]. split; [reflexivity|repeat constructor].
Qed.

Lemma last_written_app path tr d :
  last_written path (tr ++ d)%list
  = match last_written path d with
    | Some t => Some t
    | None => last_written path tr
    end.
Proof.
  induction tr as [|e tr IH]; simpl.
  - destruct (last_written path d); reflexivity.
  - rewrite IH. destruct (last_written path d); reflexivity.
Qed.

Lemma last_written_none path d :
  Forall writes_nothing d -> last_written path d = None.
Proof.
  induction 1 as [|e d He _ IH]; simpl; [reflexivity|].
  rewrite IH. destruct e; simpl in He; tauto.
Qed.

Lemma writes_nothing_setup d : Forall writes_nothing d -> Forall setup d.
Proof.
  apply List.Forall_impl. intros e He Ha. destruct e; simpl in *; tauto.
Qed.

Section Stage.
Variable W : World.
Variable py_float : string -> option float.

Lemma run_kraken_bracken_return_inv fastq_files kraken_db outdir pre read_len
    tr r tr' :
  run_kraken_bracken W py_float fastq_files kraken_db outdir pre read_len tr
  = (Return r, tr') ->
  let bracken_csv := Py.path_join outdir (fstr [pre; "_bracken.csv"]) in
  let kraken_report := Py.path_join outdir (fstr [pre; "_kraken2.report"]) in
  exists df pc pu d1 d2 d3,
    r = (bracken_csv, pc, pu)
    /\ tr' = (tr ++ d1 ++ [WriteTable bracken_csv df] ++ d2 ++ d3)%list
    /\ Forall writes_nothing d1 /\ Forall writes_nothing d2
    /\ Forall writes_nothing d3
    /\ fst (parse_classification_percents W py_float kraken_report
              (tr ++ d1 ++ [WriteTable bracken_csv df] ++ d2)%list)
       = Return (pc, pu).
Proof.
  intros E bracken_csv kraken_report. unfold run_kraken_bracken in E.
  apply bind_return_inv in E as (u1 & tr1 & E1 & E).
  apply run_command_return_inv in E1 as [_ ->].
  apply bind_return_inv in E as (u2 & tr2 & E2 & E).
  apply run_command_return_inv in E2 as [_ ->].
  apply bind_return_inv in E as (u3 & tr3 & E3 & E).
  apply try_except_exit_cases in E3 as [[E3 _]|[c Hc]]; [|discriminate].
  apply bind_return_inv in E3 as (df & tr4 & E4 & E3).
  apply read_csv_inv in E4 as [-> _].
  unfold bind, emit in E3. injection E3 as _ <-.
  apply bind_return_inv in E as ([pc pu] & tr5 & E5 & E).
  injection E as <- <-.
  match type of E5 with
  | parse_classification_percents _ _ _
      ((((tr ++ [?a]) ++ [?b]) ++ [?c]) ++ [?d])%list = _ =>
      replace ((((tr ++ [a]) ++ [b]) ++ [c]) ++ [d])%list
        with (tr ++ [a; b] ++ [c] ++ [d])%list in E5
        by (rewrite <- !app_assoc; reflexivity);
      destruct (parse_classification_percents_return_grows _ _ _ _ _ _ E5)
        as (w & Hw & Fw);
      exists df, pc, pu, [a; b], [d], w
  end.
  split; [reflexivity|]. split.
  { rewrite Hw, <- !app_assoc. reflexivity. }
  split; [repeat constructor|]. split; [repeat constructor|].
  split; [exact Fw|]. unfold bracken_csv, kraken_report.
  rewrite E5. reflexivity.
Qed.


End Stage.


Lemma nth_split_two c a b :
  exists x y l, Py.split c (a +:+ String c b) = x :: y :: l.
Proof.
  pose proof (split_append_sep_length c a b) as H.
  destruct (Py.split c (a +:+ String c b)) as [|x [|y l]]; simpl in H; try lia.
  eauto.
Qed.

Section Tail.
Variable W : World.
Variable cosine : list float -> list float -> exn + float.

Lemma compute_similarity_io_writes bracken_g bracken_t folder_path gid tid
    tr (df_g df_t : AbundanceTable) :
  read_csv W bracken_g tr = (Return (Table df_g), tr) ->
  read_csv W bracken_t tr = (Return (Table df_t), tr) ->
  let final_name := fstr [gid; "_"; tid] in
  let scores := compute_similarity cosine df_g df_t in
  compute_similarity_io W cosine bracken_g bracken_t folder_path final_name tr
  = (Return scores,
     (tr ++ [WriteLog
               (Py.path_join folder_path (fstr [final_name; "_similarity.log"]))
               (nth 0 (Py.split "_" final_name) "")
               (nth 1 (Py.split "_" final_name) "")
               (fst scores) (snd scores)])%list).
Proof.
  intros Hg Ht final_name scores. unfold compute_similarity_io.
  rewrite (bind_return _ _ _ _ _ Hg), (bind_return _ _ _ _ _ Ht).
  fold scores. destruct scores as [sim score] eqn:Es.
  unfold final_name. rewrite fstr_three, append_cons, append_nil.
  destruct (nth_split_two "_" gid tid) as (x & y & l & ->).
  reflexivity.
Qed.

End Tail.

Lemma confined_return {A} Q C (m : M A) tr a tr' :
  confined Q C m -> m tr = (Return a, tr') ->
  exists d, tr' = (tr ++ d)%list /\ Forall Q d.
Proof.
  intros H E. destruct (H tr) as (d & Hd & Hq & _). rewrite E in Hd. eauto.
Qed.

Lemma prepare_input_writes_nothing W i o :
  confined writes_nothing (fun _ => True) (prepare_input W i o).
Proof.
  unfold prepare_input, run_command.
  repeat match goal with
  | |- confined _ _ (bind _ _) => apply confined_bind; [|intros ?]
  | |- confined _ _ (ret _) => apply confined_ret
  | |- confined _ _ (raise _) => apply confined_raise
  | |- confined _ _ (ask _) => apply confined_ask
  | |- confined _ _ (sys_exit _) => apply confined_sys_exit; exact I
  | |- confined _ _ (emit _) => apply confined_emit; exact I
  | |- confined _ _ (print _) => apply confined_emit; exact I
  | |- confined _ _ (if ?b then _ else _) => destruct b
  | |- confined _ _ (match ?x with _ => _ end) => destruct x
  end.
Qed.

Lemma merge_metag_metat_io_raises W bracken_g_csv bracken_t_csv
    pct_g_class pct_g_unclass pct_t_class pct_t_unclass merged_csv overlap_csv
    tr df_g df_t :
  read_csv W bracken_g_csv tr = (Return df_g, tr) ->
  read_csv W bracken_t_csv tr = (Return df_t, tr) ->
  df_g = NoNameColumn \/ df_t = NoNameColumn ->
  merge_metag_metat_io W bracken_g_csv bracken_t_csv
    pct_g_class pct_g_unclass pct_t_class pct_t_unclass merged_csv overlap_csv tr
  = (Raise KeyError, tr).
Proof.
  intros Hg Ht H. unfold merge_metag_metat_io.
  rewrite (bind_return _ _ _ _ _ Hg), (bind_return _ _ _ _ _ Ht).
  destruct H as [-> | ->]; [|destruct df_g]; reflexivity.
Qed.

Section EndToEnd.

Variable W : World.
Variable py_float : string -> option float.
Variable cosine : list float -> list float -> exn + float.
Variables metaG_input metaT_input krakendb outdir read_len : string.

Let folder_path : string :=
  Py.path_join outdir (fstr [temp_name metaG_input; "_"; temp_name metaT_input]).

(** A run that does not end in [sys.exit] has gone through, or has met a
    table without a name column. *)
Lemma execute_pipeline_logic_outcome tr r tr' :
  execute_pipeline_logic W py_float cosine metaG_input metaT_input krakendb
    outdir read_len tr = (r, tr') ->
  (forall c, r <> SysExit c) ->
  completed W py_float cosine folder_path tr r tr'
  \/ key_error_escaped tr r tr'.
Proof.
  intros E Hne. unfold execute_pipeline_logic in E. fold folder_path in E.
  apply bind_cases in E as [(u & tr1 & E1 & E)|[(e & E1 & ->)|(c & _ & ->)]];
    [| |exfalso; eapply Hne; reflexivity].
  2:{ unfold check_read_len in E1. destruct (negb _); discriminate. }
  assert (tr1 = tr) as ->.
  { unfold check_read_len in E1. destruct (negb _); [discriminate|].
    injection E1 as _ <-. reflexivity. }
  apply bind_cases in E as [(u' & tr1 & E2 & E)|[(e & E2 & ->)|(c & _ & ->)]];
    [|discriminate|exfalso; eapply Hne; reflexivity].
  injection E2 as _ <-.
  apply bind_cases in E as [(inputs & tr2 & E2 & E)|[(e & E2 & ->)|(c & _ & ->)]];
    [| |exfalso; eapply Hne; reflexivity].
  2:{ apply try_except_exit_cases in E2 as [[_ H]|[c H]];
        [exfalso; eapply H; reflexivity|discriminate]. }
  apply try_except_exit_cases in E2 as [[E2 _]|[c H]]; [|discriminate].
  apply bind_return_inv in E2 as ([gf gid] & tr3 & Eg & E2).
  apply bind_return_inv in E2 as ([tf tid] & tr4 & Et & E2).
  injection E2 as <- <-.
  apply (confined_return _ _ _ _ _ _ (prepare_input_writes_nothing _ _ _)) in Eg
    as (pg & -> & Hpg).
  apply (confined_return _ _ _ _ _ _ (prepare_input_writes_nothing _ _ _)) in Et
    as (pt & -> & Hpt).
  cbv beta iota in E.
  apply bind_cases in E as [(outputs & tr5 & E3 & E)|[(e & E3 & ->)|(c & _ & ->)]];
    [| |exfalso; eapply Hne; reflexivity].
  2:{ apply try_except_exit_cases in E3 as [[_ H]|[c H]];
        [exfalso; eapply H; reflexivity|discriminate]. }
  apply try_except_exit_cases in E3 as [[E3 _]|[c H]]; [|discriminate].
  apply bind_return_inv in E3 as (og & tr6 & Eg & E3).
  apply bind_return_inv in E3 as (ot & tr7 & Et & E3).
  injection E3 as <- <-.
  apply run_kraken_bracken_return_inv in Eg
    as (fA & pgc & pgu & g1 & g2 & g3 & -> & -> & Hg1 & Hg2 & Hg3 & Pg).
  apply run_kraken_bracken_return_inv in Et
    as (fB & ptc & ptu & t1 & t2 & t3 & -> & -> & Ht1 & Ht2 & Ht3 & Pt).
  cbv beta iota in E.
  set (gcsv := Py.path_join folder_path
                 (fstr [fstr [gid; "_metaG"]; "_bracken.csv"])) in *.
  set (tcsv := Py.path_join folder_path
                 (fstr [fstr [tid; "_metaT"]; "_bracken.csv"])) in *.
  set (tr0 := (((tr ++ [MakeDirs folder_path]) ++ pg) ++ pt)%list) in *.
  set (tr5 := (tr0 ++ g1 ++ [WriteTable gcsv fA] ++ g2 ++ g3)%list) in *.
  set (tr6 := (tr5 ++ t1 ++ [WriteTable tcsv fB] ++ t2 ++ t3)%list) in *.
  set (dg := ([MakeDirs folder_path] ++ pg ++ pt ++ g1
              ++ [WriteTable gcsv fA] ++ g2)%list).
  set (xg := (g3 ++ t1 ++ [WriteTable tcsv fB] ++ t2 ++ t3)%list).
  set (dt := ([MakeDirs folder_path] ++ pg ++ pt ++ g1
              ++ [WriteTable gcsv fA] ++ g2 ++ g3 ++ t1
              ++ [WriteTable tcsv fB] ++ t2)%list).
  assert (Edg : (tr0 ++ g1 ++ [WriteTable gcsv fA] ++ g2 = tr ++ dg)%list)
    by (unfold tr0, dg; rewrite <- !app_assoc; reflexivity).
  assert (Edt : (tr5 ++ t1 ++ [WriteTable tcsv fB] ++ t2 = tr ++ dt)%list)
    by (unfold tr5, tr0, dt; rewrite <- !app_assoc; reflexivity).
  assert (Ed6 : tr6 = (tr ++ dg ++ xg)%list)
    by (unfold tr6, tr5, tr0, dg, xg; rewrite <- !app_assoc; reflexivity).
  assert (Edx : (dg ++ xg = dt ++ t3)%list)
    by (unfold dg, xg, dt; rewrite <- !app_assoc; reflexivity).
  rewrite Edg in Pg. rewrite Edt in Pt.
  assert (Hd : Forall (fun e => ~ artifact e) (dg ++ xg)%list).
  { apply writes_nothing_setup in Hpg, Hpt, Hg1, Hg2, Hg3, Ht1, Ht2, Ht3.
    unfold dg, xg.
    repeat (apply Forall_app; split); try assumption;
      repeat constructor; simpl; tauto. }
  assert (Hneq : String.eqb tcsv gcsv = false).
  { apply String.eqb_neq. intros H. symmetry in H.
    exact (bracken_csv_distinct _ _ _ H). }
  assert (LA : last_written gcsv tr6 = Some fA).
  { unfold tr6, tr5. rewrite !last_written_app.
    rewrite (last_written_none _ t3 Ht3), (last_written_none _ t2 Ht2),
      (last_written_none _ g3 Hg3), (last_written_none _ g2 Hg2),
      (last_written_none _ t1 Ht1).
    simpl. rewrite Hneq, String.eqb_refl. reflexivity. }
  assert (LB : last_written tcsv tr6 = Some fB).
  { unfold tr6. rewrite !last_written_app.
    rewrite (last_written_none _ t3 Ht3), (last_written_none _ t2 Ht2).
    simpl. rewrite String.eqb_refl. reflexivity. }
  assert (RA : read_csv W gcsv tr6 = (Return fA, tr6))
    by (unfold read_csv; rewrite LA; reflexivity).
  assert (RB : read_csv W tcsv tr6 = (Return fB, tr6))
    by (unfold read_csv; rewrite LB; reflexivity).
  destruct fA as [A|]; [destruct fB as [B|]|].
  - left.
    erewrite bind_return in E by (apply merge_metag_metat_io_writes; eassumption).
    cbv zeta in E.
    match type of E with
    | bind _ _ ?t = _ => set (tr7 := t) in *
    end.
    assert (LA' : read_csv W gcsv tr7 = (Return (Table A), tr7)).
    { unfold read_csv, tr7. rewrite last_written_app. simpl. rewrite LA.
      reflexivity. }
    assert (LB' : read_csv W tcsv tr7 = (Return (Table B), tr7)).
    { unfold read_csv, tr7. rewrite last_written_app. simpl. rewrite LB.
      reflexivity. }
    erewrite bind_return in E by (apply compute_similarity_io_writes; eassumption).
    injection E as <- <-.
    exists (dg ++ xg)%list, A, B, pgc, pgu, ptc, ptu, gid, tid, dg, xg, dt, t3.
    cbv zeta.
    split; [reflexivity|]. split.
    { unfold tr7. rewrite Ed6, <- !app_assoc. reflexivity. }
    split; [exact Hd|]. split.
    { unfold dg. rewrite !in_app_iff. left. do 4 right. left. left. reflexivity. }
    split.
    { rewrite Edx. unfold dt. rewrite !in_app_iff. left. do 8 right. left. left.
      reflexivity. }
    split; [reflexivity|]. split; [exact Edx|]. split; [exact Pg|exact Pt].
  - right.
    pose proof (fun a b c d m o =>
                  merge_metag_metat_io_raises W gcsv tcsv a b c d m o tr6 _ _
                    RA RB (or_intror eq_refl)) as Em.
    erewrite bind_raise in E by apply Em.
    injection E as <- <-. split; [reflexivity|].
    exists (dg ++ xg)%list, tcsv. split; [exact Ed6|]. split; [exact Hd|].
    rewrite Edx. unfold dt. rewrite !in_app_iff. left. do 8 right. left. left.
    reflexivity.
  - right.
    pose proof (fun a b c d m o =>
                  merge_metag_metat_io_raises W gcsv tcsv a b c d m o tr6 _ _
                    RA RB (or_introl eq_refl)) as Em.
    erewrite bind_raise in E by apply Em.
    injection E as <- <-. split; [reflexivity|].
    exists (dg ++ xg)%list, gcsv. split; [exact Ed6|]. split; [exact Hd|].
    unfold dg. rewrite !in_app_iff. left. do 4 right. left. left. reflexivity.
Qed.

End EndToEnd.

(** C8. Every run of [execute_pipeline_logic] that goes through writes two
    frames, the merged one and then the overlap one. Both have the columns
    of [output_cols], and both start with the same row: it is named
    CLASSIFICATION_STATS and carries, of the two percentages that the run
    read in the report of the metaG sample, the classified one in the metaG
    fraction column and the unclassified one in the metaG estimated-reads
    column, the same for the percentages of the report of the metaT sample
    in the metaT columns, the difference of the two classified percentages,
    and N/A or 0 in every other column. *)
Theorem summary_row_of_both_artifacts W py_float cosine
    metaG_input metaT_input krakendb outdir read_len tr tr' :
  execute_pipeline_logic W py_float cosine metaG_input metaT_input krakendb
    outdir read_len tr = (Return tt, tr') ->
  let folder_path :=
    Py.path_join outdir
      (fstr [temp_name metaG_input; "_"; temp_name metaT_input]) in
  exists metaG_acc_name metaT_acc_name
         pct_g_class pct_g_unclass pct_t_class pct_t_unclass
         dg xg dt xt merged overlap log,
    let final_name := fstr [metaG_acc_name; "_"; metaT_acc_name] in
    let stats :=
      {| m_name := "CLASSIFICATION_STATS";
         taxonomy_id_metaG := 0;
         taxonomy_lvl_metaG := "N/A";
         kraken_assigned_reads_metaG := 0;
         added_reads_metaG := 0;
         new_est_reads_metaG := Flt pct_g_unclass;
         fraction_total_reads_metaG := pct_g_class;
         taxonomy_id_metaT := 0;
         taxonomy_lvl_metaT := "N/A";
         kraken_assigned_reads_metaT := 0;
         added_reads_metaT := 0;
         new_est_reads_metaT := Flt pct_t_unclass;
         fraction_total_reads_metaT := pct_t_class;
         difference := PrimFloat.sub pct_g_class pct_t_class |} in
    fst (parse_classification_percents W py_float
           (Py.path_join folder_path
              (fstr [fstr [metaG_acc_name; "_metaG"]; "_kraken2.report"]))
           (tr ++ dg)%list)
    = Return (pct_g_class, pct_g_unclass)
    /\ fst (parse_classification_percents W py_float
              (Py.path_join folder_path
                 (fstr [fstr [metaT_acc_name; "_metaT"]; "_kraken2.report"]))
              (tr ++ dt)%list)
       = Return (pct_t_class, pct_t_unclass)
    /\ tr' = (tr ++ (dg ++ xg)
              ++ [ WriteFrame
                     (Py.path_join folder_path (fstr [final_name; "_merged.csv"]))
                     merged;
                   WriteFrame
                     (Py.path_join folder_path (fstr [final_name; "_overlap.csv"]))
                     overlap;
                   log ])%list
    /\ (dg ++ xg = dt ++ xt)%list
    /\ Forall (fun e => ~ artifact e) (dg ++ xg)%list
    /\ columns merged = output_cols
    /\ columns overlap = output_cols
    /\ hd_error (rows merged) = Some stats
    /\ hd_error (rows overlap) = Some stats.
Proof.
  intros E folder_path.
  apply execute_pipeline_logic_outcome in E as [H|[H _]];
    [|discriminate H|discriminate].
  destruct H as (d & A & B & p1 & p2 & p3 & p4 & g & t & dg & xg & dt & xt
                 & _ & H1 & H2 & _ & _ & Hg & Ht & Pg & Pt).
  exists g, t, p1, p2, p3, p4, dg, xg, dt, xt.
  eexists. eexists. eexists. cbv zeta.
  split; [exact Pg|]. split; [exact Pt|]. split.
  { rewrite <- Hg. exact H1. }
  split; [congruence|]. split; [rewrite <- Hg; exact H2|].
  repeat split.
Qed.

Lemma summary_row_of_both_artifacts_witness :
  let W :=
    {| w_isfile := fun _ p => Py.endswith p ".fastq";
       w_returncode := fun _ _ => 0%Z;
       w_glob := fun _ _ => [];
       w_lines := fun _ p =>
         Some (if Py.endswith p "_metaG_kraken2.report"
               then [ tsv ["12.34"; "100"; "100"; "U"; "0"; "unclassified"];
                      tsv ["87.66"; "900"; "50"; "-"; "1"; "root"] ]
               else [ tsv ["40.5"; "100"; "100"; "U"; "0"; "unclassified"];
                      tsv ["59.5"; "900"; "50"; "-"; "1"; "root"] ]);
       w_table := fun _ p =>
         Some (Table (if Py.endswith p "_metaG_bracken.tsv"
                      then sample_g else sample_t)) |} in
  let tr' :=
    snd (execute_pipeline_logic W float_of_decimal Scipy.cosine
           "in/g.fastq" "in/t.fastq" "db" "out" "150" []) in
  let folder_path :=
    Py.path_join "out" (fstr [temp_name "in/g.fastq"; "_"; temp_name "in/t.fastq"]) in
  exists metaG_acc_name metaT_acc_name
         pct_g_class pct_g_unclass pct_t_class pct_t_unclass
         dg xg dt xt merged overlap log,
    let final_name := fstr [metaG_acc_name; "_"; metaT_acc_name] in
    let stats :=
      {| m_name := "CLASSIFICATION_STATS";
         taxonomy_id_metaG := 0;
         taxonomy_lvl_metaG := "N/A";
         kraken_assigned_reads_metaG := 0;
         added_reads_metaG := 0;
         new_est_reads_metaG := Flt pct_g_unclass;
         fraction_total_reads_metaG := pct_g_class;
         taxonomy_id_metaT := 0;
         taxonomy_lvl_metaT := "N/A";
         kraken_assigned_reads_metaT := 0;
         added_reads_metaT := 0;
         new_est_reads_metaT := Flt pct_t_unclass;
         fraction_total_reads_metaT := pct_t_class;
         difference := PrimFloat.sub pct_g_class pct_t_class |} in
    fst (parse_classification_percents W float_of_decimal
           (Py.path_join folder_path
              (fstr [fstr [metaG_acc_name; "_metaG"]; "_kraken2.report"]))
           ([] ++ dg)%list)
    = Return (pct_g_class, pct_g_unclass)
    /\ fst (parse_classification_percents W float_of_decimal
              (Py.path_join folder_path
                 (fstr [fstr [metaT_acc_name; "_metaT"]; "_kraken2.report"]))
              ([] ++ dt)%list)
       = Return (pct_t_class, pct_t_unclass)
    /\ tr' = ([] ++ (dg ++ xg)
              ++ [ WriteFrame
                     (Py.path_join folder_path (fstr [final_name; "_merged.csv"]))
                     merged;
                   WriteFrame
                     (Py.path_join folder_path (fstr [final_name; "_overlap.csv"]))
                     overlap;
                   log ])%list
    /\ (dg ++ xg = dt ++ xt)%list
    /\ Forall (fun e => ~ artifact e) (dg ++ xg)%list
    /\ columns merged = output_cols
    /\ columns overlap = output_cols
    /\ hd_error (rows merged) = Some stats
    /\ hd_error (rows overlap) = Some stats.
Proof.
  intros W tr'.
  apply (summary_row_of_both_artifacts W float_of_decimal Scipy.cosine
           "in/g.fastq" "in/t.fastq" "db" "out" "150" [] tr').
  vm_compute. reflexivity.
Defined.

(** The same run, read off its history: the summary row of both frames has
    the percentages of the metaG report on the metaG side and those of the
    metaT report on the metaT side. *)
Example summary_rows_of_a_run :
  let W :=
    {| w_isfile := fun _ p => Py.endswith p ".fastq";
       w_returncode := fun _ _ => 0%Z;
       w_glob := fun _ _ => [];
       w_lines := fun _ p =>
         Some (if Py.endswith p "_metaG_kraken2.report"
               then [ tsv ["12.34"; "100"; "100"; "U"; "0"; "unclassified"];
                      tsv ["87.66"; "900"; "50"; "-"; "1"; "root"] ]
               else [ tsv ["40.5"; "100"; "100"; "U"; "0"; "unclassified"];
                      tsv ["59.5"; "900"; "50"; "-"; "1"; "root"] ]);
       w_table := fun _ p =>
         Some (Table (if Py.endswith p "_metaG_bracken.tsv"
                      then sample_g else sample_t)) |} in
  flat_map
    (fun e => match e with
              | WriteFrame p f =>
                  [(p, (fun r => (m_name r, fraction_total_reads_metaG r,
                                  new_est_reads_metaG r,
                                  fraction_total_reads_metaT r,
                                  new_est_reads_metaT r)) <$> hd_error (rows f))]
              | _ => []
              end)
    (snd (execute_pipeline_logic W float_of_decimal Scipy.cosine
            "in/g.fastq" "in/t.fastq" "db" "out" "150" []))
  = [ ("out/g_t/g_t_merged.csv",
       Some ("CLASSIFICATION_STATS", 87.66%float, Flt 12.34%float,
             59.5%float, Flt 40.5%float));
      ("out/g_t/g_t_overlap.csv",
       Some ("CLASSIFICATION_STATS", 87.66%float, Flt 12.34%float,
             59.5%float, Flt 40.5%float)) ].
Proof. vm_compute. reflexivity. Qed.

(** X8. The only exception that leaves [execute_pipeline_logic] is the
    [KeyError] of a table without a name column: whatever the inputs and
    the answers of the outside world, a run goes through, or ends in
    [sys.exit(1)], or lets this [KeyError] out of the merge, which no
    [try] encloses; in this last case the run has converted such a table
    and has written no frame and no log. The two Bracken CSVs that the
    merge and the similarity read are the ones the run has just written, at
    two different paths, and the final name always has the two parts that
    the log asks for. (The model takes a frame that has a name column for
    a table of the re-estimation tool with its seven columns, and takes
    every write and every making of a directory to succeed.) *)
Theorem run_returns_exits_with_one_or_raises_KeyError W py_float cosine
    metaG_input metaT_input krakendb outdir read_len tr :
  let run :=
    execute_pipeline_logic W py_float cosine metaG_input metaT_input
      krakendb outdir read_len tr in
  fst run = Return tt
  \/ fst run = SysExit 1
  \/ fst run = Raise KeyError
     /\ exists d path,
          snd run = (tr ++ d)%list
          /\ Forall (fun e => ~ artifact e) d
          /\ In (WriteTable path NoNameColumn) d.
Proof.
  cbv zeta.
  destruct (execute_pipeline_logic W py_float cosine metaG_input metaT_input
              krakendb outdir read_len tr) as [r tr'] eqn:E.
  cbn [fst snd]. destruct r as [[]|e|c].
  - left. reflexivity.
  - right. right.
    apply execute_pipeline_logic_outcome in E as [H|[H1 H2]]; [| |discriminate].
    + destruct H as (d & A & B & p1 & p2 & p3 & p4 & g & t & dg & xg & dt & xt
                     & H & _).
      discriminate.
    + split; [exact H1|exact H2].
  - right. left.
    apply exits_clean_execute_pipeline_logic in E as [-> _]. reflexivity.
Qed.

(** A table without a name column does end a run with a [KeyError] that
    nothing catches: here the re-estimation tool leaves one for the metaT
    sample. *)
Example table_without_name_column_is_not_caught :
  let W :=
    {| w_isfile := fun _ p => Py.endswith p ".fastq";
       w_returncode := fun _ _ => 0%Z;
       w_glob := fun _ _ => [];
       w_lines := fun _ _ => Some sample_report;
       w_table := fun _ p =>
         Some (if Py.endswith p "_metaG_bracken.tsv"
               then Table sample_g else NoNameColumn) |} in
  let run :=
    execute_pipeline_logic W float_of_decimal Scipy.cosine
      "in/g.fastq" "in/t.fastq" "db" "out" "150" [] in
  fst run = Raise KeyError
  /\ exit_status (fst run) = 1%Z
  /\ In (WriteTable "out/g_t/t_metaT_bracken.csv" NoNameColumn) (snd run).
Proof.
  cbv zeta. split; [vm_compute; reflexivity|]. split; [vm_compute; reflexivity|].
  vm_compute. repeat first [left; reflexivity | right].
Qed.

(** X9. A run of [execute_pipeline_logic] that goes through ends with the
    merged frame, the overlap frame and the similarity log, written in this
    order in the folder named after the inputs, and nothing of the kind
    before them. All three come from the same two tables [A] and [B], the
    ones that the run converted to CSV for the metaG and for the metaT
    sample: the frames are [merge_metag_metat A B] with the percentages of
    the two reports, the scores are [compute_similarity A B]. *)
Theorem completed_run_artifacts W py_float cosine
    metaG_input metaT_input krakendb outdir read_len tr tr' :
  execute_pipeline_logic W py_float cosine metaG_input metaT_input krakendb
    outdir read_len tr = (Return tt, tr') ->
  let folder_path :=
    Py.path_join outdir
      (fstr [temp_name metaG_input; "_"; temp_name metaT_input]) in
  exists d A B pct_g_class pct_g_unclass pct_t_class pct_t_unclass
         metaG_acc_name metaT_acc_name,
    let final_name := fstr [metaG_acc_name; "_"; metaT_acc_name] in
    let frames :=
      merge_metag_metat A B
        pct_g_class pct_g_unclass pct_t_class pct_t_unclass in
    let scores := compute_similarity cosine A B in
    tr' = (tr ++ d
           ++ [ WriteFrame
                  (Py.path_join folder_path (fstr [final_name; "_merged.csv"]))
                  (fst frames);
                WriteFrame
                  (Py.path_join folder_path (fstr [final_name; "_overlap.csv"]))
                  (snd frames);
                WriteLog
                  (Py.path_join folder_path (fstr [final_name; "_similarity.log"]))
                  (nth 0 (Py.split "_" final_name) "")
                  (nth 1 (Py.split "_" final_name) "")
                  (fst scores) (snd scores) ])%list
    /\ Forall (fun e => ~ artifact e) d
    /\ In (WriteTable
             (Py.path_join folder_path
                (fstr [fstr [metaG_acc_name; "_metaG"]; "_bracken.csv"])) A) d
    /\ In (WriteTable
             (Py.path_join folder_path
                (fstr [fstr [metaT_acc_name; "_metaT"]; "_bracken.csv"])) B) d.
Proof.
  intros E folder_path.
  apply execute_pipeline_logic_outcome in E as [H|[H _]];
    [|discriminate H|discriminate].
  destruct H as (d & A & B & p1 & p2 & p3 & p4 & g & t & dg & xg & dt & xt
                 & _ & H1 & H2 & H3 & H4 & _).
  exists d, A, B, p1, p2, p3, p4, g, t. auto.
Qed.

Lemma completed_run_artifacts_witness :
  let W := local_world (fun _ => 0%Z) sample_report sample_g sample_t in
  let tr' :=
    snd (execute_pipeline_logic W float_of_decimal Scipy.cosine
           "in/g.fastq" "in/t.fastq" "db" "out" "150" []) in
  let folder_path :=
    Py.path_join "out" (fstr [temp_name "in/g.fastq"; "_"; temp_name "in/t.fastq"]) in
  exists d A B pct_g_class pct_g_unclass pct_t_class pct_t_unclass
         metaG_acc_name metaT_acc_name,
    let final_name := fstr [metaG_acc_name; "_"; metaT_acc_name] in
    let frames :=
      merge_metag_metat A B
        pct_g_class pct_g_unclass pct_t_class pct_t_unclass in
    let scores := compute_similarity Scipy.cosine A B in
    tr' = ([] ++ d
           ++ [ WriteFrame
                  (Py.path_join folder_path (fstr [final_name; "_merged.csv"]))
                  (fst frames);
                WriteFrame
                  (Py.path_join folder_path (fstr [final_name; "_overlap.csv"]))
                  (snd frames);
                WriteLog
                  (Py.path_join folder_path (fstr [final_name; "_similarity.log"]))
                  (nth 0 (Py.split "_" final_name) "")
                  (nth 1 (Py.split "_" final_name) "")
                  (fst scores) (snd scores) ])%list
    /\ Forall (fun e => ~ artifact e) d
    /\ In (WriteTable
             (Py.path_join folder_path
                (fstr [fstr [metaG_acc_name; "_metaG"]; "_bracken.csv"])) A) d
    /\ In (WriteTable
             (Py.path_join folder_path
                (fstr [fstr [metaT_acc_name; "_metaT"]; "_bracken.csv"])) B) d.
Proof.
  intros W tr'.
  apply (completed_run_artifacts W float_of_decimal Scipy.cosine
           "in/g.fastq" "in/t.fastq" "db" "out" "150" [] tr').
  vm_compute. reflexivity.
Defined.

(** ** [prepare_input]: what it returns, raises and names *)


Lemma split_pieces_no_sep c s x : In x (Py.split c s) -> Py.contains c x = false.
Proof.
  revert x. induction s as [|a s IH]; simpl; intros x H.
  - destruct H as [<-|[]]. reflexivity.
  - destruct (Ascii.eqb a c) eqn:E.
    + destruct H as [<-|H]; [reflexivity|auto].
    + pose proof (split_nonempty c s) as Hn.
      destruct (Py.split c s) as [|y ys]; [contradiction|].
      destruct H as [<-|H].
      * simpl. rewrite E. apply IH. left. reflexivity.
      * apply IH. right. exact H.
Qed.

Lemma split_pieces_keep c c' s x :
  Py.contains c' s = false -> In x (Py.split c s) -> Py.contains c' x = false.
Proof.
  revert x. induction s as [|a s IH]; simpl; intros x Hs H.
  - destruct H as [<-|[]]. reflexivity.
  - apply orb_false_iff in Hs as [Ha Hs].
    destruct (Ascii.eqb a c) eqn:E.
    + destruct H as [<-|H]; [reflexivity|auto].
    + pose proof (split_nonempty c s) as Hn.
      destruct (Py.split c s) as [|y ys]; [contradiction|].
      destruct H as [<-|H].
      * simpl. rewrite Ha. apply IH; [exact Hs|]. left. reflexivity.
      * apply IH; [exact Hs|]. right. exact H.
Qed.

Lemma first_in c s : In (Py.first (Py.split c s)) (Py.split c s).
Proof.
  pose proof (split_nonempty c s). unfold Py.first.
  destruct (Py.split c s); [contradiction|]. left. reflexivity.
Qed.

Lemma last_in c s : In (Py.last (Py.split c s)) (Py.split c s).
Proof.
  pose proof (split_nonempty c s) as H. unfold Py.last.
  destruct (Py.split c s) as [|x l]; [contradiction|].
  clear H. revert x. induction l as [|y l IH]; intros x.
  - left. reflexivity.
  - right. apply (IH y).
Qed.

Lemma stem_has_no_dot_no_slash p :
  let stem := Py.first (Py.split "." (Py.basename p)) in
  Py.contains "." stem = false /\ Py.contains "/" stem = false.
Proof.
  intros stem. split.
  - apply (split_pieces_no_sep "." (Py.basename p)), first_in.
  - apply (split_pieces_keep "." "/" (Py.basename p)); [|apply first_in].
    apply (split_pieces_no_sep "/" p). apply last_in.
Qed.

Lemma prepare_input_return_inv W input_source output_folder tr
    fastq_files id tr' :
  prepare_input W input_source output_folder tr
  = (Return (fastq_files, id), tr') ->
  w_isfile W tr input_source = true /\ recognized input_source = true
  /\ fastq_files = [input_source]
  /\ id = Py.first (Py.split "." (Py.basename input_source)) /\ tr' = tr
  \/ w_isfile W tr input_source = false /\ id = input_source
     /\ fastq_files <> []
     /\ exists d, tr' = (tr ++ d)%list /\ Forall writes_nothing d.
Proof.
  intros E.
  pose proof (confined_return _ _ _ _ _ _
                (prepare_input_writes_nothing W input_source output_folder) E)
    as Hd.
  unfold prepare_input in E.
  apply bind_return_inv in E as (b & tr1 & E1 & E). injection E1 as <- <-.
  destruct (w_isfile W tr input_source).
  - left. fold (recognized input_source) in E.
    destruct (recognized input_source); [|discriminate].
    injection E as <- <- <-. auto.
  - right. split; [reflexivity|].
    apply bind_return_inv in E as (u1 & tr1 & _ & E).
    apply bind_return_inv in E as (u2 & tr2 & _ & E).
    apply bind_return_inv in E as (u3 & tr3 & _ & E).
    apply bind_return_inv in E as (u4 & tr4 & _ & E).
    apply bind_return_inv in E as (fs & tr5 & _ & E).
    destruct fs as [|f fs]; [discriminate|]. injection E as <- <- _.
    split; [reflexivity|]. split; [discriminate|exact Hd].
Qed.

(** X10. [prepare_input] returns in two ways only. For an existing file
    with a FASTQ extension it returns that file alone and the stem of its
    name, and has done nothing. For an input that is no existing file it
    returns the input as the id and the files that [glob] finds, of which
    there is at least one, after it made the directory of the accession,
    ran [prefetch], made the dump directory and ran [fasterq-dump], each
    command once and both with exit status 0. So the list of files that it
    hands to the classification is never empty. *)
Theorem prepare_input_returns_a_resolved_input W input_source output_folder tr
    fastq_files id tr' :
  prepare_input W input_source output_folder tr
  = (Return (fastq_files, id), tr') ->
  let sra_dir := Py.path_join output_folder input_source in
  let tmp_dump_dir := Py.path_join sra_dir "tmp_dump" in
  let fetch := prefetch_cmd input_source sra_dir in
  let dump := fasterq_dump_cmd input_source sra_dir tmp_dump_dir in
  let tr1 := (tr ++ [MakeDirs sra_dir])%list in
  let tr2 := (tr ++ [MakeDirs sra_dir; Shell fetch; MakeDirs tmp_dump_dir])%list in
  w_isfile W tr input_source = true
  /\ Py.endswith input_source ".fastq" || Py.endswith input_source ".fastq.gz"
     = true
  /\ fastq_files = [input_source]
  /\ id = Py.first (Py.split "." (Py.basename input_source))
  /\ tr' = tr
  \/ w_isfile W tr input_source = false
     /\ id = input_source
     /\ w_returncode W tr1 fetch = 0%Z
     /\ w_returncode W tr2 dump = 0%Z
     /\ tr' = (tr2 ++ [Shell dump])%list
     /\ fastq_files = w_glob W tr' (fstr [sra_dir; "/"; input_source; "*.fastq"])
     /\ fastq_files <> [].
Proof.
  intros E sra_dir tmp_dump_dir fetch dump tr1 tr2.
  unfold prepare_input in E.
  apply bind_return_inv in E as (b & tr0 & E1 & E). injection E1 as <- <-.
  destruct (w_isfile W tr input_source).
  - left. destruct (_ || _); [|discriminate].
    injection E as <- <- <-. auto.
  - right. split; [reflexivity|].
    fold sra_dir tmp_dump_dir fetch dump in E.
    apply bind_return_inv in E as (u1 & t1 & E1 & E). injection E1 as _ <-.
    apply bind_return_inv in E as (u2 & t2 & E2 & E).
    apply run_command_return_inv in E2 as [R1 ->].
    apply bind_return_inv in E as (u3 & t3 & E3 & E). injection E3 as _ <-.
    apply bind_return_inv in E as (u4 & t4 & E4 & E).
    assert (Et : (((tr ++ [MakeDirs sra_dir]) ++ [Shell fetch])
                  ++ [MakeDirs tmp_dump_dir])%list = tr2)
      by (unfold tr2; rewrite <- !app_assoc; reflexivity).
    rewrite Et in E4.
    apply run_command_return_inv in E4 as [R2 ->].
    apply bind_return_inv in E as (fs & t5 & E5 & E). injection E5 as <- <-.
    destruct (w_glob W _ _) as [|f fs] eqn:G; [discriminate|].
    injection E as <- <- <-.
    split; [reflexivity|]. split; [exact R1|]. split; [exact R2|].
    split; [reflexivity|]. split; [symmetry; exact G|discriminate].
Qed.

Lemma prepare_input_returns_a_resolved_input_witness :
  let W := archive_world ["out/SRR1/SRR1_1.fastq"; "out/SRR1/SRR1_2.fastq"] in
  let tr' :=
    [ MakeDirs "out/SRR1";
      Shell "prefetch SRR1 --output-directory out/SRR1 --max-size 500G";
      MakeDirs "out/SRR1/tmp_dump";
      Shell "fasterq-dump SRR1 -O out/SRR1 --temp out/SRR1/tmp_dump --split-files" ] in
  w_isfile W [] "SRR1" = true
  /\ Py.endswith "SRR1" ".fastq" || Py.endswith "SRR1" ".fastq.gz" = true
  /\ ["out/SRR1/SRR1_1.fastq"; "out/SRR1/SRR1_2.fastq"] = ["SRR1"]
  /\ "SRR1" = Py.first (Py.split "." (Py.basename "SRR1"))
  /\ tr' = []
  \/ w_isfile W [] "SRR1" = false
     /\ "SRR1" = "SRR1"
     /\ w_returncode W [MakeDirs "out/SRR1"]
          "prefetch SRR1 --output-directory out/SRR1 --max-size 500G" = 0%Z
     /\ w_returncode W
          [ MakeDirs "out/SRR1";
            Shell "prefetch SRR1 --output-directory out/SRR1 --max-size 500G";
            MakeDirs "out/SRR1/tmp_dump" ]
          "fasterq-dump SRR1 -O out/SRR1 --temp out/SRR1/tmp_dump --split-files"
        = 0%Z
     /\ tr' = tr'
     /\ ["out/SRR1/SRR1_1.fastq"; "out/SRR1/SRR1_2.fastq"]
        = w_glob W tr' "out/SRR1/SRR1*.fastq"
     /\ ["out/SRR1/SRR1_1.fastq"; "out/SRR1/SRR1_2.fastq"] <> [].
Proof.
  intros W tr'.
  apply (prepare_input_returns_a_resolved_input W "SRR1" "out" []
           ["out/SRR1/SRR1_1.fastq"; "out/SRR1/SRR1_2.fastq"] "SRR1" tr').
  reflexivity.
Defined.

(** X11. The folder of a run is named after the two inputs before they are
    resolved, its files after the canonical ids. For an input that is an
    existing file, and for one that has neither a slash nor a dot, the two
    names agree: whenever [prepare_input] returns, the id is [temp_name] of
    the input. *)
Theorem temp_name_is_the_canonical_id W input_source output_folder tr
    fastq_files id tr' :
  prepare_input W input_source output_folder tr
  = (Return (fastq_files, id), tr') ->
  w_isfile W tr input_source = true
  \/ Py.contains "/" input_source = false
     /\ Py.contains "." input_source = false ->
  temp_name input_source = id.
Proof.
  intros E H.
  apply prepare_input_return_inv in E as [(F & R & _ & -> & _)|(F & -> & _)].
  - unfold temp_name. rewrite (recognized_contains_dot _ R), orb_true_r.
    reflexivity.
  - destruct H as [H|[H1 H2]]; [congruence|].
    unfold temp_name. rewrite H1, H2. reflexivity.
Qed.

Lemma temp_name_is_the_canonical_id_witness : temp_name "in/g.fastq" = "g".
Proof.
  apply (temp_name_is_the_canonical_id
           (local_world (fun _ => 0%Z) sample_report sample_g sample_t)
           "in/g.fastq" "out" [] ["in/g.fastq"] "g" []).
  - reflexivity.
  - left. reflexivity.
Defined.

(** X12. For an input that is no existing file and has a slash or a dot in
    it (an accession written with a version, a path that does not exist),
    the two names differ: the id is the input as it was given, and the
    folder name has lost what follows the first dot and what precedes the
    last slash. *)
Theorem dotted_accession_is_not_the_folder_name W input_source output_folder tr
    fastq_files id tr' :
  prepare_input W input_source output_folder tr
  = (Return (fastq_files, id), tr') ->
  w_isfile W tr input_source = false ->
  Py.contains "/" input_source || Py.contains "." input_source = true ->
  String.eqb (temp_name input_source) id = false.
Proof.
  intros E F H.
  apply prepare_input_return_inv in E as [(F' & _)|(_ & -> & _)]; [congruence|].
  apply String.eqb_neq. unfold temp_name. rewrite H. intros Heq.
  destruct (stem_has_no_dot_no_slash input_source) as [H1 H2].
  cbv zeta in H1, H2. rewrite Heq in H1, H2. rewrite H1, H2 in H. discriminate.
Qed.

Lemma dotted_accession_is_not_the_folder_name_witness :
  String.eqb (temp_name "SRR1.1") "SRR1.1" = false.
Proof.
  apply (dotted_accession_is_not_the_folder_name
           (archive_world ["out/SRR1.1/SRR1.1_1.fastq"])
           "SRR1.1" "out" [] ["out/SRR1.1/SRR1.1_1.fastq"] "SRR1.1"
           [ MakeDirs "out/SRR1.1";
             Shell "prefetch SRR1.1 --output-directory out/SRR1.1 --max-size 500G";
             MakeDirs "out/SRR1.1/tmp_dump";
             Shell "fasterq-dump SRR1.1 -O out/SRR1.1 --temp out/SRR1.1/tmp_dump --split-files" ]).
  - reflexivity.
  - reflexivity.
  - reflexivity.
Defined.

(** X13. For an accession, a download tool that exits with a non-zero
    status ends the process with status 1 at once: after a failed
    [prefetch] the dump directory is not made and [fasterq-dump] is not
    run, after a failed [fasterq-dump] nothing is looked for. The tool's
    own status is only printed. *)
Theorem failing_fetch_tool_aborts_with_status_one W acc output_folder tr :
  w_isfile W tr acc = false ->
  let sra_dir := Py.path_join output_folder acc in
  let tmp_dump_dir := Py.path_join sra_dir "tmp_dump" in
  let fetch := prefetch_cmd acc sra_dir in
  let dump := fasterq_dump_cmd acc sra_dir tmp_dump_dir in
  let tr1 := (tr ++ [MakeDirs sra_dir])%list in
  let tr2 := (tr ++ [MakeDirs sra_dir; Shell fetch; MakeDirs tmp_dump_dir])%list in
  let n := w_returncode W tr1 fetch in
  let n' := w_returncode W tr2 dump in
  (n <> 0%Z ->
   prepare_input W acc output_folder tr
   = (SysExit 1, (tr1 ++ [Shell fetch; Print (MsgCommandFailed n fetch)])%list))
  /\ (n = 0%Z -> n' <> 0%Z ->
      prepare_input W acc output_folder tr
      = (SysExit 1, (tr2 ++ [Shell dump; Print (MsgCommandFailed n' dump)])%list)).
Proof.
  intros F sra_dir tmp_dump_dir fetch dump tr1 tr2 n n'.
  unfold prepare_input.
  erewrite bind_return by reflexivity. cbv beta. rewrite F.
  fold sra_dir tmp_dump_dir fetch dump.
  erewrite bind_return by reflexivity. fold tr1.
  split.
  - intros Hn. apply bind_sys_exit. apply run_command_nonzero. exact Hn.
  - intros Hn Hn'.
    erewrite bind_return by (apply run_command_zero; exact Hn).
    erewrite bind_return by reflexivity.
    apply bind_sys_exit.
    replace ((tr1 ++ [Shell fetch]) ++ [MakeDirs tmp_dump_dir])%list with tr2
      by (unfold tr1, tr2; rewrite <- !app_assoc; reflexivity).
    apply run_command_nonzero. exact Hn'.
Qed.

Lemma failing_fetch_tool_aborts_with_status_one_witness :
  prepare_input
    {| w_isfile := fun _ _ => false;
       w_returncode := fun _ cmd => if Py.startswith cmd "prefetch" then 3%Z else 0%Z;
       w_glob := fun _ _ => [];
       w_lines := fun _ _ => None;
       w_table := fun _ _ => None |}
    "SRR1" "out/g_t" []
  = (SysExit 1,
     [ MakeDirs "out/g_t/SRR1";
       Shell "prefetch SRR1 --output-directory out/g_t/SRR1 --max-size 500G";
       Print (MsgCommandFailed 3
                "prefetch SRR1 --output-directory out/g_t/SRR1 --max-size 500G") ]).
Proof.
  apply (proj1 (failing_fetch_tool_aborts_with_status_one
                  {| w_isfile := fun _ _ => false;
                     w_returncode := fun _ cmd =>
                       if Py.startswith cmd "prefetch" then 3%Z else 0%Z;
                     w_glob := fun _ _ => [];
                     w_lines := fun _ _ => None;
                     w_table := fun _ _ => None |}
                  "SRR1" "out/g_t" [] eq_refl)).
  vm_compute. discriminate.
Defined.

(** X14. An exception of [prepare_input] is fatal for the run: with a valid
    read length, if resolving the metaG input raises, or resolving the metaT
    input raises after the metaG input was resolved, the run prints the
    failure with the exception and ends with status 1. After a failure on
    the metaG input the metaT input is not looked at, and in both cases no
    classification is started. *)
Theorem input_preparation_error_is_fatal W py_float cosine
    metaG_input metaT_input krakendb outdir read_len tr :
  Py.isdigit read_len = true ->
  let folder_path :=
    Py.path_join outdir
      (fstr [temp_name metaG_input; "_"; temp_name metaT_input]) in
  let tr0 := (tr ++ [MakeDirs folder_path])%list in
  let run :=
    execute_pipeline_logic W py_float cosine metaG_input metaT_input krakendb
      outdir read_len tr in
  (forall e tr1,
     prepare_input W metaG_input folder_path tr0 = (Raise e, tr1) ->
     run = (SysExit 1, (tr1 ++ [Print (MsgInputPreparationFailed e)])%list))
  /\ (forall g tr1 e tr2,
        prepare_input W metaG_input folder_path tr0 = (Return g, tr1) ->
        prepare_input W metaT_input folder_path tr1 = (Raise e, tr2) ->
        run = (SysExit 1, (tr2 ++ [Print (MsgInputPreparationFailed e)])%list)).
Proof.
  intros Hd folder_path tr0 run. subst run. unfold execute_pipeline_logic.
  erewrite bind_return by (rewrite check_read_len_eq, Hd; reflexivity).
  erewrite bind_return by reflexivity. fold folder_path tr0.
  split.
  - intros e tr1 E. apply bind_sys_exit.
    erewrite try_except_raise by (apply bind_raise; exact E). reflexivity.
  - intros g tr1 e tr2 Eg Et. apply bind_sys_exit.
    erewrite try_except_raise
      by (rewrite (bind_return _ _ _ _ _ Eg); apply bind_raise; exact Et).
    reflexivity.
Qed.

Lemma input_preparation_error_is_fatal_witness :
  execute_pipeline_logic all_files_world float_of_decimal Scipy.cosine
    "reads.txt" "in/t.fastq" "db" "out" "150" []
  = (SysExit 1,
     [ MakeDirs "out/reads_t";
       Print (MsgInputPreparationFailed (not_a_fastq "reads.txt")) ]).
Proof.
  apply (proj1 (input_preparation_error_is_fatal all_files_world float_of_decimal
                  Scipy.cosine "reads.txt" "in/t.fastq" "db" "out" "150" []
                  eq_refl)
           (not_a_fastq "reads.txt") [MakeDirs "out/reads_t"]).
  reflexivity.
Defined.

(** ** [run_kraken_bracken]: a table that cannot be read *)

(** X15. When both tools have succeeded and the table of the re-estimation
    cannot be read, [run_kraken_bracken] prints the failed conversion and
    ends the process with status 1 itself: no CSV is written, the table is
    not removed and the report is not read. *)
Theorem unreadable_table_is_fatal W py_float fastq_files kraken_db outdir pre
    read_len tr e :
  let kraken_report := Py.path_join outdir (fstr [pre; "_kraken2.report"]) in
  let bracken_tsv := Py.path_join outdir (fstr [pre; "_bracken.tsv"]) in
  let classify :=
    kraken2_cmd kraken_db
      (if (1 <? length fastq_files)%nat then "--paired" else "")
      (Py.join " " fastq_files) kraken_report
      (Py.path_join outdir (fstr [pre; "_kraken2.out"])) in
  let reestimate := bracken_cmd kraken_db kraken_report bracken_tsv read_len in
  let tr2 := (tr ++ [Shell classify; Shell reestimate])%list in
  w_returncode W tr classify = 0%Z ->
  w_returncode W (tr ++ [Shell classify])%list reestimate = 0%Z ->
  fst (read_csv W bracken_tsv tr2) = Raise e ->
  run_kraken_bracken W py_float fastq_files kraken_db outdir pre read_len tr
  = (SysExit 1, (tr2 ++ [Print (MsgConversionFailed e)])%list).
Proof.
  intros kraken_report bracken_tsv classify reestimate tr2 H1 H2 H3.
  unfold run_kraken_bracken.
  erewrite bind_return by (apply run_command_zero; exact H1).
  erewrite bind_return by (apply run_command_zero; exact H2).
  rewrite <- app_assoc. cbn [app]. fold kraken_report bracken_tsv classify reestimate tr2.
  apply bind_sys_exit.
  destruct (read_csv W bracken_tsv tr2) as [r tr3] eqn:E.
  pose proof (read_csv_inv _ _ _ _ _ E) as [-> _]. simpl in H3. subst r.
  erewrite try_except_raise by (apply bind_raise; exact E).
  reflexivity.
Qed.

Lemma unreadable_table_is_fatal_witness :
  run_kraken_bracken (archive_world []) float_of_decimal ["in/g.fastq"] "db" "out"
    "g_metaG" "150" []
  = (SysExit 1,
     [ Shell "kraken2 --db db --threads 8 --use-names  in/g.fastq --report out/g_metaG_kraken2.report --output out/g_metaG_kraken2.out";
       Shell "bracken -d db -i out/g_metaG_kraken2.report -o out/g_metaG_bracken.tsv -l S -r 150";
       Print (MsgConversionFailed ParserError) ]).
Proof.
  apply (unreadable_table_is_fatal (archive_world []) float_of_decimal
           ["in/g.fastq"] "db" "out" "g_metaG" "150" [] ParserError);
    reflexivity.
Defined.

(** ** [compute_similarity]: the two ids of the log *)

Lemma split_append c a b :
  Py.split c (a +:+ String c b) = (Py.split c a ++ Py.split c b)%list.
Proof.
  induction a as [|x a IH].
  - rewrite append_nil. simpl. rewrite Ascii.eqb_refl. reflexivity.
  - rewrite append_cons. simpl. rewrite IH.
    destruct (Ascii.eqb x c); [reflexivity|].
    pose proof (split_nonempty c a) as H.
    destruct (Py.split c a); [contradiction|reflexivity].
Qed.

Lemma compute_similarity_io_return_inv W cosine bracken_g bracken_t folder_path
    gid tid tr r tr' :
  let final_name := fstr [gid; "_"; tid] in
  compute_similarity_io W cosine bracken_g bracken_t folder_path final_name tr
  = (Return r, tr') ->
  tr' = (tr ++ [WriteLog
                  (Py.path_join folder_path (fstr [final_name; "_similarity.log"]))
                  (nth 0 (Py.split "_" gid ++ Py.split "_" tid) "")
                  (nth 1 (Py.split "_" gid ++ Py.split "_" tid) "")
                  (fst r) (snd r)])%list.
Proof.
  intros final_name E. pose proof E as E0. unfold compute_similarity_io in E.
  apply bind_return_inv in E as (df_g & tr1 & Eg & E).
  pose proof (read_csv_inv _ _ _ _ _ Eg) as [-> _].
  destruct df_g as [df_g|]; [|discriminate].
  apply bind_return_inv in E as (df_t & tr1 & Et & E).
  pose proof (read_csv_inv _ _ _ _ _ Et) as [-> _].
  destruct df_t as [df_t|]; [|discriminate].
  pose proof (compute_similarity_io_writes W cosine bracken_g bracken_t
                folder_path gid tid tr df_g df_t Eg Et) as F.
  cbv zeta in F. unfold final_name in E0. rewrite F in E0.
  injection E0 as <- <-. unfold final_name.
  rewrite (fstr_three gid "_" tid), append_cons, append_nil, split_append.
  reflexivity.
Qed.

(** X16. When neither id has an underscore in it, the similarity log names
    the metaG id and the metaT id as they are. *)
Theorem log_names_the_two_ids W cosine bracken_g bracken_t folder_path
    gid tid tr r tr' :
  Py.contains "_" gid = false ->
  Py.contains "_" tid = false ->
  let final_name := fstr [gid; "_"; tid] in
  compute_similarity_io W cosine bracken_g bracken_t folder_path final_name tr
  = (Return r, tr') ->
  tr' = (tr ++ [WriteLog
                  (Py.path_join folder_path (fstr [final_name; "_similarity.log"]))
                  gid tid (fst r) (snd r)])%list.
Proof.
  intros Hg Ht final_name E.
  apply compute_similarity_io_return_inv in E. rewrite E.
  rewrite (split_no_sep _ _ Hg), (split_no_sep _ _ Ht). reflexivity.
Qed.

Lemma log_names_the_two_ids_witness :
  let W := local_world (fun _ => 0%Z) sample_report sample_g sample_t in
  let r := compute_similarity Scipy.cosine sample_g sample_t in
  snd (compute_similarity_io W Scipy.cosine "g_metaG_bracken.tsv" "t.tsv" "out"
         (fstr ["g"; "_"; "t"]) [])
  = ([] ++ [WriteLog (Py.path_join "out" (fstr [fstr ["g"; "_"; "t"]; "_similarity.log"]))
              "g" "t" (fst r) (snd r)])%list.
Proof.
  intros W r.
  apply (log_names_the_two_ids W Scipy.cosine "g_metaG_bracken.tsv" "t.tsv" "out"
           "g" "t" [] r).
  - reflexivity.
  - reflexivity.
  - vm_compute. reflexivity.
Defined.

(** X17. The log takes its two ids from the first two pieces of the final
    name cut at underscores. When the metaG id has an underscore in it (a
    file named sample_1.fastq), the log names its first piece as the metaG
    id and its second piece as the metaT id: the metaT id is not in the
    log at all. *)
Theorem underscore_in_metaG_id_hides_the_metaT_id W cosine bracken_g bracken_t
    folder_path a b tid tr r tr' :
  Py.contains "_" a = false ->
  let gid := a +:+ "_" +:+ b in
  let final_name := fstr [gid; "_"; tid] in
  compute_similarity_io W cosine bracken_g bracken_t folder_path final_name tr
  = (Return r, tr') ->
  tr' = (tr ++ [WriteLog
                  (Py.path_join folder_path (fstr [final_name; "_similarity.log"]))
                  a (Py.first (Py.split "_" b)) (fst r) (snd r)])%list.
Proof.
  intros Ha gid final_name E.
  apply compute_similarity_io_return_inv in E. rewrite E. unfold gid.
  rewrite append_cons, append_nil, split_append, (split_no_sep _ _ Ha).
  pose proof (split_nonempty "_" b) as H.
  destruct (Py.split "_" b); [contradiction|reflexivity].
Qed.

Lemma underscore_in_metaG_id_hides_the_metaT_id_witness :
  let W := local_world (fun _ => 0%Z) sample_report sample_g sample_t in
  let r := compute_similarity Scipy.cosine sample_g sample_t in
  snd (compute_similarity_io W Scipy.cosine "g_metaG_bracken.tsv" "t.tsv" "out"
         (fstr ["sample" +:+ "_" +:+ "1"; "_"; "t"]) [])
  = ([] ++ [WriteLog
              (Py.path_join "out"
                 (fstr [fstr ["sample" +:+ "_" +:+ "1"; "_"; "t"]; "_similarity.log"]))
              "sample" (Py.first (Py.split "_" "1")) (fst r) (snd r)])%list.
Proof.
  intros W r.
  apply (underscore_in_metaG_id_hides_the_metaT_id W Scipy.cosine
           "g_metaG_bracken.tsv" "t.tsv" "out" "sample" "1" "t" [] r).
  - reflexivity.
  - vm_compute. reflexivity.
Defined.

(** ** [compute_similarity]: the two samples in the other order *)

(** The absolute difference and the product of two floats do not depend on
    the order of the two. *)
Lemma SFabs_binary_round_aux prec emax sx sy mx ex lx :
  SFabs (binary_round_aux prec emax sx mx ex lx)
  = SFabs (binary_round_aux prec emax sy mx ex lx).
Proof.
  unfold binary_round_aux.
  destruct (shr_fexp prec emax mx ex lx) as [m1 e1].
  destruct (shr_fexp prec emax _ e1 loc_Exact) as [m2 e2].
  destruct (shr_m m2); [reflexivity| |reflexivity].
  destruct (e2 <=? emax - prec)%Z; reflexivity.
Qed.

Lemma SFabs_binary_normalize_opp prec emax m e :
  SFabs (binary_normalize prec emax (- m) e false)
  = SFabs (binary_normalize prec emax m e false).
Proof.
  destruct m as [|p|p]; simpl; [reflexivity| |];
    unfold binary_round; destruct (shl_align _ _ _);
    apply SFabs_binary_round_aux.
Qed.

Lemma SFabs_SFsub_comm prec emax x y :
  SFabs (SFsub prec emax x y) = SFabs (SFsub prec emax y x).
Proof.
  destruct x as [sx|sx| |sx mx ex], y as [sy|sy| |sy my ey];
    try (destruct sx, sy; reflexivity); try reflexivity.
  cbn [SFsub]. cbv zeta. rewrite (Z.min_comm ey ex).
  rewrite <- SFabs_binary_normalize_opp. f_equal. f_equal. lia.
Qed.

Lemma abs_sub_comm x y :
  PrimFloat.abs (PrimFloat.sub x y) = PrimFloat.abs (PrimFloat.sub y x).
Proof.
  apply Prim2SF_inj.
  rewrite !FloatAxioms.abs_spec, !FloatAxioms.sub_spec. apply SFabs_SFsub_comm.
Qed.

Lemma SFmul_comm prec emax x y : SFmul prec emax x y = SFmul prec emax y x.
Proof.
  destruct x as [sx|sx| |sx mx ex], y as [sy|sy| |sy my ey]; simpl;
    rewrite ?(xorb_comm sy sx); try reflexivity.
  rewrite (Pos.mul_comm my mx), (Z.add_comm ey ex). reflexivity.
Qed.

Lemma mul_comm x y : PrimFloat.mul x y = PrimFloat.mul y x.
Proof.
  apply Prim2SF_inj. rewrite !FloatAxioms.mul_spec. apply SFmul_comm.
Qed.

(** Rows with unique keys have one sorted order. *)
Section SortUnique.
Context {L R : Type}.

Lemma key_le_antisym (x y : Joined L R) :
  key_le x y -> key_le y x -> key x = key y.
Proof. unfold key_le. intros H1 H2. apply String.leb_antisym; assumption. Qed.

Lemma sorted_unique (l l' : list (Joined L R)) :
  StronglySorted key_le l -> StronglySorted key_le l' ->
  Permutation l l' -> List.NoDup (map key l) -> l = l'.
Proof.
  intros Hs. revert l'. induction Hs as [|x l Hs IH Hx]; intros l' Hs' HP Hd.
  - apply Permutation_nil in HP. subst. reflexivity.
  - destruct Hs' as [|y l' Hs' Hy].
    + apply Permutation_sym, Permutation_nil in HP. discriminate.
    + assert (E : x = y).
      { assert (Hy' : In y (x :: l))
          by (apply (Permutation_in _ (Permutation_sym HP)); left; reflexivity).
        assert (Hx' : In x (y :: l'))
          by (apply (Permutation_in _ HP); left; reflexivity).
        destruct Hy' as [E|Hy']; [exact E|].
        destruct Hx' as [E|Hx']; [symmetry; exact E|].
        rewrite List.Forall_forall in Hx, Hy.
        pose proof (key_le_antisym _ _ (Hx _ Hy') (Hy _ Hx')) as Ek.
        exfalso. simpl in Hd. inversion Hd as [|? ? Hn _]; subst.
        apply Hn. rewrite Ek. apply in_map, Hy'. }
      subst y. f_equal. apply IH.
      * exact Hs'.
      * apply (Permutation_cons_inv HP).
      * simpl in Hd. inversion Hd; assumption.
Qed.

Lemma sort_by_key_unique (l l' : list (Joined L R)) :
  Permutation l l' -> List.NoDup (map key l) -> sort_by_key l = sort_by_key l'.
Proof.
  intros HP Hd. apply sorted_unique.
  - apply sort_by_key_sorted.
  - apply sort_by_key_sorted.
  - rewrite !sort_by_key_perm. exact HP.
  - apply (Permutation_NoDup (l := map key l)); [|exact Hd].
    apply Permutation_map, Permutation_sym, sort_by_key_perm.
Qed.

Lemma swap_insert_by_key (x : Joined L R) l :
  map swap_sides (insert_by_key x l)
  = insert_by_key (swap_sides x) (map swap_sides l).
Proof.
  induction l as [|y l IH]; simpl; [reflexivity|].
  destruct (String.leb (key x) (key y)); simpl; [reflexivity|].
  rewrite IH. reflexivity.
Qed.

Lemma swap_sort_by_key (l : list (Joined L R)) :
  map swap_sides (sort_by_key l) = sort_by_key (map swap_sides l).
Proof.
  induction l as [|x l IH]; simpl; [reflexivity|].
  rewrite swap_insert_by_key, IH. reflexivity.
Qed.

End SortUnique.

Section SwapJoin.
Context {L R : Type}.
Variable kl : L -> string.
Variable kr : R -> string.

Lemma in_left_rows B l j :
  In j (left_rows kl kr B l)
  <-> (~ In (kl l) (map kr B)
       /\ j = {| key := kl l; left := Some l; right := None |})
      \/ exists r, In r B /\ kr r = kl l
                   /\ j = {| key := kl l; left := Some l; right := Some r |}.
Proof.
  unfold left_rows. destruct (matching kr (kl l) B) as [|m ms] eqn:E.
  - split.
    + intros [<-|[]]. left. split; [|reflexivity].
      intros H. apply in_map_iff in H as [r [Hk Hr]].
      assert (Hm : In r (matching kr (kl l) B)) by (apply matching_In; auto).
      rewrite E in Hm. contradiction.
    + intros [[_ ->]|[r [Hr [Hk _]]]]; [left; reflexivity|].
      assert (Hm : In r (matching kr (kl l) B)) by (apply matching_In; auto).
      rewrite E in Hm. contradiction.
  - rewrite <- E. rewrite in_map_iff. split.
    + intros [r [<- Hr]]. apply matching_In in Hr as [Hr Hk]. right. eauto.
    + intros [[Hn _]|[r [Hr [Hk ->]]]].
      * exfalso. rewrite (matching_nil kr _ _ Hn) in E. discriminate.
      * exists r. split; [reflexivity|]. apply matching_In. auto.
Qed.

(** The rows of the outer join before they are sorted. *)
Lemma in_unsorted A B j :
  In j (flat_map (left_rows kl kr B) A ++ right_only kl kr A B)%list
  <-> (exists l, In l A /\ ~ In (kl l) (map kr B)
                 /\ j = {| key := kl l; left := Some l; right := None |})
      \/ (exists l r, In l A /\ In r B /\ kr r = kl l
                      /\ j = {| key := kl l; left := Some l; right := Some r |})
      \/ (exists r, In r B /\ ~ In (kr r) (map kl A)
                    /\ j = {| key := kr r; left := None; right := Some r |}).
Proof.
  rewrite in_app_iff, in_flat_map, right_only_In. split.
  - intros [[l [Hl Hj]]|[r [-> [Hr Hn]]]].
    + apply in_left_rows in Hj as [[Hn ->]|[r [Hr [Hk ->]]]].
      * left. eauto.
      * right. left. exists l, r. auto.
    + right. right. eauto.
  - intros [[l [Hl [Hn ->]]]|[[l [r [Hl [Hr [Hk ->]]]]]|[r [Hr [Hn ->]]]]].
    + left. exists l. split; [exact Hl|]. apply in_left_rows. left. auto.
    + left. exists l. split; [exact Hl|]. apply in_left_rows. right. eauto.
    + right. eauto.
Qed.

Lemma key_flat_map_left_rows A B :
  List.NoDup (map kr B) ->
  map key (flat_map (left_rows kl kr B) A) = map kl A.
Proof.
  intros HB. induction A as [|l A IH]; simpl; [reflexivity|].
  rewrite map_app, IH. f_equal.
  pose proof (length_left_rows kl kr B l HB) as Hlen.
  destruct (left_rows kl kr B l) as [|j [|j' js]] eqn:E; simpl in Hlen; try lia.
  assert (Hj : In j (left_rows kl kr B l)) by (rewrite E; left; reflexivity).
  destruct (left_rows_key _ _ _ _ _ Hj) as [Hk _]. simpl. rewrite Hk. reflexivity.
Qed.

Lemma NoDup_key_unsorted A B :
  List.NoDup (map kl A) -> List.NoDup (map kr B) ->
  List.NoDup
    (map key (flat_map (left_rows kl kr B) A ++ right_only kl kr A B)%list).
Proof.
  intros HA HB. rewrite map_app, key_flat_map_left_rows by exact HB.
  unfold right_only. rewrite map_map. simpl.
  apply List.NoDup_app.
  - exact HA.
  - apply (NoDup_filter_map kr), HB.
  - intros x Hx Hx'. apply in_map_iff in Hx' as [r [<- Hr]].
    apply filter_In in Hr as [_ Hr]. apply (has_key_In kl) in Hx.
    rewrite Hx in Hr. discriminate.
Qed.

End SwapJoin.

Lemma NoDup_of_map {X Y} (f : X -> Y) (l : list X) :
  List.NoDup (map f l) -> List.NoDup l.
Proof.
  induction l as [|x l IH]; simpl; intros H; [constructor|].
  inversion H as [|? ? Hn Hd]; subst. constructor; [|auto].
  intros Hx. apply Hn, in_map, Hx.
Qed.

Section SwapOuter.
Context {L R : Type}.
Variable kl : L -> string.
Variable kr : R -> string.

(** With unique keys on both sides, the outer join of the two frames taken
    in the other order has the same rows in the same order, the sides
    exchanged. *)
Lemma pd_merge_outer_swap A B :
  List.NoDup (map kl A) -> List.NoDup (map kr B) ->
  pd_merge_outer kr kl B A = map swap_sides (pd_merge_outer kl kr A B).
Proof.
  intros HA HB. unfold pd_merge_outer. rewrite swap_sort_by_key.
  apply sort_by_key_unique; [|apply NoDup_key_unsorted; assumption].
  apply Permutation.NoDup_Permutation.
  - apply (NoDup_of_map key), NoDup_key_unsorted; assumption.
  - apply (NoDup_of_map key). rewrite map_map. simpl.
    apply NoDup_key_unsorted; assumption.
  - intros j. rewrite in_map_iff. rewrite in_unsorted. split.
    + intros [[r [Hr [Hn ->]]]|[[r [l [Hr [Hl [Hk ->]]]]]|[l [Hl [Hn ->]]]]].
      * exists {| key := kr r; left := None; right := Some r |}.
        split; [reflexivity|]. apply in_unsorted. right. right. eauto.
      * exists {| key := kl l; left := Some l; right := Some r |}.
        split; [unfold swap_sides; simpl; rewrite Hk; reflexivity|].
        apply in_unsorted. right. left. exists l, r. auto.
      * exists {| key := kl l; left := Some l; right := None |}.
        split; [reflexivity|]. apply in_unsorted. left. eauto.
    + intros [j' [<- Hj]]. apply in_unsorted in Hj
        as [[l [Hl [Hn ->]]]|[[l [r [Hl [Hr [Hk ->]]]]]|[r [Hr [Hn ->]]]]].
      * right. right. eauto.
      * right. left. exists r, l. unfold swap_sides. simpl. rewrite Hk. auto.
      * left. eauto.
Qed.

End SwapOuter.

Lemma difference_score_comm (u v : list float) :
  difference_score u v = difference_score v u.
Proof.
  unfold difference_score. generalize 0%float as acc. revert v.
  induction u as [|x u IH]; intros [|y v] acc; simpl; try reflexivity.
  rewrite (abs_sub_comm x y). apply IH.
Qed.

Lemma dot_comm (u v : list float) : Scipy.dot u v = Scipy.dot v u.
Proof.
  unfold Scipy.dot. generalize 0%float as acc. revert v.
  induction u as [|x u IH]; intros [|y v] acc; simpl; try reflexivity.
  rewrite (mul_comm x y). apply IH.
Qed.

Lemma scipy_cosine_comm (u v : list float) : Scipy.cosine u v = Scipy.cosine v u.
Proof.
  unfold Scipy.cosine. cbv zeta.
  rewrite (dot_comm v u), (mul_comm (Scipy.dot v v)). reflexivity.
Qed.

Lemma all_abund_swap (A B : AbundanceTable) :
  List.NoDup (map name A) -> List.NoDup (map name B) ->
  all_abund B A = map swap_sides (all_abund A B).
Proof.
  intros HA HB. unfold all_abund. apply pd_merge_outer_swap.
  - rewrite map_map. simpl. apply NoDup_filter_map, HA.
  - rewrite map_map. simpl. apply NoDup_filter_map, HB.
Qed.

(** X18. With unique taxon names in each table, the comparison is symmetric:
    taking the two tables in the other order exchanges the two abundance
    vectors, entry by entry and in the same order of taxa, and gives the
    same difference score and, with scipy's cosine distance, the same
    similarity, bit for bit. *)
Theorem swapping_the_samples_keeps_the_scores (A B : AbundanceTable) :
  NoDup (map name A) -> NoDup (map name B) ->
  vec_g B A = vec_t A B
  /\ vec_t B A = vec_g A B
  /\ compute_similarity Scipy.cosine B A = compute_similarity Scipy.cosine A B.
Proof.
  intros HA HB. apply NoDup_ListNoDup in HA, HB.
  assert (Hg : vec_g B A = vec_t A B).
  { unfold vec_g, vec_t. rewrite (all_abund_swap A B HA HB), map_map.
    reflexivity. }
  assert (Ht : vec_t B A = vec_g A B).
  { unfold vec_g, vec_t. rewrite (all_abund_swap A B HA HB), map_map.
    reflexivity. }
  split; [exact Hg|]. split; [exact Ht|].
  unfold compute_similarity. cbv zeta. rewrite Hg, Ht.
  rewrite (scipy_cosine_comm (vec_t A B)), (difference_score_comm (vec_t A B)).
  reflexivity.
Qed.

Lemma swapping_the_samples_keeps_the_scores_witness :
  vec_g sample_t sample_g = vec_t sample_g sample_t
  /\ vec_t sample_t sample_g = vec_g sample_g sample_t
  /\ compute_similarity Scipy.cosine sample_t sample_g
     = compute_similarity Scipy.cosine sample_g sample_t.
Proof.
  apply swapping_the_samples_keeps_the_scores.
  - apply (bool_decide_unpack _). vm_compute. exact I.
  - apply (bool_decide_unpack _). vm_compute. exact I.
Defined.
